(** * Quote-Notifier-Service: the three scripts, embedded and verified

    - [Broadcaster] : src/subscribers.py  (WhatsApp broadcast)
    - [Emailer]     : src/apirequest.py   (daily quote e-mail)
    - [Sheet]       : src/ingest.py       (published sheet -> table -> cleaned table)
    - [Loader]      : src/ingest.py       (CSV -> ClickHouse, incremental or not)

    Every script is a straight-line program around one [for] loop.  Calls
    that leave the process (HTTP, SMTP, pywhatkit, ClickHouse) are answered
    by an explicit [world] argument; what the script does to the outside
    is recorded as a list of events, in program order.  Python exceptions
    are the left summand of the result. *)

From Stdlib Require Import List String Ascii Bool Arith ZArith Lia.
Import ListNotations.
Local Open Scope list_scope.
Local Open Scope string_scope.

(** ** Runs: an event trace and either an exception or a value *)

Module Run.

Section WithTypes.
Context {E X : Type}.

Definition t (A : Type) : Type := (list E * (X + A))%type.

Definition ret {A} (a : A) : t A := ([], inr a).
Definition raise {A} (x : X) : t A := ([], inl x).
Definition emit (e : E) : t unit := ([e], inr tt).

Definition bind {A B} (m : t A) (k : A -> t B) : t B :=
  match m with
  | (tr, inl x) => (tr, inl x)
  | (tr, inr a) => let (tr', r) := k a in ((tr ++ tr')%list, r)
  end.

(** [try: m except x: h x] *)
Definition catch {A} (m : t A) (h : X -> t A) : t A :=
  match m with
  | (tr, inl x) => let (tr', r) := h x in ((tr ++ tr')%list, r)
  | (tr, inr a) => (tr, inr a)
  end.

Definition trace {A} (m : t A) : list E := fst m.
Definition outcome {A} (m : t A) : X + A := snd m.
End WithTypes.

Arguments t : clear implicits.

End Run.

Declare Scope run_scope.
Delimit Scope run_scope with run.
Notation "x <- m ;; k" := (Run.bind m (fun x => k))
  (at level 61, m at next level, right associativity) : run_scope.
Notation "m ;; k" := (Run.bind m (fun _ => k))
  (at level 61, right associativity) : run_scope.

(** Log records keep the level of the [logger] call that wrote them. *)
Inductive level := DEBUG | INFO | WARNING | ERROR | CRITICAL.

(** ** Python string operations used by the scripts (ASCII text) *)

Module PyStr.

Fixpoint drop (k : nat) (s : string) : string :=
  match k, s with
  | O, _ => s
  | S _, EmptyString => EmptyString
  | S k', String _ s' => drop k' s'
  end.

Fixpoint take (k : nat) (s : string) : string :=
  match k, s with
  | O, _ => EmptyString
  | S _, EmptyString => EmptyString
  | S k', String c s' => String c (take k' s')
  end.

(** [s[i:]] for any integer [i], negative ones counting from the end. *)
Definition slice_from (i : Z) (s : string) : string :=
  let n := Z.of_nat (String.length s) in
  let start := if (i <? 0)%Z then Z.max 0 (n + i) else Z.min i n in
  drop (Z.to_nat start) s.

(** [str.isspace] on ASCII: TAB..CR, FS..US and the blank. *)
Definition is_space (c : ascii) : bool :=
  let n := nat_of_ascii c in
  (((9 <=? n) && (n <=? 13)) || ((28 <=? n) && (n <=? 32)))%nat.

Fixpoint lstrip (s : string) : string :=
  match s with
  | EmptyString => EmptyString
  | String c s' => if is_space c then lstrip s' else s
  end.

Fixpoint rstrip (s : string) : string :=
  match s with
  | EmptyString => EmptyString
  | String c s' =>
      match rstrip s' with
      | EmptyString => if is_space c then EmptyString else String c EmptyString
      | r => String c r
      end
  end.

Definition strip (s : string) : string := rstrip (lstrip s).

(** [s.split(sep)] for a one-character separator: never the empty list. *)
Fixpoint split (sep : ascii) (s : string) : list string :=
  match s with
  | EmptyString => [EmptyString]
  | String c s' =>
      if Ascii.eqb c sep then EmptyString :: split sep s'
      else match split sep s' with
           | [] => [String c EmptyString]
           | w :: ws => String c w :: ws
           end
  end.

(** [s.replace(old, new)] for a non-empty [old]: leftmost occurrences,
    not overlapping.  [skip] counts the characters of a match still to be
    passed over. *)
Fixpoint replace_from (old new : string) (skip : nat) (s : string) : string :=
  match s with
  | EmptyString => EmptyString
  | String c s' =>
      match skip with
      | S k => replace_from old new k s'
      | O =>
          if prefix old s
          then new ++ replace_from old new (String.length old - 1) s'
          else String c (replace_from old new 0 s')
      end
  end.

Definition replace (old new s : string) : string := replace_from old new 0 s.

(** Truth value of a [str]: non-empty. *)
Definition truthy (s : string) : bool :=
  match s with EmptyString => false | _ => true end.

End PyStr.

(** ** src/subscribers.py *)

Module Broadcaster.

Inductive exn :=
| AttributeError   (* method call on None *)
| TypeError        (* None passed where a str is required *)
| SendError.       (* whatever pywhatkit raised *)

(** The four values read with [os.getenv]; [None] when the variable is
    not set. *)
Record env := {
  google_form : option string;       (* GOOGLE_LINK *)
  recepients : option string;        (* CONTACTS *)
  message_template : option string;  (* MESSAGE_TEMPLATE *)
  sender_name : option string        (* SENDER_NAME *)
}.

Inductive message :=
| MsgStarted
| MsgTotalContacts (n : nat)
| MsgSender (name : string)
| MsgTemplatePrepared
| MsgProcessing (idx total : nat) (masked : string)
| MsgSent (masked : string)
| MsgWaiting
| MsgFailedToSend (masked : string)
| MsgSummary
| MsgTotalSent (n : nat)
| MsgTotalFailed (n : nat)
| MsgLogSaved
| MsgComplete
| MsgMissingEnv
| MsgRequired
| MsgUnexpected.

Inductive event :=
| Log (l : level) (m : message)
| SendWhatMsg (phone msg : string) (wait_time : nat) (tab_close : bool)
| Sleep (seconds : nat).

Definition M := Run.t event exn.

Definition log (l : level) (m : message) : M unit := Run.emit (Log l m).

(** [world n] tells whether the [n]-th call (from 1) of
    [kit.sendwhatmsg_instantly] returns; otherwise it raises. *)
Definition world := nat -> bool.

Definition mask_phone (phone_number : string) : string :=
  if (4 <? String.length phone_number)%nat
  then "***" ++ PyStr.slice_from (-4) phone_number
  else "****".

(** Line 35, executed when the module is loaded. *)
Definition contact_list (e : env) : exn + list string :=
  match recepients e with
  | None => inl AttributeError
  | Some r => inr (map PyStr.strip (PyStr.split "," r))
  end.

Definition create_message (e : env) : exn + string :=
  match message_template e with
  | None => inl AttributeError
  | Some t =>
      match google_form e with
      | None => inl TypeError
      | Some g =>
          match sender_name e with
          | None => inl TypeError
          | Some s => inr (PyStr.replace "{sender}" s (PyStr.replace "{form_link}" g t))
          end
      end
  end.

Record counters := { success_count : nat; failed_count : nat }.

(** The body of the [for] loop of [send_messages], contacts numbered from
    [idx]; [total] is [len(contact_list)]. *)
Fixpoint send_loop (w : world) (msg : string) (total idx : nat)
    (contacts : list string) (c : counters) : M counters :=
  match contacts with
  | [] => Run.ret c
  | phone_no :: rest =>
      let masked_number := mask_phone phone_no in
      (c' <- Run.catch
               (log INFO (MsgProcessing idx total masked_number) ;;
                Run.emit (SendWhatMsg phone_no msg 50 false) ;;
                (if w idx then Run.ret tt else Run.raise SendError) ;;
                log INFO (MsgSent masked_number) ;;
                let c := {| success_count := S (success_count c);
                            failed_count := failed_count c |} in
                (if (idx <? total)%nat
                 then log INFO MsgWaiting ;; Run.emit (Sleep 60)
                 else Run.ret tt) ;;
                Run.ret c)
               (fun _ =>
                  log ERROR (MsgFailedToSend masked_number) ;;
                  Run.ret {| success_count := success_count c;
                             failed_count := S (failed_count c) |}) ;;
       send_loop w msg total (S idx) rest c')%run
  end.

Definition send_messages (e : env) (w : world) (contacts : list string) : M unit :=
  (message <- ([], create_message e) ;;
   log INFO MsgStarted ;;
   log INFO (MsgTotalContacts (List.length contacts)) ;;
   log INFO (MsgSender (match sender_name e with Some s => s | None => "None" end)) ;;
   log INFO MsgTemplatePrepared ;;
   c <- send_loop w message (List.length contacts) 1 contacts
          {| success_count := 0; failed_count := 0 |} ;;
   log INFO MsgSummary ;;
   log INFO (MsgTotalSent (success_count c)) ;;
   log INFO (MsgTotalFailed (failed_count c)) ;;
   log INFO MsgLogSaved ;;
   log INFO MsgComplete)%run.

(** Truth value of an [os.getenv] result: set and not empty. *)
Definition truthy (v : option string) : bool :=
  match v with Some s => PyStr.truthy s | None => false end.

(** The whole script run as [__main__]: the module-level statements, then
    the guarded block. *)
Definition script (e : env) (w : world) : M unit :=
  (contacts <- ([], contact_list e) ;;
   if negb (forallb truthy
              [google_form e; recepients e; message_template e; sender_name e])
   then log ERROR MsgMissingEnv ;; log ERROR MsgRequired
   else Run.catch (send_messages e w contacts)
          (fun _ => log ERROR MsgUnexpected))%run.

Definition is_send (ev : event) : bool :=
  match ev with SendWhatMsg _ _ _ _ => true | _ => false end.

Definition is_error_log (ev : event) : bool :=
  match ev with Log ERROR _ => true | _ => false end.

Definition sends (tr : list event) : list event := filter is_send tr.
Definition error_logs (tr : list event) : list event := filter is_error_log tr.

(** *** Sample inputs *)

Definition all_set : env :=
  {| google_form := Some "http://f"; recepients := Some "111,222";
     message_template := Some "Hi {sender}, sign here: {form_link}";
     sender_name := Some "Bot" |}.

Definition contacts_unset : env :=
  {| google_form := Some "http://f"; recepients := None;
     message_template := Some "Hi {sender}, sign here: {form_link}";
     sender_name := Some "Bot" |}.

End Broadcaster.

(** ** src/apirequest.py *)

Module Emailer.

Inductive exn :=
| Timeout                   (* requests.exceptions.Timeout *)
| RequestError              (* any other exception out of requests.get *)
| JSONDecodeError
| IndexError
| KeyError
| TypeError
| SMTPAuthenticationError
| SMTPException
| OtherError
| ZeroDivisionError.

#[local] Unset Elimination Schemes.

(** What [response.json()] can return.  An object is the list of its
    items, each key once. *)
Inductive json :=
| JNull
| JBool (b : bool)
| JNum (z : Z)
| JStr (s : string)
| JArr (items : list json)
| JObj (fields : list (string * json)).
#[local] Set Elimination Schemes.

Inductive http_reply :=
| HttpTimeout
| HttpFailure
| HttpResponse (status_code : Z) (body : option json).
    (* [body = None]: [response.json()] raises *)

Inductive smtp_reply := SmtpOk | SmtpAuthFailed | SmtpFailed | SmtpOtherFailure.

Definition subscriber : Type := (string * string * string)%type.

Inductive db_reply :=
| ConnectionFails
| QueryFails
| DbRows (rows : list subscriber).

(** Answers of the outside: the warehouse query, and the [n]-th call
    (from 1) of [requests.get] and of the SMTP session. *)
Record world := {
  db : db_reply;
  http : nat -> http_reply;
  smtp : nat -> smtp_reply
}.

Inductive message :=
| MsgRule (width : nat)
| MsgFetchingSubscribers
| MsgHost
| MsgDatabase
| MsgConnected
| MsgExecutingQuery
| MsgQueryExecuted
| MsgRetrieved (n : nat)
| MsgNoActiveSubscribers
| MsgClickHouseFailed
| MsgFetchingQuote
| MsgResponseStatus (status_code : Z)
| MsgQuoteRetrieved (head : string)
| MsgNon200 (status_code : Z)
| MsgUsingFallback (quote : string)
| MsgTimedOut
| MsgQuoteError
| MsgPreparing (first_name last_name recipient : string)
| MsgConnectingSmtp
| MsgEmailSent (recipient : string)
| MsgAuthFailed (recipient : string)
| MsgSmtpError (recipient : string)
| MsgUnexpectedSendError (recipient : string)
| MsgPipelineStarted
| MsgExecutionStarted
| MsgAborted
| MsgStartingEmails
| MsgTotalToProcess (n : nat)
| MsgProcessing (idx total : nat)
| MsgWaiting
| MsgPipelineCompleted
| MsgTotalTime
| MsgTotalActive (n : nat)
| MsgSentSuccessfully (n : nat)
| MsgEmailsFailed (n : nat)
| MsgSuccessRate (num den : nat)   (* [num / den * 100], as a fraction *)
| MsgCompletedAt.

Inductive event :=
| Log (l : level) (m : message)
| HttpGet (url : string) (timeout : nat)
| SmtpSend (recipient subject text html : string)
| Sleep (seconds : nat).

Definition M := Run.t event exn.
Definition log (l : level) (m : message) : M unit := Run.emit (Log l m).
Definition lift {A} (r : exn + A) : M A := ([], r).

Definition dquote : string := String (ascii_of_nat 34) EmptyString.
Definition nl : string := String (ascii_of_nat 10) EmptyString.

Definition fallback_quote : string :=
  "Believe you can and you're halfway there. - Theodore Roosevelt".

Definition get_subscribers (w : world) : M (list subscriber) :=
  (log INFO (MsgRule 50) ;;
   log INFO MsgFetchingSubscribers ;;
   log INFO MsgHost ;;
   log INFO MsgDatabase ;;
   Run.catch
     (lift (match db w with
            | ConnectionFails => inl OtherError
            | _ => inr tt
            end) ;;
      log INFO MsgConnected ;;
      log INFO MsgExecutingQuery ;;
      subscribers <- lift (match db w with
                           | DbRows rows => inr rows
                           | _ => inl OtherError
                           end) ;;
      log INFO MsgQueryExecuted ;;
      log INFO (MsgRetrieved (List.length subscribers)) ;;
      (if (List.length subscribers =? 0)%nat
       then log WARNING MsgNoActiveSubscribers else Run.ret tt) ;;
      Run.ret subscribers)
     (fun _ => log ERROR MsgClickHouseFailed ;; Run.ret []))%run.

Fixpoint lookup (k : string) (fields : list (string * json)) : option json :=
  match fields with
  | [] => None
  | (k', v) :: rest => if String.eqb k k' then Some v else lookup k rest
  end.

(** [data[0]] *)
Definition item0 (data : json) : exn + json :=
  match data with
  | JArr (x :: _) => inr x
  | JArr [] => inl IndexError
  | JStr (String c _) => inr (JStr (String c EmptyString))
  | JStr EmptyString => inl IndexError
  | JObj _ => inl KeyError
  | JNull | JBool _ | JNum _ => inl TypeError
  end.

(** [d[k]] for a string key [k] *)
Definition item (k : string) (d : json) : exn + json :=
  match d with
  | JObj fields =>
      match lookup k fields with Some v => inr v | None => inl KeyError end
  | _ => inl TypeError
  end.

Section WithRepr.
(** How an f-string renders a value that is not a [str]. *)
Variable py_repr : json -> string.

Definition format (v : json) : string :=
  match v with JStr s => s | _ => py_repr v end.

Definition get_random_quote (r : http_reply) : M string :=
  (log INFO MsgFetchingQuote ;;
   Run.catch
     (Run.emit (HttpGet "https://zenquotes.io/api/random" 30) ;;
      resp <- lift (match r with
                    | HttpTimeout => inl Timeout
                    | HttpFailure => inl RequestError
                    | HttpResponse status_code body => inr (status_code, body)
                    end) ;;
      let (status_code, body) := resp in
      log INFO (MsgResponseStatus status_code) ;;
      if (status_code =? 200)%Z then
        data <- lift (match body with
                      | Some d => inr d
                      | None => inl JSONDecodeError
                      end) ;;
        first <- lift (item0 data) ;;
        quote <- lift (item "q" first) ;;
        first' <- lift (item0 data) ;;
        author <- lift (item "a" first') ;;
        let full_quote := dquote ++ format quote ++ dquote ++ " - " ++ format author in
        log INFO (MsgQuoteRetrieved (PyStr.take 100 full_quote)) ;;
        Run.ret full_quote
      else
        log WARNING (MsgNon200 status_code) ;;
        log INFO (MsgUsingFallback fallback_quote) ;;
        Run.ret fallback_quote)
     (fun e =>
        match e with
        | Timeout => log ERROR MsgTimedOut ;; Run.ret fallback_quote
        | _ => log ERROR MsgQuoteError ;; Run.ret fallback_quote
        end))%run.

Definition text_body (first_name last_name quote : string) : string :=
  nl ++ "        Hello " ++ first_name ++ " " ++ last_name ++ "!" ++ nl ++
  "        " ++ nl ++
  "        Here's your inspirational quote for today:" ++ nl ++
  "        " ++ nl ++
  "        " ++ quote ++ nl ++
  "        " ++ nl ++
  "        Until tomorrow, stay inspired!" ++ nl ++
  nl ++
  "        Team Mindfuel" ++ nl ++
  "        ".

Definition html_body (first_name last_name quote : string) : string :=
  nl ++ "        <html>" ++ nl ++
  "          <body>" ++ nl ++
  "            <h3>Hello " ++ first_name ++ " " ++ last_name ++ "!</h3>" ++ nl ++
  "            <p>Here's your inspirational quote for today:</p>" ++ nl ++
  "            <blockquote style=" ++ dquote ++
    "font-style: italic; font-size: 18px; margin: 20px;" ++ dquote ++ ">" ++ nl ++
  "              " ++ quote ++ nl ++
  "            </blockquote>" ++ nl ++
  "            <p>Until tomorrow, stay inspired!</p>" ++ nl ++
  "            <br>" ++ nl ++
  "            <p>Team MindFuel</p>" ++ nl ++
  "          </body>" ++ nl ++
  "        </html>" ++ nl ++
  "        ".

Definition send_email (r : smtp_reply)
    (recipient_email first_name last_name quote : string) : M bool :=
  (log INFO (MsgPreparing first_name last_name recipient_email) ;;
   Run.catch
     (log INFO MsgConnectingSmtp ;;
      Run.emit (SmtpSend recipient_email "Your Daily Inspiration Quote"
                  (text_body first_name last_name quote)
                  (html_body first_name last_name quote)) ;;
      lift (match r with
            | SmtpOk => inr tt
            | SmtpAuthFailed => inl SMTPAuthenticationError
            | SmtpFailed => inl SMTPException
            | SmtpOtherFailure => inl OtherError
            end) ;;
      log INFO (MsgEmailSent recipient_email) ;;
      Run.ret true)
     (fun e =>
        match e with
        | SMTPAuthenticationError =>
            log ERROR (MsgAuthFailed recipient_email) ;; Run.ret false
        | SMTPException =>
            log ERROR (MsgSmtpError recipient_email) ;; Run.ret false
        | _ =>
            log ERROR (MsgUnexpectedSendError recipient_email) ;; Run.ret false
        end))%run.

Record counters := { success_count : nat; failed_count : nat }.

(** The [for] loop of [main], subscribers numbered from [idx]; [total]
    is [len(subscribers)]. *)
Fixpoint email_loop (w : world) (total idx : nat)
    (subscribers : list subscriber) (c : counters) : M counters :=
  match subscribers with
  | [] => Run.ret c
  | (first_name, last_name, email) :: rest =>
      (log INFO (MsgRule 50) ;;
       log INFO (MsgProcessing idx total) ;;
       quote <- get_random_quote (http w idx) ;;
       sent <- send_email (smtp w idx) email first_name last_name quote ;;
       let c' := if sent : bool
                 then {| success_count := S (success_count c);
                         failed_count := failed_count c |}
                 else c in
       (if (idx <? total)%nat
        then log INFO MsgWaiting ;; Run.emit (Sleep 30)
        else Run.ret tt) ;;
       email_loop w total (S idx) rest c')%run
  end.

(** [a / b] on two counts: the quotient as a fraction. *)
Definition true_div (a b : nat) : exn + (nat * nat) :=
  match b with
  | O => inl ZeroDivisionError
  | S _ => inr (a, b)
  end.

Definition main (w : world) : M unit :=
  (log INFO (MsgRule 70) ;;
   log INFO MsgPipelineStarted ;;
   log INFO MsgExecutionStarted ;;
   log INFO (MsgRule 70) ;;
   subscribers <- get_subscribers w ;;
   match subscribers with
   | [] => log ERROR MsgAborted
   | _ :: _ =>
       log INFO (MsgRule 50) ;;
       log INFO MsgStartingEmails ;;
       log INFO (MsgTotalToProcess (List.length subscribers)) ;;
       log INFO (MsgRule 50) ;;
       c <- email_loop w (List.length subscribers) 1 subscribers
              {| success_count := 0; failed_count := 0 |} ;;
       log INFO (MsgRule 70) ;;
       log INFO MsgPipelineCompleted ;;
       log INFO (MsgRule 70) ;;
       log INFO MsgTotalTime ;;
       log INFO (MsgTotalActive (List.length subscribers)) ;;
       log INFO (MsgSentSuccessfully (success_count c)) ;;
       log INFO (MsgEmailsFailed (failed_count c)) ;;
       rate <- lift (true_div (success_count c) (List.length subscribers)) ;;
       log INFO (MsgSuccessRate (fst rate) (snd rate)) ;;
       log INFO MsgCompletedAt ;;
       log INFO (MsgRule 70)
   end)%run.
End WithRepr.

Definition is_summary (ev : event) : bool :=
  match ev with
  | Log _ (MsgSentSuccessfully _) | Log _ (MsgEmailsFailed _)
  | Log _ (MsgSuccessRate _ _) => true
  | _ => false
  end.

(** What the final summary reports. *)
Definition reported_success (tr : list event) : list nat :=
  flat_map (fun ev => match ev with
                      | Log _ (MsgSentSuccessfully n) => [n]
                      | _ => []
                      end) tr.

Definition reported_failed (tr : list event) : list nat :=
  flat_map (fun ev => match ev with
                      | Log _ (MsgEmailsFailed n) => [n]
                      | _ => []
                      end) tr.

Definition reported_rates (tr : list event) : list (nat * nat) :=
  flat_map (fun ev => match ev with
                      | Log _ (MsgSuccessRate a b) => [(a, b)]
                      | _ => []
                      end) tr.

Definition smtp_ok (r : smtp_reply) : bool :=
  match r with SmtpOk => true | _ => false end.

(** Number of SMTP sessions among calls [idx .. idx + n - 1] that go
    through. *)
Definition successful_sends (w : world) (idx n : nat) : nat :=
  List.length (filter (fun i => smtp_ok (smtp w i)) (seq idx n)).

(** The rows [main] gets from [get_subscribers]. *)
Definition fetched (w : world) : list subscriber :=
  match db w with DbRows rows => rows | _ => [] end.

(** *** Sample inputs *)

Definition one_subscriber : world :=
  {| db := DbRows [("Ada", "Lovelace", "ada@x.com")];
     http := fun _ => HttpResponse 200
               (Some (JArr [JObj [("q", JStr "Test quote"); ("a", JStr "Tester")]]));
     smtp := fun _ => SmtpOk |}.

Definition two_subscribers_one_failure : world :=
  {| db := DbRows [("Ada", "Lovelace", "ada@x.com"); ("Alan", "Turing", "alan@x.com")];
     http := fun _ => HttpTimeout;
     smtp := fun n => if (n =? 1)%nat then SmtpFailed else SmtpOk |}.

End Emailer.

(** ** src/ingest.py: extraction and cleaning *)

Module Sheet.

Inductive exn :=
| RequestException   (* connection error, timeout, bad URL *)
| HTTPError          (* [raise_for_status] on a 4xx/5xx answer *)
| ValueError         (* [pd.read_html] finds nothing to parse *)
| IndexError.        (* positional indexer out of bounds *)

(** A cell of a scraped table is missing ([NaN]) or holds a value, kept as
    the text [astype(str)] gives for it.  Column labels are cells too:
    header promotion makes labels out of a data row. *)
Inductive cell := NaN | Text (s : string).

(** Rows are kept by position: the row labels are reset before
    [clean_dataframe] returns. *)
Record dataframe := { columns : list cell; rows : list (list cell) }.

(** [pd.DataFrame()] *)
Definition empty_frame : dataframe := {| columns := []; rows := [] |}.

Definition isnull (c : cell) : bool :=
  match c with NaN => true | Text _ => false end.

Definition notnull (c : cell) : bool := negb (isnull c).

Definition astype_str (c : cell) : string :=
  match c with NaN => "nan" | Text s => s end.

Inductive fetch_reply :=
| FetchFails
| Response (status_code : Z) (text : string).

Inductive message :=
| MsgFetching (url : string)
| MsgExtractedHtml
| MsgNoTables
| MsgFoundTables (n : nat)
| MsgCreated (nrows ncols : nat)
| MsgFailedFetch
| MsgFailedParse
| MsgCleaning
| MsgRemovingIdentifiers
| MsgCleaned (nrows ncols : nat)
| MsgFailedClean.

Inductive event :=
| Log (l : level) (m : message)
| HttpGet (url : string) (timeout : nat)
| Print.

Definition M := Run.t event exn.
Definition log (l : level) (m : message) : M unit := Run.emit (Log l m).
Definition lift {A} (r : exn + A) : M A := ([], r).

Section Extract.
(** The two library calls that read HTML: [soup.find_all('table')] on
    the page text, and [pd.read_html(str(t))[0]] on one table element
    ([None] when it raises). *)
Context {element : Type}.
Variable find_all_table : string -> list element.
Variable read_html : element -> option dataframe.

Definition raise_for_status (status_code : Z) : M unit :=
  if ((400 <=? status_code) && (status_code <? 600))%Z
  then Run.raise HTTPError else Run.ret tt.

Definition extract_to_df (reply : fetch_reply) (sheet_url : string) : M dataframe :=
  Run.catch
    (log INFO (MsgFetching sheet_url) ;;
     Run.emit (HttpGet sheet_url 30) ;;
     response <- lift (match reply with
                       | FetchFails => inl RequestException
                       | Response status_code text => inr (status_code, text)
                       end) ;;
     raise_for_status (fst response) ;;
     let tables := find_all_table (snd response) in
     log INFO MsgExtractedHtml ;;
     match tables with
     | [] => log WARNING MsgNoTables ;; Run.ret empty_frame
     | first :: _ =>
         log INFO (MsgFoundTables (List.length tables)) ;;
         df_consent <- lift (match read_html first with
                             | Some df => inr df
                             | None => inl ValueError
                             end) ;;
         Run.emit Print ;;
         log INFO (MsgCreated (List.length (rows df_consent))
                     (List.length (columns df_consent))) ;;
         Run.ret df_consent
     end)%run
    (fun e =>
       match e with
       | RequestException | HTTPError =>
           (log ERROR MsgFailedFetch ;; Run.raise e)%run
       | _ => (log ERROR MsgFailedParse ;; Run.raise e)%run
       end).
End Extract.

(** *** The cleaning steps *)

(** [df.dropna(how='all')]: a row stays when some cell of it is not null. *)
Definition dropna_rows (df : dataframe) : dataframe :=
  {| columns := columns df; rows := filter (existsb notnull) (rows df) |}.

Definition column (j : nat) (rs : list (list cell)) : list cell :=
  map (fun r => nth j r NaN) rs.

(** Keep the positions of [l] whose flag is set. *)
Fixpoint select {A} (mask : list bool) (l : list A) : list A :=
  match mask, l with
  | true :: m, x :: l' => x :: select m l'
  | false :: m, _ :: l' => select m l'
  | _, _ => []
  end.

(** [df.dropna(axis=1, how='all')] *)
Definition dropna_columns (df : dataframe) : dataframe :=
  let mask := map (fun j => existsb notnull (column j (rows df)))
                  (seq 0 (List.length (columns df))) in
  {| columns := select mask (columns df); rows := map (select mask) (rows df) |}.

Definition is_digit (c : ascii) : bool :=
  let n := nat_of_ascii c in ((48 <=? n) && (n <=? 57))%nat.

Definition is_upper (c : ascii) : bool :=
  let n := nat_of_ascii c in ((65 <=? n) && (n <=? 90))%nat.

(** [re.match(r'^\d+', s)] *)
Definition starts_with_digit (s : string) : bool :=
  match s with
  | String c _ => is_digit c
  | EmptyString => false
  end.

(** [re.match(r'^[A-Z]$', s)]: one capital, then the end of the string
    or a final newline. *)
Definition single_capital (s : string) : bool :=
  match s with
  | String c EmptyString => is_upper c
  | String c (String d EmptyString) => is_upper c && (nat_of_ascii d =? 10)%nat
  | _ => false
  end.

(** [df.iloc[:, 1:]] *)
Definition drop_first_column (df : dataframe) : dataframe :=
  {| columns := tl (columns df); rows := map (@tl cell) (rows df) |}.

(** [Series.nunique()] on texts *)
Definition nunique (l : list string) : nat :=
  List.length (nodup string_dec l).

Definition degenerate (r : list cell) : bool :=
  (nunique (map astype_str r) =? 1)%nat.

Definition clean_dataframe (df : dataframe) : M dataframe :=
  Run.catch
    (log INFO MsgCleaning ;;
     let df := dropna_columns (dropna_rows df) in
     (* print(f"OK{df.iloc[0]}") *)
     match rows df with
     | [] => Run.raise IndexError
     | _ :: _ =>
     Run.emit Print ;;
     (* first_col = df.iloc[:, 0] *)
     match columns df with
     | [] => Run.raise IndexError
     | _ :: _ =>
     df <- (if forallb starts_with_digit (map astype_str (column 0 (rows df)))
            then log INFO MsgRemovingIdentifiers ;; Run.ret (drop_first_column df)
            else Run.ret df) ;;
     match rows df with
     | [] => Run.raise IndexError
     | first_row :: others =>
     let capitals := List.length (filter single_capital (map astype_str first_row)) in
     let df :=
       if (2 * capitals <? List.length (columns df))%nat
       then if negb (forallb isnull first_row)
            then {| columns := first_row; rows := others |}
            else df
       else df in
     let df := {| columns := map (fun c => Text (PyStr.strip (astype_str c))) (columns df);
                  rows := rows df |} in
     let df := {| columns := columns df;
                  rows := filter (fun r => negb (degenerate r)) (rows df) |} in
     Run.emit Print ;;
     log INFO (MsgCleaned (List.length (rows df)) (List.length (columns df))) ;;
     Run.ret df
     end end end)%run
    (fun e => (log ERROR MsgFailedClean ;; Run.raise e)%run).

(** *** Tables that cleaning leaves alone *)

Definition rectangular (df : dataframe) : bool :=
  forallb (fun r => (List.length r =? List.length (columns df))%nat) (rows df).

Definition stripped_text (c : cell) : bool :=
  match c with
  | NaN => false
  | Text s => String.eqb (PyStr.strip s) s
  end.

(** Every cleaning step finds nothing to do: there is a row; no row and
    no column is all null; the first column is not a column of row
    numbers; at least half of the first row's cells are a single capital
    (so the first row is not promoted); the labels are stripped texts; no
    row repeats one value throughout. *)
Definition already_clean (df : dataframe) : bool :=
  rectangular df &&
  negb (List.length (rows df) =? 0)%nat &&
  forallb (existsb notnull) (rows df) &&
  forallb (fun j => existsb notnull (column j (rows df)))
          (seq 0 (List.length (columns df))) &&
  negb (forallb starts_with_digit (map astype_str (column 0 (rows df)))) &&
  negb (2 * List.length (filter single_capital (map astype_str (hd [] (rows df))))
        <? List.length (columns df))%nat &&
  forallb stripped_text (columns df) &&
  forallb (fun r => negb (degenerate r)) (rows df).

(** *** Sample inputs *)

(** A sheet as published: a label row, then the data. *)
Definition signup_sheet : dataframe :=
  {| columns := [Text "0"; Text "1"; Text "2"];
     rows := [[Text "1"; Text "First Name"; Text "Last Name "];
              [Text "2"; Text "Ada"; Text "Lovelace"];
              [Text "3"; Text "Bob"; Text "Smith"];
              [NaN; NaN; NaN]] |}.

Definition cleaned_once : dataframe :=
  {| columns := [Text "First Name"; Text "Last Name"];
     rows := [[Text "Ada"; Text "Lovelace"]; [Text "Bob"; Text "Smith"]] |}.

Definition cleaned_twice : dataframe :=
  {| columns := [Text "Ada"; Text "Lovelace"];
     rows := [[Text "Bob"; Text "Smith"]] |}.

Definition lettered_sheet : dataframe :=
  {| columns := [Text "x"; Text "y"];
     rows := [[Text "A"; Text "B"]; [Text "3"; Text "Bob"]] |}.

Definition no_tables (text : string) : list nat := [].

Definition unreadable (t : nat) : option dataframe := None.

End Sheet.

(** ** src/ingest.py: the warehouse loader *)

Module Loader.

Inductive value_error :=
| TimestampColumnRequired  (* raised by the loader itself *)
| BadChunkSize             (* [pd.read_csv(chunksize=0)] *)
| BadDate                  (* [pd.to_datetime] on what it cannot read as a date *)
| NoColumns.               (* [pd.read_csv] on a file without columns: [EmptyDataError] *)

Inductive exn :=
| ValueError (what : value_error)
| IndexError
| TypeError                (* a timestamp with a time zone compared with one without *)
| FileNotFoundError        (* [pd.read_csv] on a path that is no file *)
| DbError.                 (* whatever [client.execute] raised *)

(** Instants are counted in nanoseconds since the epoch, as pandas does. *)
Definition instant := Z.

(** A value out of a query result.  A [datetime] comes with a time zone
    or without one, and counts in microseconds. *)
Inductive dbvalue :=
| DbNull
| DbInt (z : Z)
| DbStr (s : string)
| DbDatetime (aware : bool) (microseconds : Z).

(** A cell of a CSV chunk: what [read_csv] parsed, or what
    [pd.to_datetime] put in its place. *)
Inductive cell :=
| CNaN
| CInt (z : Z)
| CStr (s : string)
| CTimestamp (aware : bool) (t : instant)
| CNaT.

Definition row := list cell.

(** A table as [pd.read_csv] hands it over, whole or chunk by chunk: the
    labels it gives the columns ([chunk.columns]: the names of the header,
    a repeated or an empty name renamed), of which there is one at least,
    and the rows, the cells typed as in the chunk they come in. *)
Record csv := {
  first_column : string;
  more_columns : list string;
  rows : list row
}.

Definition columns (table : csv) : list string :=
  first_column table :: more_columns table.

(** The table with other rows under the same labels. *)
Definition with_rows (table : csv) (rs : list row) : csv :=
  {| first_column := first_column table;
     more_columns := more_columns table;
     rows := rs |}.

(** The file at [csv_file_path], as [pd.read_csv] finds it. *)
Inductive csv_file :=
| Unreadable (e : exn)     (* no such file, no columns to parse: it raises *)
| Parsed (table : csv).

Inductive reply := Fails | Rows (result : list (list dbvalue)).

(** The answers of the warehouse: to [EXISTS TABLE], to [SELECT max(..)],
    and whether the [INSERT] for chunk number [n] goes through. *)
Record warehouse := {
  exists_reply : reply;
  max_reply : reply;
  insert_ok : nat -> bool
}.

(** The [datetime64] column that [pd.to_datetime] makes of a column: with
    a time zone or without, and a timestamp for each cell, [None] being
    [NaT]. *)
Record datetimes := { tz_aware : bool; values : list (option instant) }.

(** The timestamp that [pd.to_datetime] makes of one value. *)
Inductive timestamp := NaT | Timestamp (aware : bool) (t : instant).

(** What pandas computes for the loader: [pd.to_datetime] of a column of
    a chunk (line 180) and of the maximum found in the table (line 181).
    Either may raise. *)
Record pandas := {
  to_datetime_series : list cell -> exn + datetimes;
  to_datetime_scalar : dbvalue -> exn + timestamp
}.

Inductive statement :=
| ExistsTable (database table : string)
| SelectMax (column database table : string)
| InsertInto (table : string) (columns : list string) (data : list row).

Inductive message :=
| MsgConnecting (host : string)
| MsgLastTimestamp (v : dbvalue)
| MsgTableEmpty
| MsgNoTable
| MsgCouldNotGetMax
| MsgReading
| MsgNoNewRecords (batch : nat)
| MsgInserted (batch n total : nat)
| MsgIncrementalDone (total skipped : nat)
| MsgLoaded (total : nat)
| MsgFailedLoad.

Inductive event :=
| Log (l : level) (m : message)
| NewClient (host user database : string)   (* [Client(host=..., ...)] *)
| Execute (q : statement)                   (* [client.execute(...)] *)
| Disconnect.

Definition M := Run.t event exn.
Definition log (l : level) (m : message) : M unit := Run.emit (Log l m).
Definition lift {A} (r : exn + A) : M A := ([], r).

(** Truth value of a query result value; a [datetime] is always true. *)
Definition truthy (v : dbvalue) : bool :=
  match v with
  | DbNull => false
  | DbInt z => negb (z =? 0)%Z
  | DbStr s => PyStr.truthy s
  | DbDatetime _ _ => true
  end.

(** Truth value of the [timestamp_column] argument. *)
Definition given (c : option string) : bool :=
  match c with Some s => PyStr.truthy s | None => false end.

(** [result[0][0]] *)
Definition first_value (r : reply) : exn + dbvalue :=
  match r with
  | Fails => inl DbError
  | Rows ((v :: _) :: _) => inr v
  | Rows _ => inl IndexError
  end.

Definition is_one (v : dbvalue) : bool :=
  match v with DbInt 1 => true | _ => false end.

Fixpoint chunks_of {A} (fuel n : nat) (l : list A) : list (list A) :=
  match fuel, l with
  | O, _ | _, [] => []
  | S fuel', _ :: _ => firstn n l :: chunks_of fuel' n (skipn n l)
  end.

(** [pd.read_csv(path, chunksize=batch_size)].  The chunk size is checked
    before the file is opened; a file that pandas cannot read makes the
    call raise; of a file it reads come the rows in order, in frames of
    [batch_size] rows (the last one may be shorter), each under the labels
    of the columns. *)
Definition read_csv (file : csv_file) (batch_size : nat) : exn + list csv :=
  match batch_size with
  | O => inl (ValueError BadChunkSize)
  | S _ =>
      match file with
      | Unreadable e => inl e
      | Parsed table =>
          inr (map (with_rows table)
                   (chunks_of (List.length (rows table)) batch_size (rows table)))
      end
  end.

Fixpoint index_of (c : string) (cols : list string) : option nat :=
  match cols with
  | [] => None
  | c' :: rest => if String.eqb c c' then Some 0
                  else option_map S (index_of c rest)
  end.

(** [chunk[col]], [col] being column number [i]. *)
Definition column (i : nat) (rs : list row) : list cell :=
  map (fun r => nth i r CNaN) rs.

Definition stamp (aware : bool) (t : option instant) : cell :=
  match t with Some t => CTimestamp aware t | None => CNaT end.

(** The row with [c] for its cell number [i]. *)
Fixpoint put (i : nat) (c : cell) (r : row) : row :=
  match r, i with
  | [], _ => []
  | _ :: r', O => c :: r'
  | c' :: r', S j => c' :: put j c r'
  end.

(** [chunk[col] = stamps]: row by row; a row the column has no value for
    gets [NaT], as the assignment aligns on the index. *)
Fixpoint set_column (i : nat) (aware : bool) (stamps : list (option instant))
    (rs : list row) : list row :=
  match rs with
  | [] => []
  | r :: rs' =>
      put i (stamp aware (hd None stamps)) r :: set_column i aware (tl stamps) rs'
  end.

Definition instant_of (c : cell) : option instant :=
  match c with CTimestamp _ t => Some t | _ => None end.

Definition after (T : instant) (t : option instant) : bool :=
  match t with Some t => (T <? t)%Z | None => false end.

(** [column > max_ts], the column being of [datetime64] values with a
    time zone or without: the test each cell is put to, or [TypeError]
    when one side has a time zone and the other has none.  Nothing is
    greater than [NaT], and [NaT] is greater than nothing. *)
Definition greater (aware : bool) (max_ts : timestamp) : exn + (cell -> bool) :=
  match max_ts with
  | NaT => inr (fun _ => false)
  | Timestamp aware' T =>
      if Bool.eqb aware aware' then inr (fun c => after T (instant_of c))
      else inl TypeError
  end.

Section Load.
Variable pd : pandas.
Variable wh : warehouse.
Variables (table : string) (incremental : bool).
Variable max_timestamp : dbvalue.
Variable timestamp_column : option string.

(** Line 178: the column to filter the chunk on, if it is to be
    filtered. *)
Definition filter_column (chunk : csv) : option nat :=
  if incremental && truthy max_timestamp
  then match timestamp_column with
       | Some col => index_of col (columns chunk)
       | None => None
       end
  else None.

(** Lines 192-205: the insert of one chunk; gives the new total. *)
Definition insert_chunk (chunk_num : nat) (chunk : csv) (total_rows : nat) : M nat :=
  let data := rows chunk in
  if (List.length data =? 0)%nat then Run.ret total_rows
  else
    (Run.emit (Execute (InsertInto table (columns chunk) data)) ;;
     (if insert_ok wh chunk_num then Run.ret tt else Run.raise DbError) ;;
     let total_rows := total_rows + List.length data in
     log INFO (MsgInserted (chunk_num + 1) (List.length data) total_rows) ;;
     Run.ret total_rows)%run.

(** The [for] loop over the chunks, numbered from [chunk_num];
    gives [(total_rows, skipped_rows)]. *)
Fixpoint load_chunks (chunk_num : nat) (chunks : list csv)
    (total_rows skipped_rows : nat) : M (nat * nat) :=
  match chunks with
  | [] => Run.ret (total_rows, skipped_rows)
  | chunk :: rest =>
      match filter_column chunk with
      | Some i =>
          (stamps <- lift (to_datetime_series pd (column i (rows chunk))) ;;
           let converted :=
             set_column i (tz_aware stamps) (values stamps) (rows chunk) in
           max_ts <- lift (to_datetime_scalar pd max_timestamp) ;;
           let original_len := List.length converted in
           newer <- lift (greater (tz_aware stamps) max_ts) ;;
           let chunk :=
             with_rows chunk (filter (fun r => newer (nth i r CNaN)) converted) in
           let skipped_rows :=
             skipped_rows + (original_len - List.length (rows chunk)) in
           if (List.length (rows chunk) =? 0)%nat
           then log INFO (MsgNoNewRecords (chunk_num + 1)) ;;
                load_chunks (S chunk_num) rest total_rows skipped_rows
           else total_rows <- insert_chunk chunk_num chunk total_rows ;;
                load_chunks (S chunk_num) rest total_rows skipped_rows)%run
      | None =>
          (total_rows <- insert_chunk chunk_num chunk total_rows ;;
           load_chunks (S chunk_num) rest total_rows skipped_rows)%run
      end
  end.
End Load.

(** Lines 145-167: the watermark. *)
Definition get_max_timestamp (wh : warehouse) (database table : string)
    (incremental : bool) (timestamp_column : option string) : M dbvalue :=
  if incremental then
    if negb (given timestamp_column)
    then Run.raise (ValueError TimestampColumnRequired)
    else
      Run.catch
        (Run.emit (Execute (ExistsTable database table)) ;;
         found <- lift (first_value (exists_reply wh)) ;;
         if is_one found then
           Run.emit (Execute (SelectMax
                        (match timestamp_column with Some c => c | None => "" end)
                        database table)) ;;
           max_timestamp <- lift (first_value (max_reply wh)) ;;
           (if truthy max_timestamp
            then log INFO (MsgLastTimestamp max_timestamp)
            else log INFO MsgTableEmpty) ;;
           Run.ret max_timestamp
         else
           log INFO MsgNoTable ;; Run.ret DbNull)%run
        (fun _ => (log WARNING MsgCouldNotGetMax ;; Run.ret DbNull)%run)
  else Run.ret DbNull.

Definition load_csv_to_clickhouse (pd : pandas) (wh : warehouse) (file : csv_file)
    (host database table user password : string) (batch_size : nat)
    (incremental : bool) (timestamp_column : option string) : M unit :=
  Run.catch
    (log INFO (MsgConnecting host) ;;
     Run.emit (NewClient host user database) ;;
     max_timestamp <- get_max_timestamp wh database table incremental
                        timestamp_column ;;
     log INFO MsgReading ;;
     chunks <- lift (read_csv file batch_size) ;;
     counts <- load_chunks pd wh table incremental max_timestamp timestamp_column
                 0 chunks 0 0 ;;
     (if incremental
      then log INFO (MsgIncrementalDone (fst counts) (snd counts))
      else log INFO (MsgLoaded (fst counts))) ;;
     Run.emit Disconnect)%run
    (fun e => (log ERROR MsgFailedLoad ;; Run.raise e)%run).

(** The labels of the columns of a file that pandas reads; of another,
    none. *)
Definition labels_of (file : csv_file) : list string :=
  match file with
  | Parsed table => columns table
  | Unreadable _ => []
  end.

(** The timestamps that pandas reads in column [i] of a batch of rows. *)
Definition timestamps (pd : pandas) (i : nat) (batch : list row)
    : list (option instant) :=
  match to_datetime_series pd (column i batch) with
  | inr stamps => values stamps
  | inl _ => []
  end.

(** [pd.to_datetime] returns on column [i] of the batch, with a timestamp
    for each row, all with a time zone or, as [aware] has it, all
    without. *)
Definition converts (pd : pandas) (aware : bool) (i : nat) (batch : list row) : bool :=
  match to_datetime_series pd (column i batch) with
  | inr stamps =>
      Bool.eqb (tz_aware stamps) aware
      && (List.length (values stamps) =? List.length batch)%nat
  | inl _ => false
  end.

(** The rows of a batch, each next to the timestamp pandas reads for it. *)
Definition dated (pd : pandas) (i : nat) (batch : list row)
    : list (option instant * row) :=
  combine (timestamps pd i batch) batch.

(** The row as inserted: the cell of column [i] holds the timestamp. *)
Definition with_timestamp (i : nat) (aware : bool) (p : option instant * row) : row :=
  put i (stamp aware (fst p)) (snd p).

Definition is_after (T : instant) (p : option instant * row) : bool :=
  after T (fst p).

(** The row has a cell in column [i]. *)
Definition has_column (i : nat) (r : row) : bool := (i <? List.length r)%nat.

(** What a run sent to the warehouse and what it reported. *)
Definition inserted_rows (tr : list event) : list row :=
  flat_map (fun ev => match ev with
                      | Execute (InsertInto _ _ data) => data
                      | _ => []
                      end) tr.

Definition statements (tr : list event) : list statement :=
  flat_map (fun ev => match ev with Execute q => [q] | _ => [] end) tr.

Definition clients (tr : list event) : list event :=
  filter (fun ev => match ev with NewClient _ _ _ => true | _ => false end) tr.

Definition reported_skipped (tr : list event) : list nat :=
  flat_map (fun ev => match ev with
                      | Log _ (MsgIncrementalDone _ skipped) => [skipped]
                      | _ => []
                      end) tr.

Definition complaints (tr : list event) : list event :=
  filter (fun ev => match ev with
                    | Log (WARNING | ERROR | CRITICAL) _ => true
                    | _ => false
                    end) tr.

(** A run that adds no insert, no report of skipped rows and no log
    record above INFO beyond the given inserts. *)
Definition quiet (tr : list event) (data : list row) : Prop :=
  inserted_rows tr = data /\ reported_skipped tr = [] /\ complaints tr = [].

(** A table of sign-ups whose timestamps are integers, which pandas reads
    as nanoseconds since the epoch, and a warehouse whose newest row is of
    100 microseconds after the epoch. *)
Definition signups : csv :=
  {| first_column := "Email."; more_columns := ["Timestamp"];
     rows := [[CStr "a@x.com"; CInt 50000];
              [CStr "b@x.com"; CInt 100000];
              [CStr "c@x.com"; CInt 150000];
              [CStr "d@x.com"; CInt 200000];
              [CStr "e@x.com"; CInt 250000]] |}.

Definition signups_without_timestamp : csv :=
  {| first_column := "Email."; more_columns := ["Name"];
     rows := [[CStr "a@x.com"; CStr "Ada"];
              [CStr "b@x.com"; CStr "Bob"];
              [CStr "c@x.com"; CStr "Cy"]] |}.

(** The same with text that is no date in the third row; read in chunks
    of two rows, the column holds integers in the first chunk and text in
    the second. *)
Definition signups_with_text : csv :=
  {| first_column := "Email."; more_columns := ["Timestamp"];
     rows := [[CStr "a@x.com"; CInt 50000];
              [CStr "b@x.com"; CInt 150000];
              [CStr "c@x.com"; CStr "later"]] |}.


Definition loaded_until_100 : warehouse :=
  {| exists_reply := Rows [[DbInt 1]];
     max_reply := Rows [[DbDatetime false 100]];
     insert_ok := fun _ => true |}.

(** The same table, its timestamps kept with a time zone. *)
Definition loaded_until_100_utc : warehouse :=
  {| exists_reply := Rows [[DbInt 1]];
     max_reply := Rows [[DbDatetime true 100]];
     insert_ok := fun _ => true |}.


(** The nanoseconds that a timestamp can count. *)
Definition in_range (z : Z) : bool :=
  ((-9223372036854775808 <? z) && (z <? 9223372036854775808))%Z.

Fixpoint integers (cells : list cell) : option (list (option instant)) :=
  match cells with
  | [] => Some []
  | CInt z :: rest =>
      if in_range z then option_map (cons (Some z)) (integers rest) else None
  | _ :: _ => None
  end.

(** pandas on the values of the samples: a column of integers reads as
    timestamps without time zone, that many nanoseconds after the epoch,
    and a column with text that is no date is refused; a [datetime] keeps
    its instant and its time zone, and an integer is read as in a column.
    Columns of other kinds do not occur in the samples; they are refused
    here as well. *)
Definition pandas_on_integers : pandas :=
  {| to_datetime_series := fun cells =>
       match integers cells with
       | Some ts => inr {| tz_aware := false; values := ts |}
       | None => inl (ValueError BadDate)
       end;
     to_datetime_scalar := fun v =>
       match v with
       | DbDatetime aware microseconds => inr (Timestamp aware (1000 * microseconds)%Z)
       | DbInt z => inr (Timestamp false z)
       | DbNull => inr NaT
       | DbStr _ => inl (ValueError BadDate)
       end |}.

End Loader.

(** ** Observations on the runs of src/subscribers.py *)

Module BroadcasterTrace.
Import Broadcaster.

Fixpoint count_char (c : ascii) (s : string) : nat :=
  match s with
  | EmptyString => 0
  | String d s' => (if Ascii.eqb d c then 1 else 0) + count_char c s'
  end.

Definition is_log (ev : event) : bool :=
  match ev with Log _ _ => true | _ => false end.

(** What a run does besides logging: the sends and the waits, in order. *)
Definition actions (tr : list event) : list event :=
  filter (fun ev => negb (is_log ev)) tr.

Definition reported_sent (tr : list event) : list nat :=
  flat_map (fun ev => match ev with
                      | Log _ (MsgTotalSent n) => [n]
                      | _ => []
                      end) tr.

Definition reported_failed (tr : list event) : list nat :=
  flat_map (fun ev => match ev with
                      | Log _ (MsgTotalFailed n) => [n]
                      | _ => []
                      end) tr.

(** The share of contact number [idx]: one send, and the wait of 60
    seconds when the send went through and the contact is not the last. *)
Definition contact_actions (w : world) (msg : string) (total : nat)
    (p : nat * string) : list event :=
  SendWhatMsg (snd p) msg 50 false ::
  (if w (fst p) && (fst p <? total)%nat then [Sleep 60] else []).

Definition numbered {A} (idx : nat) (l : list A) : list (nat * A) :=
  combine (seq idx (List.length l)) l.

End BroadcasterTrace.

(** ** Observations on the runs of src/apirequest.py *)

Module EmailerTrace.
Import Emailer.

Definition is_log (ev : event) : bool :=
  match ev with Log _ _ => true | _ => false end.

(** What a run does besides logging: the requests, the SMTP sessions and
    the waits, in order. *)
Definition actions (tr : list event) : list event :=
  filter (fun ev => negb (is_log ev)) tr.

Definition numbered {A} (idx : nat) (l : list A) : list (nat * A) :=
  combine (seq idx (List.length l)) l.

Definition is_200 (r : http_reply) : bool :=
  match r with
  | HttpResponse status_code _ => (status_code =? 200)%Z
  | _ => false
  end.

Section WithRepr.
Variable py_repr : json -> string.

(** The quote [get_random_quote] hands back on the answer [r]. *)
Definition quote_for (r : http_reply) : string :=
  match Run.outcome (get_random_quote py_repr r) with
  | inr quote => quote
  | inl _ => fallback_quote
  end.

(** One mail: the session opened for [s] with the quote [quote]. *)
Definition mail (s : subscriber) (quote : string) : event :=
  let '(first_name, last_name, email) := s in
  SmtpSend email "Your Daily Inspiration Quote"
    (text_body first_name last_name quote) (html_body first_name last_name quote).

(** The share of subscriber number [fst p]: one request for a quote, one
    mail with that quote, and the wait of 30 seconds unless the subscriber
    is the last. *)
Definition subscriber_actions (w : world) (total : nat)
    (p : nat * subscriber) : list event :=
  [HttpGet "https://zenquotes.io/api/random" 30;
   mail (snd p) (quote_for (http w (fst p)))] ++
  (if (fst p <? total)%nat then [Sleep 30] else []).
End WithRepr.

(** The same with the fallback quote in every mail. *)
Definition fallback_actions (total : nat) (p : nat * subscriber) : list event :=
  [HttpGet "https://zenquotes.io/api/random" 30; mail (snd p) fallback_quote] ++
  (if (fst p <? total)%nat then [Sleep 30] else []).

End EmailerTrace.

(** ** The cleaning of src/ingest.py, step by step *)

Module SheetShape.
Import Sheet.

(** No row holds a value. *)
Definition all_null (df : dataframe) : bool :=
  forallb (forallb isnull) (rows df).

(** A row with at least one cell, all of one text. *)
Definition uniform (r : list cell) : Prop :=
  r <> [] /\ forall c, In c r -> astype_str c = astype_str (hd NaN r).

(** Lines 82-85. *)
Definition drop_identifiers (df : dataframe) : dataframe :=
  if forallb starts_with_digit (map astype_str (column 0 (rows df)))
  then drop_first_column df
  else df.

(** Lines 89-92. *)
Definition promote_header (df : dataframe) : dataframe :=
  match rows df with
  | [] => df
  | first_row :: others =>
      if (2 * List.length (filter single_capital (map astype_str first_row))
          <? List.length (columns df))%nat
      then if negb (forallb isnull first_row)
           then {| columns := first_row; rows := others |}
           else df
      else df
  end.

(** Lines 95-98. *)
Definition strip_and_filter (df : dataframe) : dataframe :=
  {| columns := map (fun c => Text (PyStr.strip (astype_str c))) (columns df);
     rows := filter (fun r => negb (degenerate r)) (rows df) |}.

(** The table [clean_dataframe] returns, when it returns. *)
Definition cleaned (df : dataframe) : dataframe :=
  strip_and_filter
    (promote_header (drop_identifiers (dropna_columns (dropna_rows df)))).

(** A sheet of one column under its row of labels. *)
Definition emails_only : dataframe :=
  {| columns := [Text "0"];
     rows := [[Text "Email"]; [Text "ada@x.com"]; [Text "alan@x.com"]] |}.

(** The shape through the steps: still rectangular, no more rows, no more
    columns. *)
Definition shrinks (df df' : dataframe) : Prop :=
  rectangular df' = true /\
  List.length (rows df') <= List.length (rows df) /\
  List.length (columns df') <= List.length (columns df).

End SheetShape.

(** ** Observations on the runs of the loader *)

Module LoaderTrace.
Import Loader.

(** The data of the [INSERT] statements sent, one list per statement. *)
Definition insert_batches (tr : list event) : list (list row) :=
  flat_map (fun ev => match ev with
                      | Execute (InsertInto _ _ data) => [data]
                      | _ => []
                      end) tr.

Definition disconnects (tr : list event) : list event :=
  filter (fun ev => match ev with Disconnect => true | _ => false end) tr.

(** An [INSERT], if [ev] is one, goes to [table], names the columns
    [cols] and carries between 1 and [batch_size] rows. *)
Definition insert_in_order (table : string) (cols : list string) (batch_size : nat)
    (ev : event) : Prop :=
  match ev with
  | Execute (InsertInto t c data) =>
      t = table /\ c = cols /\ 1 <= List.length data <= batch_size
  | _ => True
  end.

(** Neither the creation of the client nor its disconnection. *)
Definition inner (ev : event) : Prop :=
  match ev with
  | NewClient _ _ _ | Disconnect => False
  | _ => True
  end.

(** Holds of what may happen between the creation of the client and the
    end of the run. *)
Definition middle (table : string) (cols : list string) (batch_size : nat)
    (ev : event) : Prop :=
  inner ev /\ insert_in_order table cols batch_size ev.

(** A computation that ends with the disconnection when it returns. *)
Definition ends_well (Q : event -> Prop) (r : M unit) : Prop :=
  exists mid,
    Forall Q mid /\
    ((Run.outcome r = inr tt /\ Run.trace r = (mid ++ [Disconnect])%list) \/
     (exists e, Run.outcome r = inl e /\ Run.trace r = mid)).

(** The batches [read_csv] cuts the rows of [file] into. *)
Definition batches (file : csv) (batch_size : nat) : list (list row) :=
  chunks_of (List.length (rows file)) batch_size (rows file).

(** A chunk that has the column [col] as its column number [i], with a
    cell in every row, in which pandas reads timestamps, all with a time
    zone or, as [aware] has it, all without. *)
Definition filtered (pd : pandas) (col : string) (i : nat) (aware : bool)
    (ch : csv) : Prop :=
  index_of col (columns ch) = Some i /\
  converts pd aware i (rows ch) = true /\
  forallb (has_column i) (rows ch) = true.

(** What lines 180 to 185 raise on a batch of rows, the maximum being a
    timestamp with a time zone or, as [aware] has it, without: what
    [pd.to_datetime] raises on column [i], or else [TypeError] when the
    timestamps it reads are not of that kind. *)
Definition filter_error (pd : pandas) (aware : bool) (i : nat) (batch : list row)
    : option exn :=
  match to_datetime_series pd (column i batch) with
  | inl e => Some e
  | inr stamps => if Bool.eqb (tz_aware stamps) aware then None else Some TypeError
  end.


End LoaderTrace.

(** ** src/ingest.py: the CSV file in between *)

Module CsvFile.

Inductive exn := OSError.   (* [os.makedirs] or the write failing *)

(** The answers of the file system: whether a path exists, whether the
    directory can be made, whether the file can be written. *)
Record filesystem := {
  path_exists : string -> bool;
  makedirs_ok : string -> bool;
  write_ok : string -> bool
}.

Inductive message :=
| MsgCreatedDirectory (directory : string)
| MsgSaving (filepath : string)
| MsgSaved (filepath : string)
| MsgFailedSave.

Inductive event :=
| Log (l : level) (m : message)
| MakeDirs (directory : string)               (* [os.makedirs(d, exist_ok=True)] *)
| ToCsv (filepath : string) (df : Sheet.dataframe).
    (* [df.to_csv(filepath, index=False, encoding='utf-8')] *)

Definition M := Run.t event exn.
Definition log (l : level) (m : message) : M unit := Run.emit (Log l m).

Definition is_slash (c : ascii) : bool := Ascii.eqb c "/".

(** [p[:p.rfind('/') + 1]]: up to the last slash, the slash included. *)
Fixpoint head (p : string) : string :=
  match p with
  | EmptyString => EmptyString
  | String c p' =>
      match head p' with
      | EmptyString => if is_slash c then String c EmptyString else EmptyString
      | h => String c h
      end
  end.

Fixpoint all_slashes (s : string) : bool :=
  match s with
  | EmptyString => true
  | String c s' => is_slash c && all_slashes s'
  end.

(** [s.rstrip('/')] *)
Fixpoint rstrip_slashes (s : string) : string :=
  match s with
  | EmptyString => EmptyString
  | String c s' =>
      match rstrip_slashes s' with
      | EmptyString => if is_slash c then EmptyString else String c EmptyString
      | r => String c r
      end
  end.

(** [os.path.dirname] of [posixpath]. *)
Definition dirname (p : string) : string :=
  let h := head p in
  if PyStr.truthy h && negb (all_slashes h) then rstrip_slashes h else h.

Definition save_to_csv (fs : filesystem) (df : Sheet.dataframe) (filepath : string)
    (create_path : bool) : M unit :=
  Run.catch
    ((if create_path then
        let directory := dirname filepath in
        if PyStr.truthy directory && negb (path_exists fs directory) then
          Run.emit (MakeDirs directory) ;;
          (if makedirs_ok fs directory then Run.ret tt else Run.raise OSError) ;;
          log INFO (MsgCreatedDirectory directory)
        else Run.ret tt
      else Run.ret tt) ;;
     log INFO (MsgSaving filepath) ;;
     Run.emit (ToCsv filepath df) ;;
     (if write_ok fs filepath then Run.ret tt else Run.raise OSError) ;;
     log INFO (MsgSaved filepath))%run
    (fun e => (log ERROR MsgFailedSave ;; Run.raise e)%run).

Definition made_directories (tr : list event) : list string :=
  flat_map (fun ev => match ev with MakeDirs d => [d] | _ => [] end) tr.

Definition writes (tr : list event) : list event :=
  filter (fun ev => match ev with ToCsv _ _ => true | _ => false end) tr.

End CsvFile.

(** ** src/ingest.py: the script, lines 220-234 *)

Module IngestScript.

Inductive exn :=
| FromSheet (e : Sheet.exn)
| FromFile (e : CsvFile.exn)
| FromLoader (e : Loader.exn).

Inductive event :=
| SheetEvent (ev : Sheet.event)
| FileEvent (ev : CsvFile.event)
| LoaderEvent (ev : Loader.event).

Definition M := Run.t event exn.

(** A call of one of the functions, seen from the script. *)
Definition call {E X A} (fe : E -> event) (fx : X -> exn) (m : Run.t E X A) : M A :=
  (map fe (fst m),
   match snd m with
   | inl x => inl (fx x)
   | inr a => inr a
   end).

(** The values of the environment, as the module reads them. *)
Record environment := {
  google_sheet : string;      (* GOOGLE_SHEET *)
  click_host : string;        (* CLICK_HOST *)
  click_user : string;        (* CLICK_USER *)
  click_password : string;    (* CLICK_PASSWORD *)
  click_database : string;    (* CLICK_DATABASE *)
  sub_table : string;         (* SUBSCRIBERS_TABLE *)
  CSV_FILE_PATH : string      (* CSV_FILE_PATH, 'subscribers.csv' when unset *)
}.

(** The answers of the outside: to the two fetches of the sheet, of the
    file system and of the warehouse. *)
Record world := {
  first_fetch : Sheet.fetch_reply;
  second_fetch : Sheet.fetch_reply;
  fs : CsvFile.filesystem;
  wh : Loader.warehouse
}.

Section WithLibraries.
Context {element : Type}.
Variable find_all_table : string -> list element.
Variable read_html : element -> option Sheet.dataframe.
Variable pd : Loader.pandas.
(** What [pd.read_csv] finds in the file that [to_csv] wrote for a table
    with columns. *)
Variable read_back : Sheet.dataframe -> Loader.csv_file.

(** The file at [CSV_FILE_PATH] once [save_to_csv] has written the table
    to it: for a table without columns [to_csv] writes empty lines only,
    which [pd.read_csv] refuses. *)
Definition written_file (df : Sheet.dataframe) : Loader.csv_file :=
  match Sheet.columns df with
  | [] => Loader.Unreadable (Loader.ValueError Loader.NoColumns)
  | _ :: _ => read_back df
  end.

Definition script (env : environment) (w : world) : M unit :=
  (_ <- call SheetEvent FromSheet
          (Sheet.extract_to_df find_all_table read_html (first_fetch w)
             (google_sheet env)) ;;
   df <- call SheetEvent FromSheet
           (Sheet.extract_to_df find_all_table read_html (second_fetch w)
              (google_sheet env)) ;;
   _ <- call SheetEvent FromSheet (Sheet.clean_dataframe df) ;;
   df_clean <- call SheetEvent FromSheet (Sheet.clean_dataframe df) ;;
   call FileEvent FromFile
     (CsvFile.save_to_csv (fs w) df_clean (CSV_FILE_PATH env) true) ;;
   call LoaderEvent FromLoader
     (Loader.load_csv_to_clickhouse pd (wh w) (written_file df_clean)
        (click_host env) (click_database env) (sub_table env) (click_user env)
        (click_password env) 1000 false None))%run.
End WithLibraries.

Definition sheet_events (tr : list event) : list Sheet.event :=
  flat_map (fun ev => match ev with SheetEvent e => [e] | _ => [] end) tr.

Definition file_events (tr : list event) : list CsvFile.event :=
  flat_map (fun ev => match ev with FileEvent e => [e] | _ => [] end) tr.

Definition loader_events (tr : list event) : list Loader.event :=
  flat_map (fun ev => match ev with LoaderEvent e => [e] | _ => [] end) tr.

Definition requests (tr : list Sheet.event) : list Sheet.event :=
  filter (fun ev => match ev with Sheet.HttpGet _ _ => true | _ => false end) tr.


(** A sample deployment: a page with one table, read as the sign-up sheet,
    a file system without the [data] directory, and text read back from
    the CSV as it was written. *)
Definition one_table (text : string) : list nat := [0].

Definition read_signup_sheet (t : nat) : option Sheet.dataframe :=
  Some Sheet.signup_sheet.

Definition text_cell (c : Sheet.cell) : Loader.cell :=
  match c with Sheet.Text s => Loader.CStr s | Sheet.NaN => Loader.CNaN end.

Definition text_label (c : Sheet.cell) : string :=
  match c with Sheet.Text s => s | Sheet.NaN => "nan" end.

(** pandas reading back a table of names: every label and every cell as
    it was written. *)
Definition read_back_text (df : Sheet.dataframe) : Loader.csv_file :=
  match Sheet.columns df with
  | [] => Loader.Unreadable (Loader.ValueError Loader.NoColumns)
  | c :: cs =>
      Loader.Parsed {| Loader.first_column := text_label c;
                       Loader.more_columns := map text_label cs;
                       Loader.rows := map (map text_cell) (Sheet.rows df) |}
  end.

Definition deployment : environment :=
  {| google_sheet := "https://docs.example/pubhtml"; click_host := "ch.local";
     click_user := "default"; click_password := ""; click_database := "quotes";
     sub_table := "quote_suscribers"; CSV_FILE_PATH := "data/subscribers.csv" |}.

Definition fresh_disk : CsvFile.filesystem :=
  {| CsvFile.path_exists := fun _ => false;
     CsvFile.makedirs_ok := fun _ => true;
     CsvFile.write_ok := fun _ => true |}.

Definition signup_page : string :=
  "<table><tr><td>1</td><td>First Name</td><td>Last Name </td></tr><tr><td>2</td><td>Ada</td><td>Lovelace</td></tr><tr><td>3</td><td>Bob</td><td>Smith</td></tr><tr><td></td><td></td><td></td></tr></table>".

Definition page_served : world :=
  {| first_fetch := Sheet.Response 200 signup_page;
     second_fetch := Sheet.Response 200 signup_page;
     fs := fresh_disk;
     wh := Loader.loaded_until_100 |}.

Definition page_empty : world :=
  {| first_fetch := Sheet.Response 200 "<html></html>";
     second_fetch := Sheet.Response 200 "<html></html>";
     fs := fresh_disk;
     wh := Loader.loaded_until_100 |}.

End IngestScript.

(** * Properties *)

(** ** Runs and strings *)

Module RunFacts.
Section WithTypes.
Context {E X : Type}.

Lemma bind_ok {A B} (m : Run.t E X A) (k : A -> Run.t E X B) tr a :
  m = (tr, inr a) -> Run.bind m k = ((tr ++ fst (k a))%list, snd (k a)).
Proof. intros ->; simpl; now destruct (k a). Qed.

Lemma bind_raised {A B} (m : Run.t E X A) (k : A -> Run.t E X B) tr x :
  m = (tr, inl x) -> Run.bind m k = (tr, inl x).
Proof. now intros ->. Qed.

Lemma catch_ok {A} (m : Run.t E X A) (h : X -> Run.t E X A) tr a :
  m = (tr, inr a) -> Run.catch m h = (tr, inr a).
Proof. now intros ->. Qed.
End WithTypes.
End RunFacts.

Module PyStrFacts.
Import PyStr.

Lemma take_drop (k : nat) (s : string) : take k s ++ drop k s = s.
Proof.
  revert s; induction k as [|k IH]; intros [|c s]; simpl; try reflexivity.
  now rewrite IH.
Qed.

Lemma length_drop (k : nat) (s : string) :
  String.length (drop k s) = String.length s - k.
Proof.
  revert s; induction k as [|k IH]; intros [|c s]; simpl; auto with arith.
Qed.

Lemma slice_from_last4 (s : string) :
  4 <= String.length s -> slice_from (-4) s = drop (String.length s - 4) s.
Proof.
  intros H; unfold slice_from.
  change (-4 <? 0)%Z with true; cbv iota.
  f_equal; lia.
Qed.

End PyStrFacts.

(** ** WhatsApp broadcaster *)

Module BroadcasterProps.
Import Broadcaster.

Example mask_phone_long : mask_phone "2348012345678" = "***5678".
Proof. reflexivity. Qed.

Example mask_phone_short : mask_phone "1234" = "****".
Proof. reflexivity. Qed.

Example create_message_spec_scenario :
  create_message {| google_form := Some "http://f"; recepients := Some "111,222";
                    message_template := Some "Hi {sender}, sign here: {form_link}";
                    sender_name := Some "Bot" |}
  = inr "Hi Bot, sign here: http://f".
Proof. reflexivity. Qed.

Example contact_list_spec_scenario :
  contact_list {| google_form := None; recepients := Some "111, 222 ";
                  message_template := None; sender_name := None |}
  = inr ["111"; "222"].
Proof. reflexivity. Qed.

(** C8. For every string [s]: when [s] has more than 4 characters,
    [mask_phone s] is ["***"] followed by exactly the last 4 characters of
    [s] (the suffix of length 4); when [s] has at most 4 characters it is
    ["****"]. *)
Theorem mask_phone_spec (s : string) :
  (4 < String.length s ->
     exists front last4,
       s = front ++ last4 /\ String.length last4 = 4 /\
       mask_phone s = "***" ++ last4) /\
  (String.length s <= 4 -> mask_phone s = "****").
Proof.
  unfold mask_phone; split; intros H.
  - apply Nat.ltb_lt in H as Hb; rewrite Hb.
    rewrite PyStrFacts.slice_from_last4 by lia.
    exists (PyStr.take (String.length s - 4) s), (PyStr.drop (String.length s - 4) s).
    split; [|split].
    + symmetry; apply PyStrFacts.take_drop.
    + rewrite PyStrFacts.length_drop; lia.
    + reflexivity.
  - apply Nat.ltb_ge in H; now rewrite H.
Qed.

Lemma mask_phone_spec_witness :
  (exists front last4,
     "2348012345678" = front ++ last4 /\ String.length last4 = 4 /\
     mask_phone "2348012345678" = "***" ++ last4) /\
  mask_phone "123" = "****".
Proof.
  split.
  - apply (proj1 (mask_phone_spec "2348012345678")); simpl; lia.
  - apply (proj2 (mask_phone_spec "123")); simpl; lia.
Defined.

Example script_all_set :
  sends (Run.trace (script all_set (fun _ => true))) =
    [SendWhatMsg "111" "Hi Bot, sign here: http://f" 50 false;
     SendWhatMsg "222" "Hi Bot, sign here: http://f" 50 false].
Proof. reflexivity. Qed.

(** With the contacts set, a missing or empty value stops the script at
    the guard: two error records, no send. *)
Lemma script_guard (e : env) (w : world) (r : string) :
  recepients e = Some r ->
  forallb truthy [google_form e; recepients e; message_template e; sender_name e]
    = false ->
  script e w = ([Log ERROR MsgMissingEnv; Log ERROR MsgRequired], inr tt).
Proof.
  intros Hr Hall. unfold script, contact_list. rewrite Hr in *.
  cbn [Run.bind app]. rewrite Hall. reflexivity.
Qed.

(** Without the contacts the script stops at line 35, before the guard. *)
Lemma script_contacts_absent (e : env) (w : world) :
  recepients e = None -> script e w = ([], inl AttributeError).
Proof. intros Hr. unfold script, contact_list. now rewrite Hr. Qed.

(** No message leaves when one of the four values is missing. *)
Lemma script_missing_value_sends_nothing (e : env) (w : world) :
  forallb truthy [google_form e; recepients e; message_template e; sender_name e]
    = false ->
  sends (Run.trace (script e w)) = [].
Proof.
  intros Hall.
  pose proof (script_guard e w) as Hguard.
  pose proof (script_contacts_absent e w) as Habsent.
  destruct (recepients e) as [r|].
  - now rewrite (Hguard r eq_refl Hall).
  - now rewrite Habsent.
Qed.

(** C7. With CONTACTS unset and the three other values set, the script
    sends nothing, but it does not reach its guard either: line 35 calls
    [split] on [None], the script ends with [AttributeError], and no error
    record is logged. *)
Theorem script_without_contacts_crashes (w : world) :
  Run.outcome (script contacts_unset w) = inl AttributeError /\
  error_logs (Run.trace (script contacts_unset w)) = [] /\
  sends (Run.trace (script contacts_unset w)) = [].
Proof. repeat split. Qed.

End BroadcasterProps.

(** ** Quote emailer *)

Module EmailerProps.
Import Emailer.

Section WithRepr.
Variable py_repr : json -> string.

(** The fetcher always returns, and writes nothing of the summary. *)
Lemma get_random_quote_returns (r : http_reply) :
  exists tr s, get_random_quote py_repr r = (tr, inr s) /\
               filter is_summary tr = [].
Proof.
  unfold get_random_quote.
  destruct r as [| |status_code body]; cbn; eauto.
  destruct (status_code =? 200)%Z; cbn; eauto.
  destruct body as [data|]; cbn; eauto.
  destruct (item0 data) as [e|first]; cbn; [destruct e; cbn; eauto|].
  destruct (item "q" first) as [e|q]; cbn; [destruct e; cbn; eauto|].
  destruct (item "a" first) as [e|a]; cbn; [destruct e; cbn; eauto|].
  eauto.
Qed.

(** [send_email] always returns, [True] exactly when the session went
    through. *)
Lemma send_email_returns (r : smtp_reply) (to_ fn ln q : string) :
  exists tr, send_email r to_ fn ln q = (tr, inr (smtp_ok r)) /\
             filter is_summary tr = [].
Proof. destruct r; cbn; eauto. Qed.

Lemma filter_summary_app (a b : list event) :
  filter is_summary (a ++ b) = (filter is_summary a ++ filter is_summary b)%list.
Proof. apply filter_app. Qed.

(** The loop adds one to [success_count] per successful send and never
    touches [failed_count]. *)
Lemma email_loop_counts (w : world) (total : nat) (subs : list subscriber) :
  forall idx c,
  exists tr,
    email_loop py_repr w total idx subs c =
      (tr, inr {| success_count :=
                    success_count c + successful_sends w idx (List.length subs);
                  failed_count := failed_count c |}) /\
    filter is_summary tr = [].
Proof.
  induction subs as [|[[fn ln] em] rest IH]; intros idx c.
  - exists []; split; [|reflexivity].
    cbn. unfold successful_sends; cbn. rewrite Nat.add_0_r. now destruct c.
  - destruct (get_random_quote_returns (http w idx)) as (trq & q & Hq & Fq).
    destruct (send_email_returns (smtp w idx) em fn ln q) as (trs & Hs & Fs).
    set (c' := if smtp_ok (smtp w idx)
               then {| success_count := S (success_count c);
                       failed_count := failed_count c |}
               else c).
    destruct (IH (S idx) c') as (trl & Hl & Fl).
    assert (Hc : success_count c' + successful_sends w (S idx) (List.length rest)
                 = success_count c + successful_sends w idx (S (List.length rest))
                 /\ failed_count c' = failed_count c).
    { unfold successful_sends, c'; cbn [seq filter].
      destruct (smtp_ok (smtp w idx)); cbn; split; lia || reflexivity. }
    destruct Hc as [Hc1 Hc2].
    cbn [email_loop List.length].
    unfold log at 1 2. cbn [Run.bind Run.emit].
    rewrite (RunFacts.bind_ok _ _ _ _ Hq). cbn [fst snd].
    rewrite (RunFacts.bind_ok _ _ _ _ Hs). cbn [fst snd].
    fold c'.
    destruct (idx <? total)%nat; cbn [Run.bind Run.emit Run.ret log fst snd];
      rewrite Hl; cbn [fst snd]; rewrite Hc1, Hc2;
      eexists; (split; [reflexivity|]);
      cbn [app]; cbn [filter is_summary];
      rewrite !filter_summary_app, Fq, Fs; cbn; rewrite ?filter_summary_app, Fl;
      reflexivity.
Qed.

Lemma get_subscribers_returns (w : world) :
  exists tr, get_subscribers w = (tr, inr (fetched w)) /\
             filter is_summary tr = [].
Proof.
  unfold get_subscribers, fetched.
  destruct (db w) as [| |rows]; cbn; eauto.
  destruct (List.length rows =? 0)%nat; cbn; eauto.
Qed.

(** The whole run: it returns, and the summary lines it writes. *)
Lemma main_summary (w : world) :
  exists tr,
    main py_repr w = (tr, inr tt) /\
    filter is_summary tr =
      match fetched w with
      | [] => []
      | _ :: _ =>
          let k := successful_sends w 1 (List.length (fetched w)) in
          [Log INFO (MsgSentSuccessfully k);
           Log INFO (MsgEmailsFailed 0);
           Log INFO (MsgSuccessRate k (List.length (fetched w)))]
      end.
Proof.
  destruct (get_subscribers_returns w) as (trs & Hs & Fs).
  unfold main. unfold log at 1 2 3 4. cbn [Run.bind Run.emit].
  rewrite (RunFacts.bind_ok _ _ _ _ Hs).
  destruct (fetched w) as [|s0 rest] eqn:Hf.
  - cbn - [filter]. eexists; split; [reflexivity|].
    repeat (progress cbn [filter is_summary] || rewrite filter_summary_app).
    rewrite Fs. reflexivity.
  - destruct (email_loop_counts w (List.length (s0 :: rest)) (s0 :: rest) 1
                {| success_count := 0; failed_count := 0 |}) as (trl & Hl & Fl).
    cbn [success_count failed_count Nat.add] in Hl.
    unfold log at 1 2 3 4. cbn [Run.bind Run.emit fst snd].
    rewrite (RunFacts.bind_ok _ _ _ _ Hl).
    cbn - [successful_sends filter].
    eexists; split; [reflexivity|].
    repeat (progress cbn [filter is_summary] || rewrite filter_summary_app).
    rewrite Fs, Fl. reflexivity.
Qed.

Lemma reported_failed_summary (tr : list event) :
  reported_failed (filter is_summary tr) = reported_failed tr.
Proof.
  unfold reported_failed.
  induction tr as [|[l []| | |] tr IH]; cbn [filter is_summary flat_map app];
    congruence.
Qed.

Lemma reported_success_summary (tr : list event) :
  reported_success (filter is_summary tr) = reported_success tr.
Proof.
  unfold reported_success.
  induction tr as [|[l []| | |] tr IH]; cbn [filter is_summary flat_map app];
    congruence.
Qed.

Lemma reported_rates_summary (tr : list event) :
  reported_rates (filter is_summary tr) = reported_rates tr.
Proof.
  unfold reported_rates.
  induction tr as [|[l []| | |] tr IH]; cbn [filter is_summary flat_map app];
    congruence.
Qed.
End WithRepr.

(** C3. In the per-subscriber loop every successful send adds one to the
    success counter and nothing ever adds to the failure counter, failed
    sends included; so a run that reaches the summary reports 0 failed
    e-mails and as many successes as sends went through, whatever the
    outcomes were. *)
Theorem failed_count_never_incremented (py_repr : json -> string) (w : world) :
  (forall total idx subs c,
     Run.outcome (email_loop py_repr w total idx subs c) =
       inr {| success_count :=
                success_count c + successful_sends w idx (List.length subs);
              failed_count := failed_count c |}) /\
  (fetched w <> [] ->
   reported_failed (Run.trace (main py_repr w)) = [0] /\
   reported_success (Run.trace (main py_repr w)) =
     [successful_sends w 1 (List.length (fetched w))]).
Proof.
  split.
  - intros total idx subs c.
    destruct (email_loop_counts py_repr w total subs idx c) as (tr & -> & _).
    reflexivity.
  - intros Hne.
    destruct (main_summary py_repr w) as (tr & -> & F).
    unfold Run.trace; cbn [fst].
    rewrite <- reported_failed_summary, <- reported_success_summary, F.
    destruct (fetched w); [congruence|]. split; reflexivity.
Qed.

Lemma failed_count_never_incremented_witness :
  fetched two_subscribers_one_failure <> [] /\
  reported_failed (Run.trace (main (fun _ => "") two_subscribers_one_failure)) = [0] /\
  reported_success (Run.trace (main (fun _ => "") two_subscribers_one_failure)) = [1].
Proof.
  split; [discriminate|].
  apply (proj2 (failed_count_never_incremented (fun _ => "") two_subscribers_one_failure)).
  discriminate.
Defined.

(** C4. The quote fetcher never raises.  On status 200, with [q] and [a]
    the entries of the first element of the JSON body, it returns
    ["<q>" - <a>]; on any other status, on a timeout and on any other
    exception (a failed request, a body that is not JSON or has no such
    first element) it returns the fixed fallback quote. *)
Theorem get_random_quote_spec (py_repr : json -> string) (r : http_reply) :
  (forall data first q a,
     r = HttpResponse 200 (Some data) ->
     item0 data = inr first -> item "q" first = inr q -> item "a" first = inr a ->
     Run.outcome (get_random_quote py_repr r) =
       inr (dquote ++ format py_repr q ++ dquote ++ " - " ++ format py_repr a)) /\
  (forall status_code body,
     r = HttpResponse status_code body -> status_code <> 200%Z ->
     Run.outcome (get_random_quote py_repr r) = inr fallback_quote) /\
  (r = HttpTimeout ->
     Run.outcome (get_random_quote py_repr r) = inr fallback_quote) /\
  (r = HttpFailure ->
     Run.outcome (get_random_quote py_repr r) = inr fallback_quote) /\
  (forall body,
     r = HttpResponse 200 body ->
     (forall data first q a,
        body = Some data -> item0 data = inr first ->
        item "q" first = inr q -> item "a" first = inr a -> False) ->
     Run.outcome (get_random_quote py_repr r) = inr fallback_quote) /\
  (exists s, Run.outcome (get_random_quote py_repr r) = inr s) /\
  fallback_quote = "Believe you can and you're halfway there. - Theodore Roosevelt".
Proof.
  repeat apply conj.
  - intros data first q a -> H0 Hq Ha.
    unfold get_random_quote; cbn. rewrite H0; cbn. rewrite Hq; cbn.
    rewrite Ha; cbn. reflexivity.
  - intros status_code body -> Hne.
    unfold get_random_quote; cbn.
    destruct (Z.eqb_spec status_code 200); [contradiction|]. reflexivity.
  - intros ->; reflexivity.
  - intros ->; reflexivity.
  - intros body -> Hbad.
    unfold get_random_quote; cbn.
    destruct body as [data|]; cbn; [|reflexivity].
    destruct (item0 data) as [e|first] eqn:H0; cbn; [now destruct e|].
    destruct (item "q" first) as [e|q] eqn:Hq; cbn; [now destruct e|].
    destruct (item "a" first) as [e|a] eqn:Ha; cbn; [now destruct e|].
    exfalso; eapply Hbad; eauto.
  - destruct (get_random_quote_returns py_repr r) as (tr & s & -> & _).
    now exists s.
  - reflexivity.
Qed.

Lemma get_random_quote_spec_witness :
  Run.outcome (get_random_quote (fun _ => "")
     (HttpResponse 200
        (Some (JArr [JObj [("q", JStr "Test quote"); ("a", JStr "Tester")]]))))
    = inr (dquote ++ "Test quote" ++ dquote ++ " - Tester") /\
  Run.outcome (get_random_quote (fun _ => "") (HttpResponse 503 None))
    = inr fallback_quote /\
  Run.outcome (get_random_quote (fun _ => "") HttpTimeout) = inr fallback_quote /\
  Run.outcome (get_random_quote (fun _ => "") HttpFailure) = inr fallback_quote /\
  Run.outcome (get_random_quote (fun _ => "") (HttpResponse 200 (Some (JArr []))))
    = inr fallback_quote.
Proof.
  repeat apply conj.
  - apply (proj1 (get_random_quote_spec (fun _ => "") _)
             (JArr [JObj [("q", JStr "Test quote"); ("a", JStr "Tester")]])
             (JObj [("q", JStr "Test quote"); ("a", JStr "Tester")])
             (JStr "Test quote") (JStr "Tester")); reflexivity.
  - apply (proj1 (proj2 (get_random_quote_spec (fun _ => "") _)) 503%Z None);
      [reflexivity | discriminate].
  - apply (proj1 (proj2 (proj2 (get_random_quote_spec (fun _ => "") _)))); reflexivity.
  - apply (proj1 (proj2 (proj2 (proj2 (get_random_quote_spec (fun _ => "") _)))));
      reflexivity.
  - apply (proj1 (proj2 (proj2 (proj2 (proj2 (get_random_quote_spec (fun _ => "") _)))))
             (Some (JArr []))); [reflexivity|].
    intros data first q a [= <-]; discriminate.
Defined.

(** C10. [main] never divides by zero: the success rate is computed only
    in runs whose subscriber list is not empty, its divisor being the
    length of that list, because an empty list makes [main] return before
    the loop and the summary; every run returns normally. *)
Theorem success_rate_divisor_nonzero (py_repr : json -> string) (w : world) :
  Run.outcome (main py_repr w) = inr tt /\
  Run.outcome (main py_repr w) <> inl ZeroDivisionError /\
  (fetched w = [] -> reported_rates (Run.trace (main py_repr w)) = []) /\
  (forall num den,
     In (num, den) (reported_rates (Run.trace (main py_repr w))) ->
     fetched w <> [] /\ den = List.length (fetched w) /\ den <> 0).
Proof.
  destruct (main_summary py_repr w) as (tr & -> & F).
  unfold Run.outcome, Run.trace; cbn [fst snd].
  rewrite <- reported_rates_summary, F.
  repeat apply conj; try easy.
  - now intros ->.
  - intros num den. destruct (fetched w) as [|s0 rest]; cbn; [easy|].
    intros [[= <- <-]|[]]. repeat split; easy.
Qed.

Lemma success_rate_divisor_nonzero_witness :
  reported_rates (Run.trace (main (fun _ => "") one_subscriber)) = [(1, 1)] /\
  fetched one_subscriber <> [] /\ 1 = List.length (fetched one_subscriber) /\ 1 <> 0.
Proof.
  split; [reflexivity|].
  apply (proj2 (proj2 (proj2 (success_rate_divisor_nonzero (fun _ => "") one_subscriber))) 1 1).
  cbn. left; reflexivity.
Defined.

End EmailerProps.

(** ** Sheet extraction and cleaning *)

Module SheetProps.
Import Sheet.

Lemma filter_all {A} (p : A -> bool) (l : list A) :
  forallb p l = true -> filter p l = l.
Proof.
  induction l as [|x l IH]; cbn; [reflexivity|].
  intros [-> Hl]%andb_prop. now rewrite IH.
Qed.

Lemma map_all_true {A} (p : A -> bool) (l : list A) :
  forallb p l = true -> map p l = repeat true (List.length l).
Proof.
  induction l as [|x l IH]; cbn; [reflexivity|].
  intros [-> Hl]%andb_prop. now rewrite IH.
Qed.

Lemma select_all {A} (l : list A) : select (repeat true (List.length l)) l = l.
Proof. induction l as [|x l IH]; cbn; [reflexivity | now rewrite IH]. Qed.

Lemma dropna_rows_clean (df : dataframe) :
  forallb (existsb notnull) (rows df) = true -> dropna_rows df = df.
Proof.
  intros H; unfold dropna_rows. rewrite filter_all by exact H. now destruct df.
Qed.

Lemma dropna_columns_clean (df : dataframe) :
  rectangular df = true ->
  forallb (fun j => existsb notnull (column j (rows df)))
          (seq 0 (List.length (columns df))) = true ->
  dropna_columns df = df.
Proof.
  intros Hrect Hcols; unfold dropna_columns.
  rewrite (map_all_true _ _ Hcols), length_seq, select_all.
  clear Hcols. destruct df as [cols rs]; cbn in *; f_equal.
  induction rs as [|r rs IH]; cbn in *; [reflexivity|].
  apply andb_prop in Hrect as [Hr Hrs].
  apply Nat.eqb_eq in Hr. rewrite <- Hr at 1. rewrite select_all.
  f_equal. apply IH; assumption.
Qed.

Lemma stripped_labels (cols : list cell) :
  forallb stripped_text cols = true ->
  map (fun c => Text (PyStr.strip (astype_str c))) cols = cols.
Proof.
  induction cols as [|[|s] cols IH]; cbn [map forallb stripped_text astype_str];
    [reflexivity|discriminate|].
  intros [Hs Hl]%andb_prop. apply String.eqb_eq in Hs. now rewrite Hs, IH.
Qed.

Example clean_signup_sheet :
  Run.outcome (clean_dataframe signup_sheet) = inr cleaned_once.
Proof. reflexivity. Qed.

(** C2, as stated, fails: cleaning the output of a cleaning promotes the
    first data row to header and so loses a row. *)
Lemma clean_twice_differs :
  Run.outcome (clean_dataframe signup_sheet) = inr cleaned_once /\
  Run.outcome (clean_dataframe cleaned_once) = inr cleaned_twice /\
  cleaned_twice <> cleaned_once /\
  ~ (forall df once,
       Run.outcome (clean_dataframe df) = inr once ->
       Run.outcome (clean_dataframe once) = inr once).
Proof.
  assert (Hne : cleaned_twice <> cleaned_once) by discriminate.
  repeat split; try reflexivity; try exact Hne.
  intros H. specialize (H signup_sheet cleaned_once eq_refl).
  apply Hne. cbv in H. congruence.
Qed.

(** On an already clean table every step finds nothing to do. *)
Lemma clean_dataframe_fixed (df : dataframe) :
  already_clean df = true ->
  clean_dataframe df =
    ([Log INFO MsgCleaning; Print; Print;
      Log INFO (MsgCleaned (List.length (rows df)) (List.length (columns df)))],
     inr df).
Proof.
  unfold already_clean.
  rewrite !andb_true_iff.
  intros (((((((Hrect & Hne) & Hrows) & Hcols) & Hnum) & Hcap) & Hlab) & Hdeg).
  unfold clean_dataframe.
  rewrite (dropna_rows_clean df Hrows), (dropna_columns_clean df Hrect Hcols).
  destruct df as [cols [|r0 rs]]; [discriminate|].
  cbn [rows columns] in *.
  destruct cols as [|c0 cols].
  { exfalso. cbn in Hrect, Hrows.
    apply andb_prop in Hrect as [Hr _], Hrows as [Hx _].
    destruct r0; [discriminate Hx | discriminate Hr]. }
  apply negb_true_iff in Hnum, Hcap.
  cbn [hd] in Hcap.
  rewrite Hnum. cbn [Run.bind Run.ret Run.emit log rows columns Run.catch fst snd app].
  rewrite Hcap. cbn [rows columns].
  rewrite (stripped_labels _ Hlab), (filter_all _ _ Hdeg).
  reflexivity.
Qed.

(** C2, amended. Cleaning returns its input unchanged on every table that
    is already clean: rectangular with at least one row, no row and no
    column entirely null, a first column that is not all row numbers, a
    first row at least half of whose cells are single capitals, labels
    that are stripped texts, and no row repeating one value throughout.
    On such a table nothing is removed and no header is promoted, and
    cleaning twice gives what cleaning once gives. *)
Theorem clean_dataframe_already_clean (df : dataframe) :
  already_clean df = true ->
  Run.outcome (clean_dataframe df) = inr df /\
  Run.outcome (once <- clean_dataframe df ;; clean_dataframe once)%run =
    Run.outcome (clean_dataframe df).
Proof.
  intros H. pose proof (clean_dataframe_fixed df H) as E.
  rewrite (RunFacts.bind_ok _ _ _ _ E), E. split; reflexivity.
Qed.

Lemma clean_dataframe_already_clean_witness :
  already_clean lettered_sheet = true /\
  Run.outcome (clean_dataframe lettered_sheet) = inr lettered_sheet /\
  Run.outcome (once <- clean_dataframe lettered_sheet ;; clean_dataframe once)%run =
    Run.outcome (clean_dataframe lettered_sheet).
Proof.
  split; [reflexivity|].
  apply (clean_dataframe_already_clean lettered_sheet); reflexivity.
Defined.

(** C5. The extraction returns the empty table, without raising, when
    the page was fetched and holds no table element; it raises, and so
    returns no table at all, when the fetch fails, be it the request
    itself or an error status of the answer. *)
Theorem extract_to_df_no_table_or_fetch_error {element : Type}
    (find_all_table : string -> list element)
    (read_html : element -> option dataframe)
    (reply : fetch_reply) (sheet_url : string) :
  let run := extract_to_df find_all_table read_html reply sheet_url in
  (forall status_code text,
     reply = Response status_code text ->
     ((400 <=? status_code) && (status_code <? 600))%Z = false ->
     find_all_table text = [] ->
     Run.outcome run = inr empty_frame) /\
  (reply = FetchFails -> Run.outcome run = inl RequestException) /\
  (forall status_code text,
     reply = Response status_code text ->
     ((400 <=? status_code) && (status_code <? 600))%Z = true ->
     Run.outcome run = inl HTTPError).
Proof.
  cbv zeta; unfold extract_to_df; repeat apply conj.
  - intros status_code text -> Hst Hnone. cbn. unfold raise_for_status.
    rewrite Hst. cbn. rewrite Hnone. reflexivity.
  - intros ->. reflexivity.
  - intros status_code text -> Hst. cbn. unfold raise_for_status.
    rewrite Hst. reflexivity.
Qed.

Lemma extract_to_df_no_table_or_fetch_error_witness :
  Run.outcome (extract_to_df no_tables unreadable (Response 200 "<html></html>")
                 "https://docs.example/pubhtml") = inr empty_frame /\
  Run.outcome (extract_to_df no_tables unreadable FetchFails
                 "https://docs.example/pubhtml") = inl RequestException /\
  Run.outcome (extract_to_df no_tables unreadable (Response 404 "Not found")
                 "https://docs.example/pubhtml") = inl HTTPError.
Proof.
  repeat apply conj.
  - apply (proj1 (extract_to_df_no_table_or_fetch_error no_tables unreadable
                    (Response 200 "<html></html>") "https://docs.example/pubhtml")
             200%Z "<html></html>"); reflexivity.
  - apply (proj1 (proj2 (extract_to_df_no_table_or_fetch_error no_tables unreadable
                    FetchFails "https://docs.example/pubhtml"))); reflexivity.
  - apply (proj2 (proj2 (extract_to_df_no_table_or_fetch_error no_tables unreadable
                    (Response 404 "Not found") "https://docs.example/pubhtml"))
             404%Z "Not found"); reflexivity.
Defined.

End SheetProps.

(** ** Warehouse loader *)

Module LoaderProps.
Import Loader LoaderTrace.

Lemma chunks_of_concat {A} (n : nat) :
  1 <= n ->
  forall fuel (l : list A),
    List.length l <= fuel -> List.concat (chunks_of fuel n l) = l.
Proof.
  intros Hn; induction fuel as [|fuel IH]; intros [|x l] Hl; cbn [chunks_of List.concat];
    try reflexivity.
  - cbn in Hl; lia.
  - rewrite IH; [apply firstn_skipn|].
    rewrite length_skipn. cbn [List.length] in *. lia.
Qed.

Lemma read_csv_batches (file : csv) (batch_size : nat) :
  1 <= batch_size ->
  read_csv (Parsed file) batch_size =
    inr (map (with_rows file) (batches file batch_size)).
Proof. intros H. destruct batch_size; [lia | reflexivity]. Qed.

Lemma concat_batches (file : csv) (batch_size : nat) :
  1 <= batch_size -> List.concat (batches file batch_size) = rows file.
Proof. intros H. now apply chunks_of_concat. Qed.

Lemma read_csv_rows (file : csv) (batch_size : nat) :
  1 <= batch_size ->
  exists chunks,
    read_csv (Parsed file) batch_size = inr chunks /\
    List.concat (map rows chunks) = rows file /\
    Forall (fun ch => columns ch = columns file) chunks.
Proof.
  intros Hn. rewrite (read_csv_batches file batch_size Hn).
  eexists; split; [reflexivity|]. split.
  - rewrite map_map; cbn [rows]. rewrite map_id.
    now apply concat_batches.
  - apply Forall_map, Forall_forall; reflexivity.
Qed.

Lemma inserted_rows_app (a b : list event) :
  inserted_rows (a ++ b) = (inserted_rows a ++ inserted_rows b)%list.
Proof. apply flat_map_app. Qed.

Lemma reported_skipped_app (a b : list event) :
  reported_skipped (a ++ b) = (reported_skipped a ++ reported_skipped b)%list.
Proof. apply flat_map_app. Qed.

Lemma complaints_app (a b : list event) :
  complaints (a ++ b) = (complaints a ++ complaints b)%list.
Proof. apply filter_app. Qed.

Lemma quiet_app (a b : list event) (da db : list row) :
  quiet a da -> quiet b db -> quiet (a ++ b) (da ++ db).
Proof.
  intros (Ia & Ra & Ca) (Ib & Rb & Cb); unfold quiet.
  now rewrite inserted_rows_app, reported_skipped_app, complaints_app,
    Ia, Ib, Ra, Rb, Ca, Cb.
Qed.

Lemma bind_lift {A B} (a : A) (k : A -> M B) : Run.bind (lift (inr a)) k = k a.
Proof. unfold lift, Run.bind. now destruct (k a). Qed.

Lemma bind_lift_raised {A B} (e : exn) (k : A -> M B) :
  Run.bind (lift (inl e)) k = ([], inl e).
Proof. reflexivity. Qed.

(** *** The assignment of the converted column and the comparison *)

Lemma set_column_length (i : nat) (aware : bool) (rs : list row) :
  forall stamps, List.length (set_column i aware stamps rs) = List.length rs.
Proof. induction rs as [|r rs IH]; intros stamps; cbn; [reflexivity | now rewrite IH]. Qed.

Lemma set_column_combine (i : nat) (aware : bool) (rs : list row) :
  forall stamps,
    List.length stamps = List.length rs ->
    set_column i aware stamps rs = map (with_timestamp i aware) (combine stamps rs).
Proof.
  induction rs as [|r rs IH]; intros [|t stamps] H; cbn in H |- *;
    try reflexivity; try discriminate.
  unfold with_timestamp at 1; cbn [fst snd]. f_equal. apply IH. lia.
Qed.

Lemma nth_put (c : cell) (r : row) :
  forall i, has_column i r = true -> nth i (put i c r) CNaN = c.
Proof.
  unfold has_column.
  induction r as [|c' r IH]; intros [|i] H; cbn in H |- *;
    try reflexivity; try discriminate.
  apply IH. exact H.
Qed.

Lemma instant_of_stamp (aware : bool) (t : option instant) :
  instant_of (stamp aware t) = t.
Proof. now destruct t. Qed.

(** After the assignment the comparison reads the timestamp of the row. *)
Lemma filter_with_timestamp (T : instant) (i : nat) (aware : bool)
    (ps : list (option instant * row)) :
  Forall (fun p => has_column i (snd p) = true) ps ->
  filter (fun r => after T (instant_of (nth i r CNaN))) (map (with_timestamp i aware) ps) =
  map (with_timestamp i aware) (filter (is_after T) ps).
Proof.
  intros H. rewrite filter_map_swap. f_equal.
  apply filter_ext_in. intros p Hp.
  rewrite Forall_forall in H. unfold with_timestamp, is_after.
  now rewrite nth_put, instant_of_stamp by now apply H.
Qed.

Lemma flat_map_map {A B C} (f : B -> list C) (g : A -> B) (l : list A) :
  flat_map f (map g l) = flat_map (fun x => f (g x)) l.
Proof. induction l as [|x l IH]; cbn; [reflexivity | now rewrite IH]. Qed.


Section WithPandas.
Variable pd : pandas.

Lemma converts_spec (aware : bool) (i : nat) (batch : list row) :
  converts pd aware i batch = true ->
  exists stamps,
    to_datetime_series pd (column i batch) = inr stamps /\
    tz_aware stamps = aware /\
    List.length (values stamps) = List.length batch /\
    timestamps pd i batch = values stamps.
Proof.
  unfold converts, timestamps.
  destruct (to_datetime_series pd (column i batch)) as [e|stamps]; [discriminate|].
  intros [Ha Hl]%andb_prop. exists stamps.
  apply Bool.eqb_prop in Ha. apply Nat.eqb_eq in Hl. repeat split; assumption.
Qed.


Lemma dated_has_column (i : nat) (batch : list row) :
  forallb (has_column i) batch = true ->
  Forall (fun p => has_column i (snd p) = true) (dated pd i batch).
Proof.
  intros H. rewrite forallb_forall in H. apply Forall_forall. intros [t r] Hp.
  apply in_combine_r in Hp. now apply H.
Qed.



Section Load.
Variable wh : warehouse.
Variables (table : string) (incremental : bool).
Variable max_timestamp : dbvalue.
Variable timestamp_column : option string.
Hypothesis inserts_go_through : forall n, insert_ok wh n = true.

Lemma insert_chunk_run (chunk_num : nat) (chunk : csv) (total_rows : nat) :
  exists tr,
    insert_chunk wh table chunk_num chunk total_rows =
      (tr, inr (total_rows + List.length (rows chunk))) /\
    quiet tr (rows chunk).
Proof.
  unfold insert_chunk.
  destruct (rows chunk) as [|r rs] eqn:Hrows; cbn [List.length Nat.eqb].
  - rewrite Nat.add_0_r. exists []; repeat split.
  - rewrite inserts_go_through. cbn.
    eexists; split; [reflexivity|]. repeat split.
    cbn. now rewrite app_nil_r.
Qed.

(** Chunks that are not filtered are inserted whole. *)
Lemma load_chunks_unfiltered (chunks : list csv) :
  Forall (fun ch => filter_column incremental max_timestamp timestamp_column ch = None)
         chunks ->
  forall chunk_num total_rows skipped_rows,
  exists tr,
    load_chunks pd wh table incremental max_timestamp timestamp_column
        chunk_num chunks total_rows skipped_rows =
      (tr, inr (total_rows + List.length (List.concat (map rows chunks)), skipped_rows)) /\
    quiet tr (List.concat (map rows chunks)).
Proof.
  induction 1 as [|chunk rest Hnone _ IH]; intros chunk_num total_rows skipped_rows.
  - exists []; cbn. rewrite Nat.add_0_r. repeat split.
  - cbn [load_chunks map List.concat]. rewrite Hnone.
    destruct (insert_chunk_run chunk_num chunk total_rows) as (tr1 & H1 & Q1).
    destruct (IH (S chunk_num) (total_rows + List.length (rows chunk)) skipped_rows)
      as (tr2 & H2 & Q2).
    rewrite (RunFacts.bind_ok _ _ _ _ H1), H2; cbn [fst snd].
    rewrite length_app, Nat.add_assoc.
    eexists; split; [reflexivity|]. now apply quiet_app.
Qed.
End Load.

Section Filtered.
Variable wh : warehouse.
Variable table : string.
Variable watermark : dbvalue.
Variables (col : string) (i : nat) (aware : bool) (T : instant).
Hypothesis inserts_go_through : forall n, insert_ok wh n = true.
Hypothesis watermark_true : truthy watermark = true.
Hypothesis watermark_instant : to_datetime_scalar pd watermark = inr (Timestamp aware T).

End Filtered.

(** The watermark, when the table exists and the query answers. *)
Lemma get_max_timestamp_found (wh : warehouse) (database table col : string)
    (v : dbvalue) :
  col <> "" ->
  first_value (exists_reply wh) = inr (DbInt 1) ->
  first_value (max_reply wh) = inr v ->
  get_max_timestamp wh database table true (Some col) =
    ([Execute (ExistsTable database table);
      Execute (SelectMax col database table);
      Log INFO (if truthy v then MsgLastTimestamp v else MsgTableEmpty)], inr v).
Proof.
  intros Hcol He Hm. unfold get_max_timestamp.
  destruct col as [|c col']; [congruence|]. cbn [given PyStr.truthy negb].
  rewrite He, Hm. cbn. now destruct (truthy v).
Qed.

Lemma index_of_absent (c : string) (cols : list string) :
  ~ In c cols -> index_of c cols = None.
Proof.
  induction cols as [|c' cols IH]; cbn; [reflexivity|].
  intros H. destruct (String.eqb_spec c c') as [->|_]; [tauto|].
  rewrite IH; tauto.
Qed.

Section Incremental.
Variables (wh : warehouse) (file : csv).
Variables (host database table user password : string).
Variables (batch_size : nat) (col : string) (watermark : dbvalue).
Hypothesis batch_size_positive : 1 <= batch_size.
Hypothesis col_given : col <> "".
Hypothesis table_exists : first_value (exists_reply wh) = inr (DbInt 1).
Hypothesis max_found : first_value (max_reply wh) = inr watermark.
Hypothesis inserts_go_through : forall n, insert_ok wh n = true.

Let run : M unit :=
  load_csv_to_clickhouse pd wh (Parsed file) host database table user
    password batch_size true (Some col).


(** Without the column among the labels. *)
Lemma incremental_run_unfiltered :
  ~ In col (columns file) ->
  exists tr,
    run = (tr, inr tt) /\
    inserted_rows tr = rows file /\
    reported_skipped tr = [0] /\
    complaints tr = [].
Proof.
  intros Habsent.
  destruct (read_csv_rows file batch_size batch_size_positive)
    as (chunks & Hread & Hrows & Hcols).
  assert (Hnone : Forall (fun ch => filter_column true watermark (Some col) ch = None)
                         chunks).
  { eapply Forall_impl; [|exact Hcols]. cbn; intros ch Hch.
    unfold filter_column. rewrite Hch.
    destruct (truthy watermark); cbn [andb]; [|reflexivity].
    now apply index_of_absent. }
  destruct (load_chunks_unfiltered wh table true watermark (Some col)
              inserts_go_through chunks Hnone 0 0 0)
    as (trl & Hl & Il & Rl & Cl).
  rewrite Hrows in Hl, Il. cbn [Nat.add] in Hl.
  unfold run, load_csv_to_clickhouse.
  unfold log at 1. cbn [Run.bind Run.emit].
  rewrite (RunFacts.bind_ok _ _ _ _
             (get_max_timestamp_found wh database table col watermark
                col_given table_exists max_found)).
  cbn [fst snd]. unfold log at 1. cbn [Run.bind Run.emit].
  rewrite Hread. cbn [lift Run.bind fst snd].
  rewrite Hl. cbn [fst snd Run.bind Run.emit log Run.catch app].
  eexists; split; [reflexivity|].
  unfold inserted_rows, reported_skipped, complaints in *.
  repeat (progress cbn [flat_map filter app]
          || rewrite flat_map_app || rewrite filter_app).
  rewrite Il, Rl, Cl, !app_nil_r. repeat split.
  now destruct (truthy watermark).
Qed.
End Incremental.
End WithPandas.

Lemma index_of_present (c : string) (cols : list string) :
  index_of c cols = None -> ~ In c cols.
Proof.
  induction cols as [|c' cols IH]; cbn; [tauto|].
  destruct (String.eqb_spec c c') as [->|Hne]; [discriminate|].
  destruct (index_of c cols); [discriminate|].
  intros _ [->|H]; [congruence | now apply IH].
Qed.




(** C9. Incremental load, the table existing and the watermark query
    answering (with a non-null value or any other), of a CSV whose header
    lacks the timestamp column: no chunk is filtered; every row is
    inserted as it is; the skipped rows reported are 0; and the run writes
    no warning and no error. *)
Theorem missing_timestamp_column_loads_everything
    (pd : pandas)
    (wh : warehouse) (file : csv) (host database table user password : string)
    (batch_size : nat) (col : string) (watermark : dbvalue) :
  1 <= batch_size ->
  col <> "" ->
  first_value (exists_reply wh) = inr (DbInt 1) ->
  first_value (max_reply wh) = inr watermark ->
  index_of col (columns file) = None ->
  (forall n, insert_ok wh n = true) ->
  let run := load_csv_to_clickhouse pd wh (Parsed file) host database table
               user password batch_size true (Some col) in
  Run.outcome run = inr tt /\
  inserted_rows (Run.trace run) = rows file /\
  reported_skipped (Run.trace run) = [0] /\
  complaints (Run.trace run) = [].
Proof.
  intros Hn Hcol He Hm Hi Hins run.
  destruct (incremental_run_unfiltered pd wh file host database table user
              password batch_size col watermark Hn Hcol He Hm Hins
              (index_of_present _ _ Hi)) as (tr & Hrun & H).
  fold run in Hrun. now rewrite Hrun.
Qed.

Lemma missing_timestamp_column_loads_everything_witness :
  let run := load_csv_to_clickhouse pandas_on_integers loaded_until_100
               (Parsed signups_without_timestamp)
               "ch.local" "quotes" "quote_suscribers" "default" "" 2 true
               (Some "Timestamp") in
  Run.outcome run = inr tt /\
  inserted_rows (Run.trace run) = rows signups_without_timestamp /\
  reported_skipped (Run.trace run) = [0] /\
  complaints (Run.trace run) = [].
Proof.
  apply (missing_timestamp_column_loads_everything pandas_on_integers loaded_until_100
           signups_without_timestamp "ch.local" "quotes" "quote_suscribers"
           "default" "" 2 "Timestamp" (DbDatetime false 100));
    lia || discriminate || reflexivity.
Defined.



End LoaderProps.

(** * Further properties *)

(** ** Traces of binds and handlers *)

Module RunMore.
Section WithTypes.
Context {E X : Type}.

Lemma trace_bind {A B} (m : Run.t E X A) (k : A -> Run.t E X B) :
  Run.trace (Run.bind m k) =
    (Run.trace m ++ match Run.outcome m with
                    | inr a => Run.trace (k a)
                    | inl _ => []
                    end)%list.
Proof.
  destruct m as [tr [x|a]]; cbn; [now rewrite app_nil_r|].
  now destruct (k a).
Qed.

Lemma outcome_bind {A B} (m : Run.t E X A) (k : A -> Run.t E X B) :
  Run.outcome (Run.bind m k) =
    match Run.outcome m with
    | inr a => Run.outcome (k a)
    | inl x => inl x
    end.
Proof. destruct m as [tr [x|a]]; cbn; [reflexivity|]. now destruct (k a). Qed.

Lemma trace_catch {A} (m : Run.t E X A) (h : X -> Run.t E X A) :
  Run.trace (Run.catch m h) =
    (Run.trace m ++ match Run.outcome m with
                    | inl x => Run.trace (h x)
                    | inr _ => []
                    end)%list.
Proof.
  destruct m as [tr [x|a]]; cbn; [|now rewrite app_nil_r].
  now destruct (h x).
Qed.

Lemma outcome_catch {A} (m : Run.t E X A) (h : X -> Run.t E X A) :
  Run.outcome (Run.catch m h) =
    match Run.outcome m with
    | inl x => Run.outcome (h x)
    | inr a => inr a
    end.
Proof. destruct m as [tr [x|a]]; cbn; [|reflexivity]. now destruct (h x). Qed.

Lemma Forall_bind (P : E -> Prop) {A B} (m : Run.t E X A) (k : A -> Run.t E X B) :
  Forall P (Run.trace m) -> (forall a, Forall P (Run.trace (k a))) ->
  Forall P (Run.trace (Run.bind m k)).
Proof.
  intros Hm Hk. rewrite trace_bind. apply Forall_app; split; [assumption|].
  destruct (Run.outcome m); [constructor | apply Hk].
Qed.

Lemma Forall_bind_outcome (P : E -> Prop) {A B}
    (m : Run.t E X A) (k : A -> Run.t E X B) :
  Forall P (Run.trace m) ->
  (forall a, Run.outcome m = inr a -> Forall P (Run.trace (k a))) ->
  Forall P (Run.trace (Run.bind m k)).
Proof.
  intros Hm Hk. rewrite trace_bind. apply Forall_app; split; [assumption|].
  destruct (Run.outcome m); [constructor | now apply Hk].
Qed.

End WithTypes.
End RunMore.

(** ** WhatsApp broadcaster: contacts, sends and waits *)

Module BroadcasterMore.
Import Broadcaster BroadcasterTrace.

Lemma rstrip_cons (c : ascii) (s : string) :
  PyStr.rstrip (String c s) =
    match PyStr.rstrip s with
    | EmptyString => if PyStr.is_space c then EmptyString else String c EmptyString
    | r => String c r
    end.
Proof. reflexivity. Qed.

Lemma rstrip_idempotent (s : string) : PyStr.rstrip (PyStr.rstrip s) = PyStr.rstrip s.
Proof.
  induction s as [|c s IH]; [reflexivity|].
  rewrite rstrip_cons.
  destruct (PyStr.rstrip s) as [|d r] eqn:Hr.
  - destruct (PyStr.is_space c) eqn:Hc; [reflexivity|].
    rewrite rstrip_cons. cbn [PyStr.rstrip]. now rewrite Hc.
  - rewrite rstrip_cons, IH. reflexivity.
Qed.

Lemma lstrip_head (s : string) :
  PyStr.lstrip s = EmptyString \/
  exists c t, PyStr.lstrip s = String c t /\ PyStr.is_space c = false.
Proof.
  induction s as [|c s IH]; cbn; [now left|].
  destruct (PyStr.is_space c) eqn:Hc; [exact IH|]. right; eauto.
Qed.

Lemma rstrip_head (c : ascii) (t : string) :
  PyStr.is_space c = false -> exists t', PyStr.rstrip (String c t) = String c t'.
Proof.
  intros Hc; rewrite rstrip_cons.
  destruct (PyStr.rstrip t); rewrite ?Hc; eauto.
Qed.

(** [strip] leaves nothing to strip. *)
Lemma strip_idempotent (s : string) : PyStr.strip (PyStr.strip s) = PyStr.strip s.
Proof.
  unfold PyStr.strip.
  destruct (lstrip_head s) as [->|(c & t & -> & Hc)]; [reflexivity|].
  destruct (rstrip_head c t Hc) as (t' & Ht). rewrite Ht.
  cbn [PyStr.lstrip]. rewrite Hc, <- Ht. apply rstrip_idempotent.
Qed.

Lemma count_char_lstrip (c : ascii) (s : string) :
  count_char c (PyStr.lstrip s) <= count_char c s.
Proof.
  induction s as [|d s IH]; cbn; [lia|].
  destruct (PyStr.is_space d); cbn; lia.
Qed.

Lemma count_char_rstrip (c : ascii) (s : string) :
  count_char c (PyStr.rstrip s) <= count_char c s.
Proof.
  induction s as [|d s IH]; [cbn; lia|].
  rewrite rstrip_cons.
  destruct (PyStr.rstrip s) as [|e r].
  - destruct (PyStr.is_space d); cbn; lia.
  - cbn [count_char] in *. lia.
Qed.

Lemma count_char_strip (c : ascii) (s : string) :
  count_char c s = 0 -> count_char c (PyStr.strip s) = 0.
Proof.
  intros H. unfold PyStr.strip.
  pose proof (count_char_rstrip c (PyStr.lstrip s)).
  pose proof (count_char_lstrip c s). lia.
Qed.

Lemma split_length (sep : ascii) (s : string) :
  List.length (PyStr.split sep s) = S (count_char sep s).
Proof.
  induction s as [|c s IH]; cbn [PyStr.split count_char]; [reflexivity|].
  destruct (Ascii.eqb c sep); cbn [List.length]; [now rewrite IH|].
  destruct (PyStr.split sep s); cbn in *; lia.
Qed.

Lemma split_pieces (sep : ascii) (s : string) :
  Forall (fun piece => count_char sep piece = 0) (PyStr.split sep s).
Proof.
  induction s as [|c s IH]; cbn [PyStr.split]; [repeat constructor|].
  destruct (Ascii.eqb c sep) eqn:Hc; [constructor; [reflexivity | exact IH]|].
  destruct (PyStr.split sep s) as [|w ws].
  - repeat constructor. cbn. now rewrite Hc.
  - inversion IH; subst. constructor; [|assumption]. cbn. now rewrite Hc.
Qed.

(** X1. The contact list built from CONTACTS has one entry more than the
    value has commas, so it is never empty; every entry is free of commas
    and of surrounding white space. *)
Theorem contact_list_shape (e : env) (r : string) :
  recepients e = Some r ->
  exists contacts,
    contact_list e = inr contacts /\
    List.length contacts = S (count_char "," r) /\
    Forall (fun c => count_char "," c = 0 /\ PyStr.strip c = c) contacts.
Proof.
  intros Hr. unfold contact_list; rewrite Hr.
  eexists; split; [reflexivity|]. split.
  - now rewrite length_map, split_length.
  - apply Forall_map. eapply Forall_impl; [|apply split_pieces].
    cbn; intros piece Hp. split; [now apply count_char_strip|].
    apply strip_idempotent.
Qed.

Lemma contact_list_shape_witness :
  exists contacts,
    contact_list all_set = inr contacts /\
    List.length contacts = 2 /\
    Forall (fun c => count_char "," c = 0 /\ PyStr.strip c = c) contacts.
Proof. apply (contact_list_shape all_set "111,222"). reflexivity. Defined.

(** One contact, then the rest. *)
Lemma send_loop_run (w : world) (msg : string) (total : nat) (contacts : list string) :
  forall idx c,
  exists tr,
    send_loop w msg total idx contacts c =
      (tr, inr {| success_count :=
                    success_count c
                    + List.length (filter w (seq idx (List.length contacts)));
                  failed_count :=
                    failed_count c
                    + List.length (filter (fun i => negb (w i))
                                          (seq idx (List.length contacts))) |}) /\
    actions tr = flat_map (contact_actions w msg total) (numbered idx contacts) /\
    reported_sent tr = [] /\ reported_failed tr = [].
Proof.
  induction contacts as [|phone rest IH]; intros idx c.
  - exists []. cbn. rewrite !Nat.add_0_r. destruct c; repeat split.
  - cbn [send_loop List.length seq filter].
    change (numbered idx (phone :: rest)) with ((idx, phone) :: numbered (S idx) rest).
    cbn [flat_map]. unfold contact_actions at 1. cbn [fst snd].
    destruct (w idx) eqn:Hw; cbn [negb andb].
    + destruct (IH (S idx) {| success_count := S (success_count c);
                              failed_count := failed_count c |})
        as (tr & Hl & Ha & Hs & Hf).
      cbn [success_count failed_count] in Hl.
      destruct (idx <? total)%nat; cbn; rewrite Hl; cbn;
        (eexists; split; [rewrite ?Nat.add_succ_r; reflexivity|]);
        unfold actions, reported_sent, reported_failed in *; cbn;
        rewrite Ha, Hs, Hf; repeat split.
    + destruct (IH (S idx) {| success_count := success_count c;
                              failed_count := S (failed_count c) |})
        as (tr & Hl & Ha & Hs & Hf).
      cbn [success_count failed_count] in Hl.
      cbn; rewrite Hl; cbn.
      (eexists; split; [rewrite ?Nat.add_succ_r; reflexivity|]);
        unfold actions, reported_sent, reported_failed in *; cbn;
        rewrite Ha, Hs, Hf; repeat split.
Qed.

(** X2. With the four values set, the script returns whatever the sends
    do; it attempts exactly one send per contact, in the order of the
    list and with one and the same message, waits 60 seconds after each
    send that went through except for the last contact, and reports as
    sent and as failed the numbers of sends that returned and that
    raised, which add up to the number of contacts. *)
Theorem script_sends_to_every_contact (e : env) (w : world) :
  forallb truthy [google_form e; recepients e; message_template e; sender_name e]
    = true ->
  exists msg contacts,
    create_message e = inr msg /\
    contact_list e = inr contacts /\
    Run.outcome (script e w) = inr tt /\
    actions (Run.trace (script e w)) =
      flat_map (contact_actions w msg (List.length contacts)) (numbered 1 contacts) /\
    reported_sent (Run.trace (script e w)) =
      [List.length (filter w (seq 1 (List.length contacts)))] /\
    reported_failed (Run.trace (script e w)) =
      [List.length (filter (fun i => negb (w i)) (seq 1 (List.length contacts)))] /\
    List.length (filter w (seq 1 (List.length contacts)))
      + List.length (filter (fun i => negb (w i)) (seq 1 (List.length contacts)))
      = List.length contacts.
Proof.
  intros Hall. pose proof Hall as Hall'.
  cbn [forallb] in Hall'. rewrite !andb_true_iff in Hall'.
  destruct Hall' as (Hg & Hr & Ht & Hs & _).
  destruct (google_form e) as [g|] eqn:Eg; [|discriminate].
  destruct (recepients e) as [r|] eqn:Er; [|discriminate].
  destruct (message_template e) as [t|] eqn:Et; [|discriminate].
  destruct (sender_name e) as [sn|] eqn:Es; [|discriminate].
  set (msg := PyStr.replace "{sender}" sn (PyStr.replace "{form_link}" g t)).
  set (contacts := map PyStr.strip (PyStr.split "," r)).
  assert (Hmsg : create_message e = inr msg)
    by (unfold create_message; now rewrite Et, Eg, Es).
  assert (Hcon : contact_list e = inr contacts)
    by (unfold contact_list; now rewrite Er).
  exists msg, contacts. split; [exact Hmsg|]. split; [exact Hcon|].
  destruct (send_loop_run w msg (List.length contacts) contacts 1
              {| success_count := 0; failed_count := 0 |})
    as (tr & Hl & Ha & Hsn & Hf).
  cbn [success_count failed_count Nat.add] in Hl.
  assert (Hrun : exists tr',
             script e w = (tr', inr tt) /\
             actions tr' = actions tr /\
             reported_sent tr' =
               [List.length (filter w (seq 1 (List.length contacts)))] /\
             reported_failed tr' =
               [List.length (filter (fun i => negb (w i))
                                    (seq 1 (List.length contacts)))]).
  { unfold script. rewrite Hcon, Eg, Er, Et, Es. cbn [Run.bind app].
    rewrite Hall. cbn [negb].
    unfold send_messages. rewrite Hmsg, Es. cbn [Run.bind app].
    unfold log at 1 2 3 4. cbn [Run.bind Run.emit].
    rewrite Hl. cbn.
    eexists; split; [reflexivity|].
    unfold actions, reported_sent, reported_failed in *. cbn.
    rewrite !filter_app, !flat_map_app, Hsn, Hf. cbn.
    rewrite app_nil_r. repeat split. }
  destruct Hrun as (tr' & -> & Ha' & Hs' & Hf').
  unfold Run.outcome, Run.trace; cbn [fst snd].
  rewrite Ha', Ha, Hs', Hf'. repeat split.
  rewrite filter_length, length_seq. reflexivity.
Qed.

Lemma script_sends_to_every_contact_witness :
  exists msg contacts,
    create_message all_set = inr msg /\
    contact_list all_set = inr contacts /\
    Run.outcome (script all_set (fun i => (i =? 2)%nat)) = inr tt /\
    actions (Run.trace (script all_set (fun i => (i =? 2)%nat))) =
      flat_map (contact_actions (fun i => (i =? 2)%nat) msg (List.length contacts))
               (numbered 1 contacts) /\
    reported_sent (Run.trace (script all_set (fun i => (i =? 2)%nat))) =
      [List.length (filter (fun i => (i =? 2)%nat) (seq 1 (List.length contacts)))] /\
    reported_failed (Run.trace (script all_set (fun i => (i =? 2)%nat))) =
      [List.length (filter (fun i => negb (i =? 2)%nat) (seq 1 (List.length contacts)))] /\
    List.length (filter (fun i => (i =? 2)%nat) (seq 1 (List.length contacts)))
      + List.length (filter (fun i => negb (i =? 2)%nat) (seq 1 (List.length contacts)))
      = List.length contacts.
Proof.
  apply (script_sends_to_every_contact all_set (fun i => (i =? 2)%nat)).
  reflexivity.
Defined.

Lemma replace_from_no_start (o : ascii) (old' new s : string) :
  count_char o s = 0 -> PyStr.replace_from (String o old') new 0 s = s.
Proof.
  induction s as [|c s IH]; cbn [PyStr.replace_from count_char]; [reflexivity|].
  intros H. cbn [prefix].
  destruct (Ascii.eqb_spec c o) as [->|Hne]; [discriminate|].
  destruct (ascii_dec o c) as [->|_]; [contradiction|].
  rewrite IH by (cbn in H; lia). reflexivity.
Qed.

(** X3. A template that holds no opening brace holds no placeholder:
    [create_message] returns it unchanged, whatever the form link and the
    sender name are. *)
Theorem create_message_without_placeholders (e : env) (t g sn : string) :
  message_template e = Some t ->
  google_form e = Some g ->
  sender_name e = Some sn ->
  count_char "{" t = 0 ->
  create_message e = inr t.
Proof.
  intros Ht Hg Hs Hno. unfold create_message. rewrite Ht, Hg, Hs.
  unfold PyStr.replace.
  rewrite (replace_from_no_start "{" "form_link}" g t Hno).
  rewrite (replace_from_no_start "{" "sender}" sn t Hno). reflexivity.
Qed.

Lemma create_message_without_placeholders_witness :
  create_message {| google_form := Some "http://f"; recepients := Some "111";
                    message_template := Some "Please sign up today";
                    sender_name := Some "Bot" |}
  = inr "Please sign up today".
Proof.
  apply (create_message_without_placeholders _ "Please sign up today" "http://f" "Bot");
    reflexivity.
Defined.

End BroadcasterMore.

(** ** Quote emailer: requests, mails and waits *)

Module EmailerMore.
Import Emailer EmailerTrace.

Section WithRepr.
Variable py_repr : json -> string.

Lemma get_random_quote_run (r : http_reply) :
  exists tr,
    get_random_quote py_repr r = (tr, inr (quote_for py_repr r)) /\
    actions tr = [HttpGet "https://zenquotes.io/api/random" 30].
Proof.
  unfold quote_for, get_random_quote.
  destruct r as [| |status_code body]; cbn; eauto.
  destruct (status_code =? 200)%Z; cbn; eauto.
  destruct body as [data|]; cbn; eauto.
  destruct (item0 data) as [e|first]; cbn; [destruct e; cbn; eauto|].
  destruct (item "q" first) as [e|q]; cbn; [destruct e; cbn; eauto|].
  destruct (item "a" first) as [e|a]; cbn; [destruct e; cbn; eauto|].
  eauto.
Qed.

Lemma quote_for_fallback (r : http_reply) :
  is_200 r = false -> quote_for py_repr r = fallback_quote.
Proof.
  unfold quote_for, get_random_quote.
  destruct r as [| |status_code body]; cbn; try reflexivity.
  now intros ->.
Qed.

Lemma send_email_run (r : smtp_reply) (first_name last_name email quote : string) :
  exists tr,
    send_email r email first_name last_name quote = (tr, inr (smtp_ok r)) /\
    actions tr = [mail (first_name, last_name, email) quote].
Proof. destruct r; cbn; eauto. Qed.

Lemma email_loop_actions (w : world) (total : nat) (subs : list subscriber) :
  forall idx c,
  exists tr c',
    email_loop py_repr w total idx subs c = (tr, inr c') /\
    actions tr = flat_map (subscriber_actions py_repr w total) (numbered idx subs).
Proof.
  induction subs as [|[[fn ln] em] rest IH]; intros idx c.
  - exists [], c. split; reflexivity.
  - destruct (get_random_quote_run (http w idx)) as (trq & Hq & Aq).
    destruct (send_email_run (smtp w idx) fn ln em (quote_for py_repr (http w idx)))
      as (trs & Hs & As).
    set (c1 := if smtp_ok (smtp w idx)
               then {| success_count := S (success_count c);
                       failed_count := failed_count c |}
               else c).
    destruct (IH (S idx) c1) as (trl & c' & Hl & Al).
    cbn [email_loop List.length].
    change (numbered idx ((fn, ln, em) :: rest))
      with ((idx, (fn, ln, em)) :: numbered (S idx) rest).
    cbn [flat_map]. unfold subscriber_actions at 1. cbn [fst snd].
    unfold log at 1 2. cbn [Run.bind Run.emit].
    rewrite (RunFacts.bind_ok _ _ _ _ Hq). cbn [fst snd].
    rewrite (RunFacts.bind_ok _ _ _ _ Hs). cbn [fst snd].
    fold c1.
    destruct (idx <? total)%nat; cbn [Run.bind Run.emit Run.ret log fst snd];
      rewrite Hl; cbn [fst snd];
      (eexists; exists c'; split; [reflexivity|]);
      unfold actions in *; cbn [app filter is_log negb];
      rewrite !filter_app, Aq, As; cbn [app filter is_log negb];
      rewrite ?filter_app, Al; reflexivity.
Qed.

(** What [main] does besides logging. *)
Lemma main_actions (w : world) :
  exists tr,
    main py_repr w = (tr, inr tt) /\
    actions tr =
      flat_map (subscriber_actions py_repr w (List.length (fetched w)))
               (numbered 1 (fetched w)).
Proof.
  destruct (EmailerProps.get_subscribers_returns w) as (trs & Hs & _).
  assert (As : actions trs = []).
  { revert Hs. unfold get_subscribers, fetched.
    destruct (db w) as [| |rows]; cbn.
    - now intros [= <-].
    - now intros [= <-].
    - destruct (List.length rows =? 0)%nat; cbn; now intros [= <-]. }
  unfold main. unfold log at 1 2 3 4. cbn [Run.bind Run.emit].
  rewrite (RunFacts.bind_ok _ _ _ _ Hs).
  destruct (fetched w) as [|s0 rest] eqn:Hf.
  - cbn - [filter]. eexists; split; [reflexivity|].
    unfold actions in *. cbn [filter is_log negb].
    rewrite filter_app, As. reflexivity.
  - destruct (email_loop_actions w (List.length (s0 :: rest)) (s0 :: rest) 1
                {| success_count := 0; failed_count := 0 |}) as (trl & c' & Hl & Al).
    unfold log at 1 2 3 4. cbn [Run.bind Run.emit fst snd].
    rewrite (RunFacts.bind_ok _ _ _ _ Hl).
    cbn - [filter numbered subscriber_actions].
    eexists; split; [reflexivity|].
    unfold actions in *.
    repeat (progress cbn [filter is_log negb] || rewrite filter_app).
    rewrite As, Al. cbn [app]. now rewrite app_nil_r.
Qed.
End WithRepr.

(** X4. Besides logging, a run of [main] does exactly this, subscriber
    by subscriber in the order of the query result and whatever fails:
    one request for a quote, one SMTP session with a mail to that
    subscriber's address carrying the subscriber's names and the quote just
    fetched, and a wait of 30 seconds unless the subscriber is the last.
    With no subscriber it does nothing of the kind. *)
Theorem main_mails_every_subscriber_once (py_repr : json -> string) (w : world) :
  Run.outcome (main py_repr w) = inr tt /\
  actions (Run.trace (main py_repr w)) =
    flat_map (subscriber_actions py_repr w (List.length (fetched w)))
             (numbered 1 (fetched w)).
Proof.
  destruct (main_actions py_repr w) as (tr & -> & Ha). split; [reflexivity|exact Ha].
Qed.

(** X5. When the quote service never answers with status 200, every
    subscriber is still mailed, once and in order, and every mail carries
    the fallback quote. *)
Theorem main_mails_fallback_when_service_down (py_repr : json -> string) (w : world) :
  (forall n, is_200 (http w n) = false) ->
  actions (Run.trace (main py_repr w)) =
    flat_map (fallback_actions (List.length (fetched w))) (numbered 1 (fetched w)).
Proof.
  intros Hdown. destruct (main_actions py_repr w) as (tr & -> & Ha).
  unfold Run.trace; cbn [fst]. rewrite Ha.
  apply flat_map_ext. intros [i sub].
  unfold subscriber_actions, fallback_actions; cbn [fst snd].
  now rewrite quote_for_fallback.
Qed.

Lemma main_mails_fallback_when_service_down_witness :
  actions (Run.trace (main (fun _ => "") two_subscribers_one_failure)) =
    [HttpGet "https://zenquotes.io/api/random" 30;
     mail ("Ada", "Lovelace", "ada@x.com") fallback_quote;
     Sleep 30;
     HttpGet "https://zenquotes.io/api/random" 30;
     mail ("Alan", "Turing", "alan@x.com") fallback_quote].
Proof.
  apply (main_mails_fallback_when_service_down (fun _ => "") two_subscribers_one_failure).
  intros n; reflexivity.
Defined.

(** X6. When the subscriber query fails (connection or query) or finds
    no one, [main] returns without any request, mail or wait and without a
    summary; the last record it writes is the abort error.  The two cases
    end the same way. *)
Theorem main_aborts_without_subscribers (py_repr : json -> string) (w : world) :
  fetched w = [] ->
  Run.outcome (main py_repr w) = inr tt /\
  actions (Run.trace (main py_repr w)) = [] /\
  filter is_summary (Run.trace (main py_repr w)) = [] /\
  last (Run.trace (main py_repr w)) (Log INFO MsgCompletedAt) = Log ERROR MsgAborted.
Proof.
  intros Hf.
  destruct (main_actions py_repr w) as (tr & Hrun & Ha).
  destruct (EmailerProps.main_summary py_repr w) as (tr' & Hrun' & Hs).
  rewrite Hrun in Hrun'. injection Hrun' as <-.
  rewrite Hf in Ha, Hs. cbn in Ha.
  destruct (EmailerProps.get_subscribers_returns w) as (trs & Hsub & _).
  assert (Htr : tr = (([Log INFO (MsgRule 70); Log INFO MsgPipelineStarted;
                        Log INFO MsgExecutionStarted; Log INFO (MsgRule 70)] ++ trs)
                      ++ [Log ERROR MsgAborted])%list).
  { revert Hrun. unfold main. unfold log at 1 2 3 4. cbn [Run.bind Run.emit].
    rewrite (RunFacts.bind_ok _ _ _ _ Hsub), Hf. cbn.
    intros [= <-]. reflexivity. }
  rewrite Hrun. unfold Run.outcome, Run.trace; cbn [fst snd].
  repeat split.
  - exact Ha.
  - exact Hs.
  - rewrite Htr. apply last_last.
Qed.

Lemma main_aborts_without_subscribers_witness :
  let w := {| db := QueryFails; http := fun _ => HttpTimeout; smtp := fun _ => SmtpOk |} in
  Run.outcome (main (fun _ => "") w) = inr tt /\
  actions (Run.trace (main (fun _ => "") w)) = [] /\
  filter is_summary (Run.trace (main (fun _ => "") w)) = [] /\
  last (Run.trace (main (fun _ => "") w)) (Log INFO MsgCompletedAt) = Log ERROR MsgAborted.
Proof.
  apply (main_aborts_without_subscribers (fun _ => "")
           {| db := QueryFails; http := fun _ => HttpTimeout; smtp := fun _ => SmtpOk |}).
  reflexivity.
Defined.

Lemma successful_sends_bound (w : world) (idx n : nat) : successful_sends w idx n <= n.
Proof.
  unfold successful_sends.
  pose proof (filter_length (fun i => smtp_ok (smtp w i)) (seq idx n)) as H.
  rewrite length_seq in H. lia.
Qed.

(** X7. The summary never reports more successes than subscribers: the
    success count is at most the number of subscribers, and the success
    rate at most one. *)
Theorem reported_success_at_most_total (py_repr : json -> string) (w : world) :
  (forall n, In n (reported_success (Run.trace (main py_repr w))) ->
             n <= List.length (fetched w)) /\
  (forall num den, In (num, den) (reported_rates (Run.trace (main py_repr w))) ->
                   num <= den).
Proof.
  destruct (EmailerProps.main_summary py_repr w) as (tr & -> & F).
  unfold Run.trace; cbn [fst].
  rewrite <- EmailerProps.reported_success_summary,
          <- EmailerProps.reported_rates_summary, F.
  destruct (fetched w) as [|s0 rest]; cbn - [successful_sends]; split; try easy.
  - intros n [<-|[]]. apply (successful_sends_bound w 1 (S (List.length rest))).
  - intros num den [[= <- <-]|[]].
    apply (successful_sends_bound w 1 (S (List.length rest))).
Qed.

Lemma reported_success_at_most_total_witness :
  1 <= List.length (fetched two_subscribers_one_failure) /\ 1 <= 2.
Proof.
  split.
  - apply (proj1 (reported_success_at_most_total (fun _ => "")
                    two_subscribers_one_failure) 1).
    cbn. now left.
  - apply (proj2 (reported_success_at_most_total (fun _ => "")
                    two_subscribers_one_failure) 1 2).
    cbn. now left.
Defined.

End EmailerMore.

(** ** Cleaning: when it fails and what it returns *)

Module SheetMore.
Import Sheet SheetShape.

(** [clean_dataframe] fails on a table left without row or column by the
    two [dropna]; otherwise it returns the table of the steps. *)
Lemma clean_dataframe_outcome (df : dataframe) :
  Run.outcome (clean_dataframe df) =
    match rows (dropna_columns (dropna_rows df)),
          columns (dropna_columns (dropna_rows df)) with
    | [], _ => inl IndexError
    | _ :: _, [] => inl IndexError
    | _ :: _, _ :: _ => inr (cleaned df)
    end.
Proof.
  unfold clean_dataframe, cleaned, strip_and_filter, promote_header, drop_identifiers.
  generalize (dropna_columns (dropna_rows df)). intros [cols rws].
  cbn [rows columns].
  destruct rws as [|r0 rs]; [reflexivity|].
  destruct cols as [|c0 cs]; [reflexivity|].
  destruct (forallb starts_with_digit (map astype_str (column 0 (r0 :: rs))));
    cbn [Run.bind Run.ret Run.emit Run.catch log app fst snd rows columns
         drop_first_column map Run.outcome];
    match goal with
    | |- context [(?a <? ?b)%nat] => destruct (a <? b)%nat
    end;
    try match goal with
    | |- context [negb ?b] => destruct (negb b)
    end; reflexivity.
Qed.

Lemma all_null_dropna (df : dataframe) :
  all_null df = true -> rows (dropna_rows df) = [].
Proof.
  unfold all_null; cbn [dropna_rows rows].
  induction (rows df) as [|r rs IH]; cbn; [reflexivity|].
  intros [Hr Hrs]%andb_prop.
  assert (Hex : existsb notnull r = false).
  { clear -Hr. induction r as [|c r IHr]; cbn in *; [reflexivity|].
    apply andb_prop in Hr as [Hc Hr]. unfold notnull. rewrite Hc. cbn. auto. }
  rewrite Hex. auto.
Qed.

Lemma not_all_null_dropna (df : dataframe) :
  all_null df = false ->
  exists r rs, rows (dropna_rows df) = r :: rs /\ existsb notnull r = true.
Proof.
  unfold all_null; cbn [dropna_rows rows].
  induction (rows df) as [|r rs IH]; cbn; [discriminate|].
  destruct (existsb notnull r) eqn:Hex; [eauto|].
  assert (Hr : forallb isnull r = true).
  { clear -Hex. induction r as [|c r IHr]; cbn in *; [reflexivity|].
    apply orb_false_elim in Hex as [Hc Hr]. unfold notnull in Hc.
    apply negb_false_iff in Hc. rewrite Hc. cbn. auto. }
  rewrite Hr; cbn. exact IH.
Qed.

Lemma select_empty {A} (mask : list bool) (l : list A) :
  List.length mask = List.length l -> select mask l = [] ->
  forallb negb mask = true.
Proof.
  revert l; induction mask as [|[|] mask IH]; intros [|x l]; cbn;
    try discriminate; try reflexivity.
  intros [= Hlen] Hsel. now apply (IH l).
Qed.

Lemma existsb_position (r : list cell) :
  existsb notnull r = true ->
  exists j, j < List.length r /\ notnull (nth j r NaN) = true.
Proof.
  induction r as [|c r IH]; cbn; [discriminate|].
  destruct (notnull c) eqn:Hc; cbn.
  - intros _. exists 0. split; [lia | exact Hc].
  - intros H. destruct (IH H) as (j & Hj & Hn). exists (S j). split; [lia | exact Hn].
Qed.

Lemma forallb_seq_at (f : nat -> bool) (n j : nat) :
  forallb (fun b => negb b) (map f (seq 0 n)) = true -> j < n -> f j = false.
Proof.
  intros H Hj. rewrite forallb_forall in H.
  apply negb_true_iff, H, in_map, in_seq. lia.
Qed.

(** X8. [clean_dataframe] raises [IndexError] on every table none of whose
    rows holds a value, the empty table among them; on a rectangular
    table with a value somewhere it returns. *)
Theorem clean_dataframe_fails_on_empty (df : dataframe) :
  (all_null df = true -> Run.outcome (clean_dataframe df) = inl IndexError) /\
  (rectangular df = true -> all_null df = false ->
   exists out, Run.outcome (clean_dataframe df) = inr out).
Proof.
  rewrite clean_dataframe_outcome. split.
  - intros Hnull. cbn [dropna_columns rows].
    rewrite (all_null_dropna df Hnull). reflexivity.
  - intros Hrect Hsome.
    destruct (not_all_null_dropna df Hsome) as (r & rs & Hrows & Hex).
    cbn [dropna_columns rows columns]. rewrite Hrows. cbn [map].
    destruct (select _ (columns (dropna_rows df))) as [|c0 cs] eqn:Hsel;
      [exfalso | eauto].
    apply select_empty in Hsel; [|now rewrite length_map, length_seq].
    destruct (existsb_position r Hex) as (j & Hj & Hn).
    assert (Hlen : List.length r = List.length (columns df)).
    { unfold rectangular in Hrect. rewrite forallb_forall in Hrect.
      apply Nat.eqb_eq, Hrect.
      assert (Hin : In r (rows (dropna_rows df))) by (rewrite Hrows; now left).
      cbn [dropna_rows rows] in Hin. now apply filter_In in Hin as [Hin _]. }
    cbn [dropna_rows columns] in Hsel.
    pose proof (forallb_seq_at _ _ j Hsel ltac:(lia)) as Hcol.
    cbn [column map existsb] in Hcol. rewrite Hn in Hcol. discriminate Hcol.
Qed.

Lemma clean_dataframe_fails_on_empty_witness :
  Run.outcome (clean_dataframe empty_frame) = inl IndexError /\
  exists out, Run.outcome (clean_dataframe signup_sheet) = inr out.
Proof.
  split.
  - apply (proj1 (clean_dataframe_fails_on_empty empty_frame)). reflexivity.
  - apply (proj2 (clean_dataframe_fails_on_empty signup_sheet)); reflexivity.
Defined.

(** X9. A page without table makes the ingestion fail in the cleaning:
    the empty table that the extraction returns for it is a table on
    which [clean_dataframe] raises [IndexError]. *)
Theorem clean_after_extract_without_table {element : Type}
    (find_all_table : string -> list element)
    (read_html : element -> option dataframe)
    (status_code : Z) (text sheet_url : string) :
  ((400 <=? status_code) && (status_code <? 600))%Z = false ->
  find_all_table text = [] ->
  Run.outcome (df <- extract_to_df find_all_table read_html
                       (Response status_code text) sheet_url ;;
               clean_dataframe df)%run = inl IndexError.
Proof.
  intros Hst Hnone. rewrite RunMore.outcome_bind.
  unfold extract_to_df. cbn. unfold raise_for_status. rewrite Hst. cbn.
  rewrite Hnone. reflexivity.
Qed.

Lemma clean_after_extract_without_table_witness :
  Run.outcome (df <- extract_to_df no_tables unreadable
                       (Response 200 "<html></html>") "https://docs.example/pubhtml" ;;
               clean_dataframe df)%run = inl IndexError.
Proof.
  apply (clean_after_extract_without_table no_tables unreadable); reflexivity.
Defined.

Lemma clean_dataframe_returns (df out : dataframe) :
  Run.outcome (clean_dataframe df) = inr out -> out = cleaned df.
Proof.
  rewrite clean_dataframe_outcome.
  destruct (rows _); [discriminate|]. destruct (columns _); [discriminate|].
  now intros [= <-].
Qed.

(** X10. Every column label of a cleaned table is a text without leading
    or trailing white space; no label is left missing. *)
Theorem cleaned_labels_are_stripped (df out : dataframe) :
  Run.outcome (clean_dataframe df) = inr out ->
  forallb stripped_text (columns out) = true.
Proof.
  intros ->%clean_dataframe_returns.
  unfold cleaned, strip_and_filter; cbn [columns].
  apply forallb_forall. intros c (c' & <- & _)%in_map_iff.
  cbn. apply String.eqb_eq, BroadcasterMore.strip_idempotent.
Qed.

Lemma cleaned_labels_are_stripped_witness :
  forallb stripped_text (columns cleaned_once) = true.
Proof. apply (cleaned_labels_are_stripped signup_sheet cleaned_once). reflexivity. Defined.

Lemma nodup_uniform (x : string) (l : list string) :
  l <> [] -> (forall y, In y l -> y = x) -> nodup string_dec l = [x].
Proof.
  induction l as [|y l IH]; [congruence|]. intros _ Hall.
  assert (y = x) as -> by (apply Hall; now left).
  cbn [nodup]. destruct l as [|z l].
  - reflexivity.
  - destruct (in_dec string_dec x (z :: l)) as [_|Hnin].
    + apply IH; [discriminate|]. intros w Hw. apply Hall. now right.
    + exfalso. apply Hnin. left. apply Hall. right. now left.
Qed.

Lemma uniform_degenerate (r : list cell) : uniform r -> degenerate r = true.
Proof.
  intros [Hne Hall]. unfold degenerate, nunique.
  rewrite (nodup_uniform (astype_str (hd NaN r)) (map astype_str r)).
  - reflexivity.
  - destruct r; [congruence | discriminate].
  - intros y (c & <- & Hc)%in_map_iff. now apply Hall.
Qed.

(** X11. A cleaned table has no row whose cells, one at least, all read
    the same once turned into text; a missing cell reads ["nan"]. *)
Theorem cleaned_rows_are_not_uniform (df out : dataframe) (r : list cell) :
  Run.outcome (clean_dataframe df) = inr out ->
  In r (rows out) -> ~ uniform r.
Proof.
  intros ->%clean_dataframe_returns.
  unfold cleaned, strip_and_filter; cbn [rows].
  intros [_ Hkeep]%filter_In Huni.
  rewrite (uniform_degenerate r Huni) in Hkeep. discriminate Hkeep.
Qed.

Lemma cleaned_rows_are_not_uniform_witness :
  ~ uniform [Text "Ada"; Text "Lovelace"].
Proof.
  apply (cleaned_rows_are_not_uniform signup_sheet cleaned_once).
  - reflexivity.
  - cbn. now left.
Defined.

Lemma rectangular_spec (df : dataframe) :
  rectangular df = true <->
  Forall (fun r => List.length r = List.length (columns df)) (rows df).
Proof.
  unfold rectangular. rewrite forallb_forall, Forall_forall.
  split; intros H r Hr; [apply Nat.eqb_eq | apply Nat.eqb_eq]; auto.
Qed.

Lemma select_length {A} (mask : list bool) (l : list A) :
  List.length mask = List.length l ->
  List.length (select mask l) = List.length (filter (fun b => b) mask).
Proof.
  revert l; induction mask as [|[|] mask IH]; intros [|x l]; cbn;
    try discriminate; try reflexivity; intros [= H]; rewrite (IH l H); reflexivity.
Qed.

Lemma select_length_le {A} (mask : list bool) (l : list A) :
  List.length (select mask l) <= List.length l.
Proof.
  revert l; induction mask as [|[|] mask IH]; intros [|x l]; cbn; try lia;
    specialize (IH l); lia.
Qed.

Lemma filter_length_le' {A} (p : A -> bool) (l : list A) :
  List.length (filter p l) <= List.length l.
Proof. pose proof (filter_length p l). lia. Qed.

Lemma shrinks_trans (a b c : dataframe) : shrinks a b -> shrinks b c -> shrinks a c.
Proof. intros (_ & ? & ?) (? & ? & ?). repeat split; [assumption | lia | lia]. Qed.

Lemma dropna_rows_shrinks (df : dataframe) :
  rectangular df = true -> shrinks df (dropna_rows df).
Proof.
  intros H. repeat split; cbn [dropna_rows rows columns].
  - apply rectangular_spec. apply rectangular_spec in H. cbn [rows columns].
    rewrite Forall_forall in *. intros r [Hr _]%filter_In. now apply H.
  - apply filter_length_le'.
  - lia.
Qed.

Lemma dropna_columns_shrinks (df : dataframe) :
  rectangular df = true -> shrinks df (dropna_columns df).
Proof.
  intros H. unfold dropna_columns.
  set (mask := map _ (seq 0 (List.length (columns df)))).
  assert (Hm : List.length mask = List.length (columns df))
    by (unfold mask; now rewrite length_map, length_seq).
  repeat split; cbn [rows columns].
  - apply rectangular_spec. apply rectangular_spec in H. cbn [rows columns].
    rewrite Forall_forall in *. intros r' (r & <- & Hr)%in_map_iff.
    rewrite !select_length; [reflexivity | exact Hm | rewrite Hm; symmetry; now apply H].
  - now rewrite length_map.
  - apply select_length_le.
Qed.

Lemma drop_identifiers_shrinks (df : dataframe) :
  rectangular df = true -> shrinks df (drop_identifiers df).
Proof.
  intros H. unfold drop_identifiers.
  destruct (forallb _ _); [|repeat split; [assumption | lia | lia]].
  repeat split; cbn [drop_first_column rows columns].
  - apply rectangular_spec. apply rectangular_spec in H.
    cbn [drop_first_column rows columns].
    rewrite Forall_forall in *. intros r' (r & <- & Hr)%in_map_iff.
    specialize (H r Hr). destruct r, (columns df); cbn in *; lia.
  - now rewrite length_map.
  - destruct (columns df); cbn; lia.
Qed.

Lemma promote_header_shrinks (df : dataframe) :
  rectangular df = true -> shrinks df (promote_header df).
Proof.
  intros H. unfold promote_header.
  destruct (rows df) as [|first_row others] eqn:Hrows;
    [repeat split; [assumption | lia | lia]|].
  destruct (_ <? _)%nat; [|repeat split; [assumption | rewrite Hrows; lia | lia]].
  destruct (negb _); [|repeat split; [assumption | rewrite Hrows; lia | lia]].
  apply rectangular_spec in H. rewrite Hrows in H.
  pose proof (Forall_inv H) as Hfirst. pose proof (Forall_inv_tail H) as Hothers.
  cbn beta in Hfirst.
  repeat split; cbn [rows columns].
  - apply rectangular_spec. cbn [rows columns].
    eapply Forall_impl; [|exact Hothers]. cbn; intros r Hr. congruence.
  - rewrite Hrows. cbn. lia.
  - lia.
Qed.

Lemma strip_and_filter_shrinks (df : dataframe) :
  rectangular df = true -> shrinks df (strip_and_filter df).
Proof.
  intros H. repeat split; cbn [strip_and_filter rows columns].
  - apply rectangular_spec. apply rectangular_spec in H.
    cbn [strip_and_filter rows columns].
    rewrite length_map. rewrite Forall_forall in *.
    intros r [Hr _]%filter_In. now apply H.
  - apply filter_length_le'.
  - now rewrite length_map.
Qed.

Lemma cleaned_shrinks (df : dataframe) :
  rectangular df = true -> shrinks df (cleaned df).
Proof.
  intros H. unfold cleaned.
  pose proof (dropna_rows_shrinks df H) as S1.
  pose proof (dropna_columns_shrinks _ (proj1 S1)) as S2.
  pose proof (drop_identifiers_shrinks _ (proj1 S2)) as S3.
  pose proof (promote_header_shrinks _ (proj1 S3)) as S4.
  pose proof (strip_and_filter_shrinks _ (proj1 S4)) as S5.
  eauto using shrinks_trans.
Qed.

(** X12. Cleaning a rectangular table gives a rectangular table, every
    row as long as the header, with no more rows and no more columns than
    the table had. *)
Theorem cleaned_table_shape (df out : dataframe) :
  rectangular df = true ->
  Run.outcome (clean_dataframe df) = inr out ->
  rectangular out = true /\
  List.length (rows out) <= List.length (rows df) /\
  List.length (columns out) <= List.length (columns df).
Proof.
  intros Hrect ->%clean_dataframe_returns. now apply cleaned_shrinks.
Qed.

Lemma cleaned_table_shape_witness :
  rectangular cleaned_once = true /\
  List.length (rows cleaned_once) <= List.length (rows signup_sheet) /\
  List.length (columns cleaned_once) <= List.length (columns signup_sheet).
Proof. apply (cleaned_table_shape signup_sheet cleaned_once); reflexivity. Defined.

(** X13. A rectangular table that comes out of the cleaning with a single
    column comes out without rows: a row of one cell repeats one value, so
    the last step removes it. *)
Theorem cleaned_single_column_is_empty (df out : dataframe) :
  rectangular df = true ->
  Run.outcome (clean_dataframe df) = inr out ->
  List.length (columns out) = 1 ->
  rows out = [].
Proof.
  intros Hrect Hout Hone.
  pose proof (clean_dataframe_returns df out Hout) as ->.
  destruct (cleaned_shrinks df Hrect) as (Hr & _ & _).
  apply rectangular_spec in Hr. rewrite Hone in Hr.
  destruct (rows (cleaned df)) as [|r rs] eqn:Hrows; [reflexivity|exfalso].
  inversion Hr as [|? ? Hlen _]; subst.
  assert (Hin : In r (rows (cleaned df))) by (rewrite Hrows; now left).
  unfold cleaned, strip_and_filter in Hin; cbn [rows] in Hin.
  apply filter_In in Hin as [_ Hkeep].
  destruct r as [|c [|c' r']]; cbn in Hlen; try discriminate Hlen.
  cbn in Hkeep. discriminate Hkeep.
Qed.

Lemma cleaned_single_column_is_empty_witness :
  Run.outcome (clean_dataframe emails_only) =
    inr {| columns := [Text "Email"]; rows := [] |} /\
  rows {| columns := [Text "Email"]; rows := [] |} = [].
Proof.
  split; [reflexivity|].
  apply (cleaned_single_column_is_empty emails_only
           {| columns := [Text "Email"]; rows := [] |}); reflexivity.
Defined.

End SheetMore.

(** ** Warehouse loader: batches, watermark, client *)

Module LoaderMore.
Import Loader LoaderTrace.

Lemma chunks_of_sizes {A} (n : nat) :
  1 <= n ->
  forall fuel (l : list A),
    Forall (fun c => 1 <= List.length c <= n) (chunks_of fuel n l).
Proof.
  intros Hn; induction fuel as [|fuel IH]; intros [|x l]; cbn [chunks_of];
    try constructor; [|apply IH].
  destruct n as [|n]; [lia|]. cbn [firstn List.length]. split; [lia|].
  pose proof (firstn_le_length n l).
  assert (List.length (firstn n l) <= n) by (rewrite length_firstn; lia). lia.
Qed.

Lemma chunks_of_full {A} (n : nat) :
  1 <= n ->
  forall fuel (l : list A),
    List.length l <= fuel ->
    Forall (fun c => List.length c = n) (removelast (chunks_of fuel n l)).
Proof.
  intros Hn; induction fuel as [|fuel IH]; intros [|x l] Hl; cbn [chunks_of];
    try constructor.
  assert (Hfuel : List.length (skipn n (x :: l)) <= fuel).
  { rewrite length_skipn. cbn [List.length] in *. lia. }
  specialize (IH (skipn n (x :: l)) Hfuel).
  destruct (chunks_of fuel n (skipn n (x :: l))) as [|c cs] eqn:Hrest.
  - constructor.
  - change (removelast (firstn n (x :: l) :: c :: cs))
      with (firstn n (x :: l) :: removelast (c :: cs)).
    constructor; [|exact IH].
    rewrite length_firstn. apply Nat.min_l.
    destruct (Nat.le_gt_cases n (List.length (x :: l))) as [|Hshort]; [assumption|].
    exfalso. rewrite skipn_all2 in Hrest by lia.
    destruct fuel; discriminate Hrest.
Qed.


Lemma disconnects_app (a b : list event) :
  disconnects (a ++ b) = (disconnects a ++ disconnects b)%list.
Proof. apply filter_app. Qed.

Section UnfilteredLoop.
Variable pd : pandas.
Variable wh : warehouse.
Variables (table : string) (incremental : bool).
Variable max_timestamp : dbvalue.
Variable timestamp_column : option string.
Hypothesis inserts_go_through : forall n, insert_ok wh n = true.

(** Unfiltered chunks, none empty: one [INSERT] each. *)
Lemma load_chunks_statements (chunks : list csv) :
  Forall (fun ch => filter_column incremental max_timestamp timestamp_column ch = None
                    /\ rows ch <> []) chunks ->
  forall chunk_num total_rows skipped_rows,
  exists tr,
    load_chunks pd wh table incremental max_timestamp timestamp_column
        chunk_num chunks total_rows skipped_rows =
      (tr, inr (total_rows + List.length (List.concat (map rows chunks)), skipped_rows)) /\
    statements tr = map (fun ch => InsertInto table (columns ch) (rows ch)) chunks /\
    inserted_rows tr = List.concat (map rows chunks) /\
    reported_skipped tr = [] /\ complaints tr = [].
Proof.
  induction 1 as [|chunk rest [Hnone Hne] _ IH]; intros chunk_num total_rows skipped_rows.
  - exists []; cbn. rewrite Nat.add_0_r. repeat split.
  - destruct (IH (S chunk_num) (total_rows + List.length (rows chunk)) skipped_rows)
      as (tr2 & H2 & S2 & I2 & R2 & C2).
    cbn [load_chunks map List.concat]. rewrite Hnone, length_app, Nat.add_assoc.
    unfold insert_chunk.
    destruct (List.length (rows chunk) =? 0)%nat eqn:E.
    { apply Nat.eqb_eq, length_zero_iff_nil in E. contradiction. }
    rewrite inserts_go_through.
    cbn [Run.bind Run.emit Run.ret log app fst snd].
    rewrite H2.
    eexists; split; [reflexivity|].
    unfold statements, inserted_rows, reported_skipped, complaints in *.
    cbn [flat_map filter app]. rewrite S2, I2, R2, C2. repeat split.
Qed.
End UnfilteredLoop.

Section Unfiltered.
Variable pd : pandas.
Variables (wh : warehouse) (file : csv).
Variables (host database table user password : string).
Variables (batch_size : nat) (incremental : bool) (timestamp_column : option string).
Hypothesis batch_size_positive : 1 <= batch_size.
Hypothesis inserts_go_through : forall n, insert_ok wh n = true.

(** The run, once the watermark is there and leaves every chunk
    unfiltered. *)
Lemma run_unfiltered (trm : list event) (v : dbvalue) :
  get_max_timestamp wh database table incremental timestamp_column = (trm, inr v) ->
  (forall ch, columns ch = columns file ->
              filter_column incremental v timestamp_column ch = None) ->
  exists tr,
    load_csv_to_clickhouse pd wh (Parsed file) host database table user password
      batch_size incremental timestamp_column = (tr, inr tt) /\
    statements tr =
      (statements trm
       ++ map (InsertInto table (columns file)) (batches file batch_size))%list /\
    inserted_rows tr = (inserted_rows trm ++ rows file)%list /\
    reported_skipped tr = (reported_skipped trm ++ if incremental then [0] else [])%list /\
    complaints tr = complaints trm.
Proof.
  intros Hmax Hnone.
  set (chunks := map (with_rows file) (batches file batch_size)).
  assert (Hch : Forall (fun ch => filter_column incremental v timestamp_column ch = None
                                  /\ rows ch <> []) chunks).
  { apply Forall_map. unfold batches.
    eapply Forall_impl; [|apply (chunks_of_sizes batch_size batch_size_positive)].
    cbn. intros rs [Hlen _]. split; [now apply Hnone|].
    destruct rs; [cbn in Hlen; lia | discriminate]. }
  destruct (load_chunks_statements pd wh table incremental v
              timestamp_column inserts_go_through chunks Hch 0 0 0)
    as (trl & Hl & Sl & Il & Rl & Cl).
  assert (Hrows : List.concat (map rows chunks) = rows file).
  { unfold chunks. rewrite map_map; cbn [rows]. rewrite map_id.
    now apply LoaderProps.chunks_of_concat. }
  rewrite Hrows in Il.
  unfold load_csv_to_clickhouse.
  unfold log at 1. cbn [Run.bind Run.emit].
  rewrite (RunFacts.bind_ok _ _ _ _ Hmax).
  cbn [fst snd]. unfold log at 1. cbn [Run.bind Run.emit].
  rewrite (LoaderProps.read_csv_batches file batch_size batch_size_positive).
  cbn [lift Run.bind fst snd]. fold chunks.
  rewrite Hl. cbn [fst snd].
  assert (Hst : map (fun ch => InsertInto table (columns ch) (rows ch)) chunks
                = map (InsertInto table (columns file)) (batches file batch_size)).
  { unfold chunks. rewrite map_map. reflexivity. }
  rewrite Hst in Sl.
  destruct incremental; cbn [Run.bind Run.emit log Run.catch app fst snd];
    (eexists; split; [reflexivity|]);
    unfold statements, inserted_rows, reported_skipped, complaints in *;
    repeat (progress cbn [flat_map filter app]
            || rewrite flat_map_app || rewrite filter_app);
    rewrite Sl, Il, Rl, Cl, !app_nil_r; repeat split.
Qed.
End Unfiltered.

(** X14. A load that is not incremental sends no query about the table:
    of a file that pandas reads it returns after one [INSERT] per chunk,
    in order, each to the target table under the labels that the chunks
    have for their columns ([chunk.columns]); the batches of rows are not
    empty, hold [batch_size] rows each but for the last, which may hold
    fewer, and put end to end are the rows read; no warning or error is
    logged. *)
Theorem full_load_statements
    (pd : pandas)
    (wh : warehouse) (file : csv) (host database table user password : string)
    (batch_size : nat) (timestamp_column : option string) :
  1 <= batch_size ->
  (forall n, insert_ok wh n = true) ->
  let run := load_csv_to_clickhouse pd wh (Parsed file) host database table
               user password batch_size false timestamp_column in
  Run.outcome run = inr tt /\
  statements (Run.trace run) =
    map (InsertInto table (columns file)) (batches file batch_size) /\
  List.concat (batches file batch_size) = rows file /\
  Forall (fun b => 1 <= List.length b <= batch_size) (batches file batch_size) /\
  Forall (fun b => List.length b = batch_size) (removelast (batches file batch_size)) /\
  complaints (Run.trace run) = [].
Proof.
  intros Hn Hins run.
  destruct (run_unfiltered pd wh file host database table user password
              batch_size false timestamp_column Hn Hins [] DbNull eq_refl)
    as (tr & Hrun & Hs & _ & _ & Hc); [reflexivity|].
  fold run in Hrun. rewrite Hrun. unfold Run.outcome, Run.trace; cbn [fst snd].
  split; [reflexivity|]. split; [exact Hs|]. split.
  { now apply LoaderProps.chunks_of_concat. }
  split; [now apply chunks_of_sizes|]. split; [now apply chunks_of_full|].
  exact Hc.
Qed.

Lemma full_load_statements_witness :
  let run := load_csv_to_clickhouse pandas_on_integers loaded_until_100 (Parsed signups)
               "ch.local" "quotes" "quote_suscribers" "default" "" 2 false None in
  Run.outcome run = inr tt /\
  statements (Run.trace run) =
    map (InsertInto "quote_suscribers" (columns signups)) (batches signups 2) /\
  List.concat (batches signups 2) = rows signups /\
  Forall (fun b => 1 <= List.length b <= 2) (batches signups 2) /\
  Forall (fun b => List.length b = 2) (removelast (batches signups 2)) /\
  complaints (Run.trace run) = [].
Proof.
  apply (full_load_statements pandas_on_integers loaded_until_100 signups
           "ch.local" "quotes" "quote_suscribers" "default" "" 2 None);
    [lia | reflexivity].
Defined.

(** The watermark when a query fails. *)
Lemma get_max_timestamp_failing (wh : warehouse) (database table col : string) (e : exn) :
  col <> "" ->
  first_value (exists_reply wh) = inl e \/
  (first_value (exists_reply wh) = inr (DbInt 1) /\ first_value (max_reply wh) = inl e) ->
  exists trm,
    get_max_timestamp wh database table true (Some col) = (trm, inr DbNull) /\
    inserted_rows trm = [] /\ reported_skipped trm = [] /\
    complaints trm = [Log WARNING MsgCouldNotGetMax].
Proof.
  intros Hcol H. unfold get_max_timestamp.
  destruct col as [|c col']; [congruence|]. cbn [given PyStr.truthy negb].
  destruct H as [He|[He Hm]]; rewrite He; cbn; [|rewrite Hm; cbn];
    eexists; repeat split.
Qed.

(** X16. In an incremental load, when the query for the table or the one
    for its maximum timestamp fails, the loader logs one warning and goes
    on without watermark: it returns with every row of the CSV inserted
    and none counted as skipped. *)
Theorem watermark_failure_loads_everything
    (pd : pandas)
    (wh : warehouse) (file : csv) (host database table user password : string)
    (batch_size : nat) (col : string) (e : exn) :
  1 <= batch_size ->
  col <> "" ->
  first_value (exists_reply wh) = inl e \/
  (first_value (exists_reply wh) = inr (DbInt 1) /\ first_value (max_reply wh) = inl e) ->
  (forall n, insert_ok wh n = true) ->
  let run := load_csv_to_clickhouse pd wh (Parsed file) host database table
               user password batch_size true (Some col) in
  Run.outcome run = inr tt /\
  inserted_rows (Run.trace run) = rows file /\
  reported_skipped (Run.trace run) = [0] /\
  complaints (Run.trace run) = [Log WARNING MsgCouldNotGetMax].
Proof.
  intros Hn Hcol Hfail Hins run.
  destruct (get_max_timestamp_failing wh database table col e Hcol Hfail)
    as (trm & Hmax & Im & Rm & Cm).
  destruct (run_unfiltered pd wh file host database table user password
              batch_size true (Some col) Hn Hins trm DbNull Hmax)
    as (tr & Hrun & _ & Hi & Hr & Hc); [reflexivity|].
  fold run in Hrun. rewrite Hrun. unfold Run.outcome, Run.trace; cbn [fst snd].
  rewrite Hi, Hr, Hc, Im, Rm, Cm. repeat split.
Qed.

Lemma watermark_failure_loads_everything_witness :
  let wh := {| exists_reply := Fails; max_reply := Fails; insert_ok := fun _ => true |} in
  let run := load_csv_to_clickhouse pandas_on_integers wh (Parsed signups)
               "ch.local" "quotes" "quote_suscribers" "default" "" 2 true
               (Some "Timestamp") in
  Run.outcome run = inr tt /\
  inserted_rows (Run.trace run) = rows signups /\
  reported_skipped (Run.trace run) = [0] /\
  complaints (Run.trace run) = [Log WARNING MsgCouldNotGetMax].
Proof.
  apply (watermark_failure_loads_everything pandas_on_integers
           {| exists_reply := Fails; max_reply := Fails; insert_ok := fun _ => true |}
           signups "ch.local" "quotes" "quote_suscribers" "default" "" 2 "Timestamp"
           DbError);
    [lia | discriminate | left; reflexivity | reflexivity].
Defined.

(** X17. In an incremental load, when the table is reported as not
    existing, its maximum timestamp is not asked for: after the one
    [EXISTS] query the loader sends the inserts of a full load, every row
    of the CSV, and logs no warning. *)
Theorem absent_table_loads_everything
    (pd : pandas)
    (wh : warehouse) (file : csv) (host database table user password : string)
    (batch_size : nat) (col : string) (found : dbvalue) :
  1 <= batch_size ->
  col <> "" ->
  first_value (exists_reply wh) = inr found ->
  is_one found = false ->
  (forall n, insert_ok wh n = true) ->
  let run := load_csv_to_clickhouse pd wh (Parsed file) host database table
               user password batch_size true (Some col) in
  Run.outcome run = inr tt /\
  statements (Run.trace run) =
    ExistsTable database table
    :: map (InsertInto table (columns file)) (batches file batch_size) /\
  inserted_rows (Run.trace run) = rows file /\
  reported_skipped (Run.trace run) = [0] /\
  complaints (Run.trace run) = [].
Proof.
  intros Hn Hcol He Hno Hins run.
  assert (Hmax : get_max_timestamp wh database table true (Some col) =
                   ([Execute (ExistsTable database table); Log INFO MsgNoTable],
                    inr DbNull)).
  { unfold get_max_timestamp.
    destruct col as [|c col']; [congruence|]. cbn [given PyStr.truthy negb].
    rewrite He. cbn. rewrite Hno. reflexivity. }
  destruct (run_unfiltered pd wh file host database table user password
              batch_size true (Some col) Hn Hins _ DbNull Hmax)
    as (tr & Hrun & Hs & Hi & Hr & Hc); [reflexivity|].
  fold run in Hrun. rewrite Hrun. unfold Run.outcome, Run.trace; cbn [fst snd].
  rewrite Hs, Hi, Hr, Hc. repeat split.
Qed.

Lemma absent_table_loads_everything_witness :
  let wh := {| exists_reply := Rows [[DbInt 0]]; max_reply := Fails;
               insert_ok := fun _ => true |} in
  let run := load_csv_to_clickhouse pandas_on_integers wh (Parsed signups)
               "ch.local" "quotes" "quote_suscribers" "default" "" 2 true
               (Some "Timestamp") in
  Run.outcome run = inr tt /\
  statements (Run.trace run) =
    ExistsTable "quotes" "quote_suscribers"
    :: map (InsertInto "quote_suscribers" (columns signups)) (batches signups 2) /\
  inserted_rows (Run.trace run) = rows signups /\
  reported_skipped (Run.trace run) = [0] /\
  complaints (Run.trace run) = [].
Proof.
  apply (absent_table_loads_everything pandas_on_integers
           {| exists_reply := Rows [[DbInt 0]]; max_reply := Fails;
              insert_ok := fun _ => true |}
           signups "ch.local" "quotes" "quote_suscribers" "default" "" 2 "Timestamp"
           (DbInt 0));
    [lia | discriminate | reflexivity | reflexivity | reflexivity].
Defined.

(** X18. In an incremental load of an existing table whose maximum
    timestamp counts as false in Python (NULL, 0 or the empty string),
    the table is taken as empty: nothing is filtered, even when the CSV
    has the timestamp column; every row is inserted, none is counted as
    skipped and no warning is logged. *)
Theorem empty_table_loads_everything
    (pd : pandas)
    (wh : warehouse) (file : csv) (host database table user password : string)
    (batch_size : nat) (col : string) (watermark : dbvalue) :
  1 <= batch_size ->
  col <> "" ->
  first_value (exists_reply wh) = inr (DbInt 1) ->
  first_value (max_reply wh) = inr watermark ->
  truthy watermark = false ->
  (forall n, insert_ok wh n = true) ->
  let run := load_csv_to_clickhouse pd wh (Parsed file) host database table
               user password batch_size true (Some col) in
  Run.outcome run = inr tt /\
  statements (Run.trace run) =
    ExistsTable database table :: SelectMax col database table
    :: map (InsertInto table (columns file)) (batches file batch_size) /\
  inserted_rows (Run.trace run) = rows file /\
  reported_skipped (Run.trace run) = [0] /\
  complaints (Run.trace run) = [].
Proof.
  intros Hn Hcol He Hm Hv Hins run.
  pose proof (LoaderProps.get_max_timestamp_found wh database table col watermark
                Hcol He Hm) as Hmax.
  rewrite Hv in Hmax.
  destruct (run_unfiltered pd wh file host database table user password
              batch_size true (Some col) Hn Hins _ watermark Hmax)
    as (tr & Hrun & Hs & Hi & Hr & Hc).
  { intros ch _. unfold filter_column. now rewrite Hv. }
  fold run in Hrun. rewrite Hrun. unfold Run.outcome, Run.trace; cbn [fst snd].
  rewrite Hs, Hi, Hr, Hc. repeat split.
Qed.

Lemma empty_table_loads_everything_witness :
  let wh := {| exists_reply := Rows [[DbInt 1]]; max_reply := Rows [[DbNull]];
               insert_ok := fun _ => true |} in
  let run := load_csv_to_clickhouse pandas_on_integers wh (Parsed signups)
               "ch.local" "quotes" "quote_suscribers" "default" "" 2 true
               (Some "Timestamp") in
  Run.outcome run = inr tt /\
  statements (Run.trace run) =
    ExistsTable "quotes" "quote_suscribers"
    :: SelectMax "Timestamp" "quotes" "quote_suscribers"
    :: map (InsertInto "quote_suscribers" (columns signups)) (batches signups 2) /\
  inserted_rows (Run.trace run) = rows signups /\
  reported_skipped (Run.trace run) = [0] /\
  complaints (Run.trace run) = [].
Proof.
  apply (empty_table_loads_everything pandas_on_integers
           {| exists_reply := Rows [[DbInt 1]]; max_reply := Rows [[DbNull]];
              insert_ok := fun _ => true |}
           signups "ch.local" "quotes" "quote_suscribers" "default" "" 2 "Timestamp"
           DbNull);
    [lia | discriminate | reflexivity | reflexivity | reflexivity | reflexivity].
Defined.

(** *** Every run, whatever the warehouse answers *)

Section Events.
Variable pd : pandas.
Variable wh : warehouse.
Variables (table : string) (incremental : bool).
Variable max_timestamp : dbvalue.
Variable timestamp_column : option string.
Variables (cols : list string) (batch_size : nat).

Let ok : event -> Prop := middle table cols batch_size.

Lemma middle_log (l : level) (m : message) : ok (Log l m).
Proof. split; exact I. Qed.

Lemma insert_chunk_events (chunk_num : nat) (chunk : csv) (total_rows : nat) :
  columns chunk = cols -> List.length (rows chunk) <= batch_size ->
  Forall ok (Run.trace (insert_chunk wh table chunk_num chunk total_rows)).
Proof.
  intros Hc Hlen. unfold insert_chunk.
  destruct (List.length (rows chunk) =? 0)%nat eqn:E; [constructor|].
  apply Nat.eqb_neq in E.
  assert (Hins : ok (Execute (InsertInto table (columns chunk) (rows chunk)))).
  { split; [exact I|]. cbn. repeat split; [assumption | lia | assumption]. }
  destruct (insert_ok wh chunk_num); cbn;
    repeat (apply Forall_cons || apply Forall_nil); try exact Hins; apply middle_log.
Qed.

Lemma load_chunks_events (chunks : list csv) :
  Forall (fun ch => columns ch = cols /\ List.length (rows ch) <= batch_size) chunks ->
  forall chunk_num total_rows skipped_rows,
    Forall ok
      (Run.trace (load_chunks pd wh table incremental max_timestamp
                    timestamp_column chunk_num chunks total_rows skipped_rows)).
Proof.
  induction 1 as [|chunk rest [Hc Hlen] _ IH]; intros chunk_num total_rows skipped_rows;
    cbn [load_chunks]; [constructor|].
  destruct (filter_column incremental max_timestamp timestamp_column chunk) as [i|].
  - apply RunMore.Forall_bind; [constructor|]. intros stamps.
    apply RunMore.Forall_bind; [constructor|]. intros max_ts.
    apply RunMore.Forall_bind; [constructor|]. intros newer.
    cbn [rows with_rows]. unfold row in *.
    match goal with
    | |- context [Nat.eqb (@List.length ?A (filter ?f ?l)) 0] =>
        assert (Hkept : @List.length A (filter f l) <= batch_size);
        [pose proof (filter_length f l) as Hf;
         rewrite LoaderProps.set_column_length in Hf; unfold row in *; lia
        |destruct (Nat.eqb (@List.length A (filter f l)) 0)]
    end.
    + apply RunMore.Forall_bind; [repeat constructor; apply middle_log | intros; apply IH].
    + apply RunMore.Forall_bind; [|intros; apply IH].
      apply insert_chunk_events; [exact Hc | exact Hkept].
  - apply RunMore.Forall_bind; [|intros; apply IH].
    now apply insert_chunk_events.
Qed.
End Events.

Lemma get_max_timestamp_events (wh : warehouse) (database table : string)
    (incremental : bool) (timestamp_column : option string)
    (cols : list string) (batch_size : nat) :
  Forall (middle table cols batch_size)
    (Run.trace (get_max_timestamp wh database table incremental timestamp_column)).
Proof.
  unfold get_max_timestamp.
  destruct incremental; [|constructor].
  destruct (given timestamp_column); cbn [negb]; [|constructor].
  destruct (first_value (exists_reply wh)) as [e|found]; cbn;
    [repeat constructor|].
  destruct (is_one found); cbn; [|repeat constructor].
  destruct (first_value (max_reply wh)) as [e|v]; cbn; [repeat constructor|].
  destruct (truthy v); cbn; repeat constructor.
Qed.

Lemma read_csv_chunks (file : csv_file) (batch_size : nat) (chunks : list csv) :
  read_csv file batch_size = inr chunks ->
  Forall (fun ch => columns ch = labels_of file
                    /\ List.length (rows ch) <= batch_size)
         chunks.
Proof.
  destruct batch_size as [|b]; cbn [read_csv]; [discriminate|].
  destruct file as [e|table]; [discriminate|]. intros [= <-].
  apply Forall_map.
  eapply Forall_impl; [|apply (chunks_of_sizes (S b)); lia].
  cbn. intros rs [_ H]. split; [reflexivity | exact H].
Qed.

Lemma ends_well_bind (Q : event -> Prop) {A} (m : M A) (k : A -> M unit) :
  Forall Q (Run.trace m) ->
  (forall a, Run.outcome m = inr a -> ends_well Q (k a)) ->
  ends_well Q (Run.bind m k).
Proof.
  intros Hm Hk. unfold ends_well.
  rewrite RunMore.trace_bind, RunMore.outcome_bind.
  destruct m as [tr [e|a]]; cbn [Run.trace Run.outcome fst snd] in *.
  - exists tr. split; [assumption|]. right. exists e. now rewrite app_nil_r.
  - destruct (Hk a eq_refl) as (mid & Hmid & [[Ho Ht]|(e & Ho & Ht)]).
    + exists (tr ++ mid)%list. split; [now apply Forall_app|].
      left. split; [assumption|]. unfold Run.trace in *. now rewrite Ht, app_assoc.
    + exists (tr ++ mid)%list. split; [now apply Forall_app|].
      right. exists e. split; [assumption|]. unfold Run.trace in *. now rewrite Ht.
Qed.

(** The shape of every run of the loader. *)
Lemma run_shape
    (pd : pandas)
    (wh : warehouse) (file : csv_file) (host database table user password : string)
    (batch_size : nat) (incremental : bool) (timestamp_column : option string) :
  let run := load_csv_to_clickhouse pd wh file host database table
               user password batch_size incremental timestamp_column in
  exists mid,
    Forall (middle table (labels_of file) batch_size) mid /\
    ((Run.outcome run = inr tt /\
      Run.trace run =
        Log INFO (MsgConnecting host) :: NewClient host user database
        :: (mid ++ [Disconnect])%list) \/
     (exists e,
        Run.outcome run = inl e /\
        Run.trace run =
          Log INFO (MsgConnecting host) :: NewClient host user database
          :: (mid ++ [Log ERROR MsgFailedLoad])%list)).
Proof.
  cbv zeta. unfold load_csv_to_clickhouse.
  set (Q := middle table (labels_of file) batch_size).
  match goal with
  | |- context [Run.bind (get_max_timestamp ?a ?b ?c ?d ?e) ?k] =>
      set (R := Run.bind (get_max_timestamp a b c d e) k)
  end.
  assert (Hinner : ends_well Q R).
  { unfold R. apply ends_well_bind; [apply get_max_timestamp_events|]. intros max_timestamp _.
    apply ends_well_bind; [repeat constructor|]. intros _ _.
    apply ends_well_bind; [constructor|]. intros chunks Hread.
    unfold lift, Run.outcome in Hread; cbn [snd] in Hread.
    apply ends_well_bind; [apply load_chunks_events; now apply read_csv_chunks|].
    intros counts _.
    apply ends_well_bind;
      [destruct incremental; repeat constructor|].
    intros _ _. exists []. split; [constructor|]. left. split; reflexivity. }
  destruct Hinner as (mid & Hmid & Hends).
  exists mid. split; [exact Hmid|].
  rewrite RunMore.outcome_catch, RunMore.trace_catch.
  rewrite !RunMore.outcome_bind, !RunMore.trace_bind.
  cbn [log Run.emit Run.trace Run.outcome fst snd app].
  destruct Hends as [[Ho Ht]|(e & Ho & Ht)]; rewrite Ho, Ht.
  - left. split; [reflexivity|]. now rewrite app_nil_r.
  - right. exists e. split; [reflexivity|]. cbn. reflexivity.
Qed.

Lemma run_inserts_in_order
    (pd : pandas)
    (wh : warehouse) (file : csv_file) (host database table user password : string)
    (batch_size : nat) (incremental : bool) (timestamp_column : option string) :
  Forall (insert_in_order table (labels_of file) batch_size)
    (Run.trace (load_csv_to_clickhouse pd wh file host database table
                  user password batch_size incremental timestamp_column)).
Proof.
  destruct (run_shape pd wh file host database table user password
              batch_size incremental timestamp_column) as (mid & Hmid & H).
  assert (Hmid' : Forall (insert_in_order table (labels_of file) batch_size) mid).
  { eapply Forall_impl; [|exact Hmid]. now intros ev [_ H']. }
  destruct H as [[_ ->]|(e & _ & ->)];
    repeat constructor; apply Forall_app; split; try assumption;
    repeat constructor.
Qed.

(** X15. In every run of the loader, whatever the mode, the file, what
    pandas makes of it and the answers of the warehouse, each [INSERT]
    sent goes to the target table, names as its column list the labels
    that the chunks have for their columns ([chunk.columns], which pandas
    derives from the header of the file) and carries at least one and at
    most [batch_size] rows: an empty batch is never sent. *)
Theorem every_insert_is_a_batch
    (pd : pandas)
    (wh : warehouse) (file : csv_file) (host database table user password : string)
    (batch_size : nat) (incremental : bool) (timestamp_column : option string) :
  Forall (insert_in_order table (labels_of file) batch_size)
    (Run.trace (load_csv_to_clickhouse pd wh file host database table
                  user password batch_size incremental timestamp_column)).
Proof. apply run_inserts_in_order. Qed.

(** X19. Every run of the loader creates its client once, right after
    the first log record, and then takes one of two ends: it returns, and
    the last thing it does is to disconnect; or it raises, the last record
    being the error, and the client is never disconnected.  In between
    there is neither a second client nor a disconnection. *)
Theorem client_created_once_and_left_open_on_error
    (pd : pandas)
    (wh : warehouse) (file : csv_file) (host database table user password : string)
    (batch_size : nat) (incremental : bool) (timestamp_column : option string) :
  let run := load_csv_to_clickhouse pd wh file host database table
               user password batch_size incremental timestamp_column in
  exists mid,
    Forall inner mid /\
    ((Run.outcome run = inr tt /\
      Run.trace run =
        Log INFO (MsgConnecting host) :: NewClient host user database
        :: (mid ++ [Disconnect])%list) \/
     (exists e,
        Run.outcome run = inl e /\
        Run.trace run =
          Log INFO (MsgConnecting host) :: NewClient host user database
          :: (mid ++ [Log ERROR MsgFailedLoad])%list)).
Proof.
  cbv zeta.
  destruct (run_shape pd wh file host database table user password
              batch_size incremental timestamp_column) as (mid & Hmid & H).
  exists mid. split; [|exact H].
  eapply Forall_impl; [|exact Hmid]. now intros ev [H' _].
Qed.

Lemma get_max_timestamp_returns (wh : warehouse) (database table : string)
    (incremental : bool) (timestamp_column : option string) :
  incremental = false \/ given timestamp_column = true ->
  exists trm v,
    get_max_timestamp wh database table incremental timestamp_column = (trm, inr v) /\
    insert_batches trm = [] /\ disconnects trm = [].
Proof.
  intros H. unfold get_max_timestamp.
  destruct incremental; [|do 2 eexists; repeat split].
  destruct H as [H|H]; [discriminate|]. rewrite H. cbn [negb].
  destruct (first_value (exists_reply wh)) as [e|found]; cbn;
    [do 2 eexists; repeat split|].
  destruct (is_one found); cbn; [|do 2 eexists; repeat split].
  destruct (first_value (max_reply wh)) as [e|v]; cbn; [do 2 eexists; repeat split|].
  destruct (truthy v); cbn; do 2 eexists; repeat split.
Qed.

Lemma middle_clients (table : string) (cols : list string) (b : nat)
    (tr : list event) :
  Forall (middle table cols b) tr -> clients tr = [].
Proof.
  unfold clients. induction 1 as [|ev tr [Hin _] _ IH]; [reflexivity|].
  destruct ev; try (exact IH); destruct Hin.
Qed.

Lemma middle_disconnects (table : string) (cols : list string) (b : nat)
    (tr : list event) :
  Forall (middle table cols b) tr -> disconnects tr = [].
Proof.
  unfold disconnects. induction 1 as [|ev tr [Hin _] _ IH]; [reflexivity|].
  destruct ev; try (exact IH); destruct Hin.
Qed.

(** A run that raises leaves the client undisconnected. *)
Lemma raising_run_disconnects
    (pd : pandas)
    (wh : warehouse) (file : csv_file) (host database table user password : string)
    (batch_size : nat) (incremental : bool) (timestamp_column : option string)
    (e : exn) :
  let run := load_csv_to_clickhouse pd wh file host database table
               user password batch_size incremental timestamp_column in
  Run.outcome run = inl e -> disconnects (Run.trace run) = [].
Proof.
  cbv zeta. intros Hout.
  destruct (run_shape pd wh file host database table user password
              batch_size incremental timestamp_column)
    as (mid & Hmid & [[Ho _]|(e' & _ & Ht)]).
  - rewrite Hout in Ho. discriminate Ho.
  - rewrite Ht. unfold disconnects. cbn [filter].
    rewrite filter_app. cbn [filter]. rewrite app_nil_r.
    exact (middle_disconnects _ _ _ _ Hmid).
Qed.

(** The run when [pd.read_csv] raises. *)
Lemma run_unread
    (pd : pandas)
    (wh : warehouse) (file : csv_file) (host database table user password : string)
    (batch_size : nat) (incremental : bool) (timestamp_column : option string)
    (e : exn) :
  incremental = false \/ given timestamp_column = true ->
  read_csv file batch_size = inl e ->
  let run := load_csv_to_clickhouse pd wh file host database table
               user password batch_size incremental timestamp_column in
  Run.outcome run = inl e /\
  statements (Run.trace run) =
    statements (Run.trace (get_max_timestamp wh database table incremental
                             timestamp_column)) /\
  insert_batches (Run.trace run) = [] /\
  clients (Run.trace run) = [NewClient host user database] /\
  disconnects (Run.trace run) = [].
Proof.
  intros H Hread run.
  destruct (get_max_timestamp_returns wh database table incremental timestamp_column H)
    as (trm & v & Hmax & Im & Dm).
  assert (Hc : clients trm = []).
  { pose proof (get_max_timestamp_events wh database table incremental
                  timestamp_column [] 0) as Hev.
    rewrite Hmax in Hev. unfold Run.trace in Hev; cbn [fst] in Hev.
    exact (middle_clients _ _ _ _ Hev). }
  unfold run, load_csv_to_clickhouse.
  unfold log at 1. cbn [Run.bind Run.emit].
  rewrite (RunFacts.bind_ok _ _ _ _ Hmax). rewrite Hmax, Hread.
  cbn [fst snd log Run.bind Run.emit lift Run.catch Run.raise app
       Run.outcome Run.trace].
  unfold statements, insert_batches, clients, disconnects in *.
  repeat (progress cbn [flat_map filter app]
          || rewrite flat_map_app || rewrite filter_app).
  rewrite Im, Dm, Hc, !app_nil_r. repeat split.
Qed.

(** X20. With [batch_size] 0 the loader fails with the [ValueError] of
    [pd.read_csv], and only once the client is created and the watermark
    is fetched: nothing is inserted, and the client stays undisconnected. *)
Theorem zero_batch_size_is_rejected_late
    (pd : pandas)
    (wh : warehouse) (file : csv_file) (host database table user password : string)
    (incremental : bool) (timestamp_column : option string) :
  incremental = false \/ given timestamp_column = true ->
  let run := load_csv_to_clickhouse pd wh file host database table
               user password 0 incremental timestamp_column in
  Run.outcome run = inl (ValueError BadChunkSize) /\
  statements (Run.trace run) =
    statements (Run.trace (get_max_timestamp wh database table incremental
                             timestamp_column)) /\
  insert_batches (Run.trace run) = [] /\
  clients (Run.trace run) = [NewClient host user database] /\
  disconnects (Run.trace run) = [].
Proof.
  intros H. now apply run_unread.
Qed.

Lemma zero_batch_size_is_rejected_late_witness :
  let run := load_csv_to_clickhouse pandas_on_integers loaded_until_100 (Parsed signups)
               "ch.local" "quotes" "quote_suscribers" "default" "" 0 true
               (Some "Timestamp") in
  Run.outcome run = inl (ValueError BadChunkSize) /\
  statements (Run.trace run) =
    statements (Run.trace (get_max_timestamp loaded_until_100 "quotes"
                             "quote_suscribers" true (Some "Timestamp"))) /\
  insert_batches (Run.trace run) = [] /\
  clients (Run.trace run) = [NewClient "ch.local" "default" "quotes"] /\
  disconnects (Run.trace run) = [].
Proof.
  apply (zero_batch_size_is_rejected_late pandas_on_integers loaded_until_100
           (Parsed signups)
           "ch.local" "quotes" "quote_suscribers" "default" "" true (Some "Timestamp")).
  right; reflexivity.
Defined.

(** X28. A file that [pd.read_csv] refuses (no such file, no columns to
    parse) makes the loader fail with what pandas raised, and only once
    the client is created and the watermark is fetched: nothing is
    inserted, and the client stays undisconnected. *)
Theorem unreadable_file_fails_the_load
    (pd : pandas)
    (wh : warehouse) (host database table user password : string)
    (batch_size : nat) (incremental : bool) (timestamp_column : option string)
    (e : exn) :
  1 <= batch_size ->
  incremental = false \/ given timestamp_column = true ->
  let run := load_csv_to_clickhouse pd wh (Unreadable e) host database table
               user password batch_size incremental timestamp_column in
  Run.outcome run = inl e /\
  statements (Run.trace run) =
    statements (Run.trace (get_max_timestamp wh database table incremental
                             timestamp_column)) /\
  insert_batches (Run.trace run) = [] /\
  clients (Run.trace run) = [NewClient host user database] /\
  disconnects (Run.trace run) = [].
Proof.
  intros Hn H. apply run_unread; [exact H|].
  destruct batch_size; [lia | reflexivity].
Qed.

Lemma unreadable_file_fails_the_load_witness :
  let run := load_csv_to_clickhouse pandas_on_integers loaded_until_100
               (Unreadable FileNotFoundError)
               "ch.local" "quotes" "quote_suscribers" "default" "" 1000 false None in
  Run.outcome run = inl FileNotFoundError /\
  statements (Run.trace run) =
    statements (Run.trace (get_max_timestamp loaded_until_100 "quotes"
                             "quote_suscribers" false None)) /\
  insert_batches (Run.trace run) = [] /\
  clients (Run.trace run) = [NewClient "ch.local" "default" "quotes"] /\
  disconnects (Run.trace run) = [].
Proof.
  apply (unreadable_file_fails_the_load pandas_on_integers loaded_until_100
           "ch.local" "quotes" "quote_suscribers" "default" "" 1000 false None
           FileNotFoundError); [lia | left; reflexivity].
Defined.






Section FailingInsert.
Variable pd : pandas.
Variable wh : warehouse.
Variables (table : string) (incremental : bool).
Variable max_timestamp : dbvalue.
Variable timestamp_column : option string.

(** Unfiltered chunks, none empty, the insert of chunk [chunk_num + k]
    being the first to fail. *)
Lemma load_chunks_failing (k : nat) :
  forall (chunks : list csv) chunk_num total_rows skipped_rows,
    Forall (fun ch => filter_column incremental max_timestamp timestamp_column ch = None
                      /\ rows ch <> []) chunks ->
    k < List.length chunks ->
    (forall j, j < k -> insert_ok wh (chunk_num + j) = true) ->
    insert_ok wh (chunk_num + k) = false ->
    exists tr,
      load_chunks pd wh table incremental max_timestamp timestamp_column
          chunk_num chunks total_rows skipped_rows = (tr, inl DbError) /\
      insert_batches tr = map rows (firstn (S k) chunks) /\
      disconnects tr = [].
Proof.
  induction k as [|k IH]; intros chunks chunk_num total_rows skipped_rows Hch Hk Hok Hfail;
    (destruct chunks as [|chunk rest]; [cbn in Hk; lia|]);
    apply Forall_cons_iff in Hch as [[Hnone Hne] Hrest];
    cbn [load_chunks]; rewrite Hnone; unfold insert_chunk;
    (destruct (List.length (rows chunk) =? 0)%nat eqn:E;
     [apply Nat.eqb_eq, length_zero_iff_nil in E; contradiction|]).
  - rewrite Nat.add_0_r in Hfail. rewrite Hfail. cbn.
    eexists; repeat split.
  - assert (H0 : insert_ok wh chunk_num = true)
      by (rewrite <- (Nat.add_0_r chunk_num); apply Hok; lia).
    rewrite H0.
    cbn [Run.bind Run.emit Run.ret log app fst snd].
    destruct (IH rest (S chunk_num) (total_rows + List.length (rows chunk)) skipped_rows
                Hrest) as (tr & Hl & Hb & Hd).
    + cbn in Hk; lia.
    + intros j Hj. rewrite <- (Hok (S j)) by lia. f_equal; lia.
    + rewrite <- Hfail. f_equal; lia.
    + rewrite Hl. eexists; split; [reflexivity|].
      unfold insert_batches, disconnects in *. cbn [flat_map filter app firstn map].
      rewrite Hb, Hd. split; reflexivity.
Qed.
End FailingInsert.

(** X22. When an insert fails in a full load, the loader raises what the
    warehouse raised and stops: the batches before the failing one have
    been inserted and stay so, the failing one was the last statement
    sent, no later batch is tried, and the client is not disconnected. *)
Theorem failing_insert_stops_the_load
    (pd : pandas)
    (wh : warehouse) (file : csv) (host database table user password : string)
    (batch_size : nat) (timestamp_column : option string) (k : nat) :
  1 <= batch_size ->
  k < List.length (batches file batch_size) ->
  (forall j, j < k -> insert_ok wh j = true) ->
  insert_ok wh k = false ->
  let run := load_csv_to_clickhouse pd wh (Parsed file) host database table
               user password batch_size false timestamp_column in
  Run.outcome run = inl DbError /\
  insert_batches (Run.trace run) = firstn (S k) (batches file batch_size) /\
  disconnects (Run.trace run) = [].
Proof.
  intros Hn Hk Hok Hfail run.
  set (chunks := map (with_rows file) (batches file batch_size)).
  assert (Hch : Forall (fun ch => filter_column false DbNull timestamp_column ch = None
                                  /\ rows ch <> []) chunks).
  { apply Forall_map. unfold batches.
    eapply Forall_impl; [|apply (chunks_of_sizes batch_size Hn)].
    cbn. intros rs [Hlen _]. split; [reflexivity|].
    destruct rs; [cbn in Hlen; lia | discriminate]. }
  destruct (load_chunks_failing pd wh table false DbNull timestamp_column
              k chunks 0 0 0 Hch) as (trl & Hl & Hb & Hd);
    [unfold chunks; now rewrite length_map | exact Hok | exact Hfail |].
  assert (Hfirst : map rows (firstn (S k) chunks) = firstn (S k) (batches file batch_size)).
  { unfold chunks. rewrite <- firstn_map, map_map. cbn [rows]. now rewrite map_id. }
  rewrite Hfirst in Hb.
  unfold run, load_csv_to_clickhouse, get_max_timestamp.
  rewrite (LoaderProps.read_csv_batches file batch_size Hn).
  cbn [log Run.bind Run.emit Run.ret lift app fst snd]. fold chunks. rewrite Hl.
  cbn [Run.catch Run.bind Run.emit Run.raise log app fst snd Run.outcome Run.trace].
  unfold insert_batches, disconnects in *.
  repeat (progress cbn [flat_map filter app]
          || rewrite flat_map_app || rewrite filter_app).
  rewrite Hb, Hd, !app_nil_r. repeat split.
Qed.

Lemma failing_insert_stops_the_load_witness :
  let wh := {| exists_reply := Fails; max_reply := Fails;
               insert_ok := fun n => (n =? 0)%nat |} in
  let run := load_csv_to_clickhouse pandas_on_integers wh (Parsed signups)
               "ch.local" "quotes" "quote_suscribers" "default" "" 2 false None in
  Run.outcome run = inl DbError /\
  insert_batches (Run.trace run) = firstn 2 (batches signups 2) /\
  disconnects (Run.trace run) = [].
Proof.
  apply (failing_insert_stops_the_load pandas_on_integers
           {| exists_reply := Fails; max_reply := Fails;
              insert_ok := fun n => (n =? 0)%nat |}
           signups "ch.local" "quotes" "quote_suscribers" "default" "" 2 None 1).
  - lia.
  - cbn. lia.
  - intros j Hj. assert (j = 0) as -> by lia. reflexivity.
  - reflexivity.
Defined.

(** *** A chunk on which the filter raises *)

Section Raising.
Variable pd : pandas.
Variable wh : warehouse.
Variable table : string.
Variable watermark : dbvalue.
Variables (col : string) (i : nat) (aware : bool) (T : instant).
Hypothesis inserts_go_through : forall n, insert_ok wh n = true.
Hypothesis watermark_true : truthy watermark = true.
Hypothesis watermark_instant : to_datetime_scalar pd watermark = inr (Timestamp aware T).

(** Filtered chunks, then one on which the conversion or the comparison
    raises. *)
Lemma load_chunks_raising (before : list csv) (chunk : csv) (rest : list csv) (e : exn) :
  Forall (filtered pd col i aware) before ->
  index_of col (columns chunk) = Some i ->
  filter_error pd aware i (rows chunk) = Some e ->
  forall chunk_num total_rows skipped_rows,
  exists tr,
    load_chunks pd wh table true watermark (Some col)
        chunk_num (before ++ chunk :: rest) total_rows skipped_rows = (tr, inl e) /\
    inserted_rows tr =
      map (with_timestamp i aware)
          (filter (is_after T) (flat_map (fun ch => dated pd i (rows ch)) before)).
Proof.
  intros Hbefore Hcol Herr.
  induction Hbefore as [|ch before (Hc & Hconv & Hhas) _ IH];
    intros chunk_num total_rows skipped_rows.
  - cbn [app flat_map filter map]. cbn [load_chunks]. unfold filter_column.
    rewrite watermark_true, Hcol; cbn [andb].
    unfold filter_error in Herr.
    destruct (to_datetime_series pd (column i (rows chunk))) as [e'|stamps].
    + injection Herr as ->. rewrite LoaderProps.bind_lift_raised.
      eexists; split; reflexivity.
    + destruct (Bool.eqb (tz_aware stamps) aware) eqn:Haw; [discriminate|].
      injection Herr as <-.
      rewrite LoaderProps.bind_lift, watermark_instant, LoaderProps.bind_lift.
      unfold greater. rewrite Haw, LoaderProps.bind_lift_raised.
      eexists; split; reflexivity.
  - cbn [app flat_map].
    pose proof (LoaderProps.dated_has_column pd i (rows ch) Hhas) as Hhas'.
    destruct (LoaderProps.converts_spec pd aware i (rows ch) Hconv)
      as (stamps & Hs & Haw & Hlen & Hts).
    cbn [load_chunks]. unfold filter_column.
    rewrite watermark_true, Hc; cbn [andb].
    rewrite Hs, LoaderProps.bind_lift, watermark_instant, LoaderProps.bind_lift.
    rewrite Haw. unfold greater. rewrite Bool.eqb_reflx, LoaderProps.bind_lift.
    cbn [rows with_rows].
    rewrite (LoaderProps.set_column_combine i aware (rows ch) (values stamps) Hlen).
    replace (combine (values stamps) (rows ch)) with (dated pd i (rows ch))
      by (unfold dated; now rewrite Hts).
    rewrite (LoaderProps.filter_with_timestamp T i aware _ Hhas'), !length_map.
    rewrite filter_app, map_app.
    destruct (filter (is_after T) (dated pd i (rows ch))) as [|p0 kept] eqn:Hkept.
    + cbn [List.length Nat.eqb map app].
      match goal with
      | |- context [load_chunks _ _ _ _ _ _ ?n _ ?t ?s] =>
          destruct (IH n t s) as (tr2 & H2 & I2)
      end.
      unfold log; cbn [Run.bind Run.emit]. rewrite H2.
      eexists; split; [reflexivity|].
      unfold inserted_rows in *. cbn [flat_map app]. exact I2.
    + cbn [List.length Nat.eqb map].
      destruct (LoaderProps.insert_chunk_run wh table inserts_go_through chunk_num
                  (with_rows ch (with_timestamp i aware p0
                                 :: map (with_timestamp i aware) kept))
                  total_rows) as (tr1 & H1 & Q1 & _).
      cbn [rows with_rows List.length] in H1, Q1.
      match goal with
      | |- context [fun total_rows0 => load_chunks _ _ _ _ _ _ ?n _ total_rows0 ?s] =>
          destruct (IH n (total_rows + S (List.length (map (with_timestamp i aware) kept))) s)
            as (tr2 & H2 & I2)
      end.
      rewrite (RunFacts.bind_ok _ _ _ _ H1), H2; cbn [fst snd].
      eexists; split; [reflexivity|].
      rewrite LoaderProps.inserted_rows_app, Q1, I2. reflexivity.
Qed.
End Raising.

(** The run that stops at batch number [k]. *)
Lemma run_stops_at_batch
    (pd : pandas)
    (wh : warehouse) (file : csv) (host database table user password : string)
    (batch_size : nat) (col : string) (i : nat) (watermark : dbvalue)
    (aware : bool) (T : instant) (k : nat) (e : exn) :
  1 <= batch_size ->
  col <> "" ->
  first_value (exists_reply wh) = inr (DbInt 1) ->
  first_value (max_reply wh) = inr watermark ->
  truthy watermark = true ->
  to_datetime_scalar pd watermark = inr (Timestamp aware T) ->
  index_of col (columns file) = Some i ->
  forallb (has_column i) (rows file) = true ->
  forallb (converts pd aware i) (firstn k (batches file batch_size)) = true ->
  k < List.length (batches file batch_size) ->
  filter_error pd aware i (nth k (batches file batch_size) []) = Some e ->
  (forall n, insert_ok wh n = true) ->
  let run := load_csv_to_clickhouse pd wh (Parsed file) host database table
               user password batch_size true (Some col) in
  Run.outcome run = inl e /\
  inserted_rows (Run.trace run) =
    map (with_timestamp i aware)
        (filter (is_after T)
           (flat_map (dated pd i) (firstn k (batches file batch_size)))) /\
  disconnects (Run.trace run) = [].
Proof.
  intros Hn Hcol He Hm Hv HT Hi Hhas Hconv Hk Herr Hins run.
  set (mk := with_rows file).
  assert (Hsplit : batches file batch_size =
                   (firstn k (batches file batch_size)
                    ++ nth k (batches file batch_size) []
                       :: skipn (S k) (batches file batch_size))%list).
  { rewrite <- (firstn_skipn k (batches file batch_size)) at 1. f_equal.
    clear -Hk. revert k Hk.
    induction (batches file batch_size) as [|b bs IH]; intros [|k] Hk; cbn in Hk |- *;
      try lia; [reflexivity|]. apply IH. lia. }
  assert (Hbefore : Forall (filtered pd col i aware)
                      (map mk (firstn k (batches file batch_size)))).
  { apply Forall_map, Forall_forall. intros b Hb. unfold mk; cbn [rows with_rows]; change (columns (with_rows file b)) with (columns file).
    split; [exact Hi|]. split.
    - rewrite forallb_forall in Hconv. now apply Hconv.
    - apply forallb_forall. intros r Hr. rewrite forallb_forall in Hhas.
      apply Hhas. rewrite <- (LoaderProps.concat_batches file batch_size Hn).
      apply in_concat. exists b. split; [|exact Hr].
      rewrite Hsplit. apply in_or_app. now left. }
  destruct (load_chunks_raising pd wh table watermark col i aware T Hins Hv HT
              (map mk (firstn k (batches file batch_size)))
              (mk (nth k (batches file batch_size) []))
              (map mk (skipn (S k) (batches file batch_size))) e
              Hbefore Hi Herr 0 0 0) as (trl & Hl & Il).
  rewrite LoaderProps.flat_map_map in Il. unfold mk in Il; cbn [rows] in Il.
  assert (Hchunks : map mk (batches file batch_size) =
                    (map mk (firstn k (batches file batch_size))
                     ++ mk (nth k (batches file batch_size) [])
                        :: map mk (skipn (S k) (batches file batch_size)))%list).
  { rewrite Hsplit at 1. now rewrite map_app. }
  assert (Hrun : exists tr, run = (tr, inl e) /\ inserted_rows tr = inserted_rows trl).
  { unfold run, load_csv_to_clickhouse.
    unfold log at 1. cbn [Run.bind Run.emit].
    rewrite (RunFacts.bind_ok _ _ _ _
               (LoaderProps.get_max_timestamp_found wh database table col watermark
                  Hcol He Hm)).
    cbn [fst snd]. unfold log at 1. cbn [Run.bind Run.emit].
    rewrite (LoaderProps.read_csv_batches file batch_size Hn).
    cbn [lift Run.bind fst snd]. fold mk. rewrite Hchunks, Hl.
    cbn [fst snd Run.bind Run.emit Run.raise log Run.catch app].
    eexists; split; [reflexivity|].
    unfold inserted_rows.
    repeat (progress cbn [flat_map app] || rewrite flat_map_app).
    now rewrite app_nil_r. }
  destruct Hrun as (tr & Hrun & Hin).
  assert (Hout : Run.outcome run = inl e) by now rewrite Hrun.
  split; [exact Hout|]. split.
  - rewrite Hrun. unfold Run.trace; cbn [fst]. now rewrite Hin, Il.
  - now apply (raising_run_disconnects pd wh (Parsed file) host database table user
                 password batch_size true (Some col) e).
Qed.

(** X23. When [pd.to_datetime] raises on the timestamp column of a chunk,
    the chunks before it having been filtered, the incremental load of a
    table with a watermark fails with what pandas raised: of the chunks
    before, the rows newer than the watermark have been inserted and stay
    so; of this chunk and the later ones nothing is inserted; the client
    is left undisconnected. *)
Theorem bad_timestamp_fails_the_load
    (pd : pandas)
    (wh : warehouse) (file : csv) (host database table user password : string)
    (batch_size : nat) (col : string) (i : nat) (watermark : dbvalue)
    (aware : bool) (T : instant) (k : nat) (e : exn) :
  1 <= batch_size ->
  col <> "" ->
  first_value (exists_reply wh) = inr (DbInt 1) ->
  first_value (max_reply wh) = inr watermark ->
  truthy watermark = true ->
  to_datetime_scalar pd watermark = inr (Timestamp aware T) ->
  index_of col (columns file) = Some i ->
  forallb (has_column i) (rows file) = true ->
  forallb (converts pd aware i) (firstn k (batches file batch_size)) = true ->
  k < List.length (batches file batch_size) ->
  to_datetime_series pd (column i (nth k (batches file batch_size) [])) = inl e ->
  (forall n, insert_ok wh n = true) ->
  let run := load_csv_to_clickhouse pd wh (Parsed file) host database table
               user password batch_size true (Some col) in
  Run.outcome run = inl e /\
  inserted_rows (Run.trace run) =
    map (with_timestamp i aware)
        (filter (is_after T)
           (flat_map (dated pd i) (firstn k (batches file batch_size)))) /\
  disconnects (Run.trace run) = [].
Proof.
  intros Hn Hcol He Hm Hv HT Hi Hhas Hconv Hk Herr Hins.
  apply (run_stops_at_batch pd wh file host database table user password batch_size
           col i watermark aware T k e); try assumption.
  unfold filter_error. now rewrite Herr.
Qed.

Lemma bad_timestamp_fails_the_load_witness :
  let run := load_csv_to_clickhouse pandas_on_integers loaded_until_100
               (Parsed signups_with_text)
               "ch.local" "quotes" "quote_suscribers" "default" "" 2 true
               (Some "Timestamp") in
  Run.outcome run = inl (ValueError BadDate) /\
  inserted_rows (Run.trace run) = [[CStr "b@x.com"; CTimestamp false 150000%Z]] /\
  disconnects (Run.trace run) = [].
Proof.
  apply (bad_timestamp_fails_the_load pandas_on_integers loaded_until_100
           signups_with_text "ch.local" "quotes" "quote_suscribers" "default" "" 2
           "Timestamp" 1 (DbDatetime false 100) false 100000%Z 1
           (ValueError BadDate));
    try reflexivity; try discriminate; cbn; lia.
Defined.

(** X29. A watermark with a time zone against timestamps without one, or
    the other way round, makes the incremental load fail with
    [TypeError] at the first chunk where the two meet: when pandas reads
    the maximum of the table as a timestamp of one kind and the timestamp
    column of a chunk as timestamps of the other, the chunks before it
    having been filtered, the comparison of line 185 raises; of this
    chunk and the later ones nothing is inserted, and the client is left
    undisconnected. *)
Theorem time_zone_mismatch_fails_the_load
    (pd : pandas)
    (wh : warehouse) (file : csv) (host database table user password : string)
    (batch_size : nat) (col : string) (i : nat) (watermark : dbvalue)
    (aware : bool) (T : instant) (k : nat) :
  1 <= batch_size ->
  col <> "" ->
  first_value (exists_reply wh) = inr (DbInt 1) ->
  first_value (max_reply wh) = inr watermark ->
  truthy watermark = true ->
  to_datetime_scalar pd watermark = inr (Timestamp aware T) ->
  index_of col (columns file) = Some i ->
  forallb (has_column i) (rows file) = true ->
  forallb (converts pd aware i) (firstn k (batches file batch_size)) = true ->
  k < List.length (batches file batch_size) ->
  converts pd (negb aware) i (nth k (batches file batch_size) []) = true ->
  (forall n, insert_ok wh n = true) ->
  let run := load_csv_to_clickhouse pd wh (Parsed file) host database table
               user password batch_size true (Some col) in
  Run.outcome run = inl TypeError /\
  inserted_rows (Run.trace run) =
    map (with_timestamp i aware)
        (filter (is_after T)
           (flat_map (dated pd i) (firstn k (batches file batch_size)))) /\
  disconnects (Run.trace run) = [].
Proof.
  intros Hn Hcol He Hm Hv HT Hi Hhas Hconv Hk Hother Hins.
  apply (run_stops_at_batch pd wh file host database table user password batch_size
           col i watermark aware T k TypeError); try assumption.
  destruct (LoaderProps.converts_spec pd (negb aware) i _ Hother)
    as (stamps & Hs & Haw & _).
  unfold filter_error. rewrite Hs, Haw. now destruct aware.
Qed.

Lemma time_zone_mismatch_fails_the_load_witness :
  let run := load_csv_to_clickhouse pandas_on_integers loaded_until_100_utc
               (Parsed signups)
               "ch.local" "quotes" "quote_suscribers" "default" "" 2 true
               (Some "Timestamp") in
  Run.outcome run = inl TypeError /\
  inserted_rows (Run.trace run) = [] /\
  disconnects (Run.trace run) = [].
Proof.
  apply (time_zone_mismatch_fails_the_load pandas_on_integers loaded_until_100_utc
           signups "ch.local" "quotes" "quote_suscribers" "default" "" 2
           "Timestamp" 1 (DbDatetime true 100) true 100000%Z 0);
    try reflexivity; try discriminate; cbn; lia.
Defined.


End LoaderMore.

(** ** The CSV file and the script of src/ingest.py *)

Module ScriptMore.
Import CsvFile.

Lemma head_without_slash (p : string) :
  BroadcasterTrace.count_char "/" p = 0 -> head p = EmptyString.
Proof.
  induction p as [|c p IH]; cbn [head BroadcasterTrace.count_char]; [reflexivity|].
  unfold is_slash. destruct (Ascii.eqb c "/"); [discriminate|].
  intros H. now rewrite IH.
Qed.

Lemma dirname_without_slash (p : string) :
  BroadcasterTrace.count_char "/" p = 0 -> dirname p = EmptyString.
Proof. intros H. unfold dirname. now rewrite head_without_slash. Qed.

(** X24. For a path that is a bare file name, and whenever [create_path]
    is off, [save_to_csv] makes no directory and does not even ask
    whether one exists: it writes the table once to the path given,
    returns when the write succeeds, and logs and re-raises when it
    fails. *)
Theorem save_to_csv_bare_file_name (fs : filesystem) (df : Sheet.dataframe)
    (filepath : string) (create_path : bool) :
  BroadcasterTrace.count_char "/" filepath = 0 \/ create_path = false ->
  save_to_csv fs df filepath create_path =
    if write_ok fs filepath
    then ([Log INFO (MsgSaving filepath); ToCsv filepath df;
           Log INFO (MsgSaved filepath)], inr tt)
    else ([Log INFO (MsgSaving filepath); ToCsv filepath df;
           Log ERROR MsgFailedSave], inl OSError).
Proof.
  intros H. unfold save_to_csv.
  assert (Hskip : (if create_path
                   then if PyStr.truthy (dirname filepath)
                           && negb (path_exists fs (dirname filepath))
                        then (Run.emit (MakeDirs (dirname filepath)) ;;
                              (if makedirs_ok fs (dirname filepath)
                               then Run.ret tt else Run.raise OSError) ;;
                              log INFO (MsgCreatedDirectory (dirname filepath)))%run
                        else Run.ret tt
                   else Run.ret tt) = (Run.ret tt : M unit)).
  { destruct H as [H| ->]; [|reflexivity].
    rewrite (dirname_without_slash filepath H). now destruct create_path. }
  cbv zeta. rewrite Hskip.
  destruct (write_ok fs filepath); reflexivity.
Qed.

Lemma save_to_csv_bare_file_name_witness :
  save_to_csv {| path_exists := fun _ => false; makedirs_ok := fun _ => false;
                 write_ok := fun _ => true |}
    Sheet.cleaned_once "subscribers.csv" true =
  ([Log INFO (MsgSaving "subscribers.csv"); ToCsv "subscribers.csv" Sheet.cleaned_once;
    Log INFO (MsgSaved "subscribers.csv")], inr tt).
Proof.
  apply (save_to_csv_bare_file_name
           {| path_exists := fun _ => false; makedirs_ok := fun _ => false;
              write_ok := fun _ => true |}
           Sheet.cleaned_once "subscribers.csv" true).
  left; reflexivity.
Defined.

Lemma save_to_csv_cases (fs : filesystem) (df : Sheet.dataframe) (filepath : string)
    (create_path : bool) :
  let directory := dirname filepath in
  let make := create_path && PyStr.truthy directory && negb (path_exists fs directory) in
  let stuck := make && negb (makedirs_ok fs directory) in
  let run := save_to_csv fs df filepath create_path in
  made_directories (Run.trace run) = (if make then [directory] else []) /\
  writes (Run.trace run) = (if stuck then [] else [ToCsv filepath df]) /\
  Run.outcome run = (if stuck || negb (write_ok fs filepath) then inl OSError else inr tt) /\
  last (Run.trace run) (Log ERROR MsgFailedSave) =
    (if stuck || negb (write_ok fs filepath) then Log ERROR MsgFailedSave
     else Log INFO (MsgSaved filepath)).
Proof.
  unfold save_to_csv.
  destruct create_path; cbn [andb];
    [destruct (PyStr.truthy (dirname filepath) && negb (path_exists fs (dirname filepath)));
       [destruct (makedirs_ok fs (dirname filepath))|]|];
    destruct (write_ok fs filepath); cbn; repeat split.
Qed.

Lemma save_to_csv_succeeds (fs : filesystem) (df : Sheet.dataframe) (filepath : string)
    (create_path : bool) :
  makedirs_ok fs (dirname filepath) = true ->
  write_ok fs filepath = true ->
  Run.outcome (save_to_csv fs df filepath create_path) = inr tt /\
  writes (Run.trace (save_to_csv fs df filepath create_path)) = [ToCsv filepath df].
Proof.
  intros Hmk Hwr.
  destruct (save_to_csv_cases fs df filepath create_path) as (_ & Hw & Ho & _).
  rewrite Hmk, Hwr, andb_false_r in *. now split.
Qed.

(** X27. What [save_to_csv] does to the file system: the directory of
    the path is made exactly when [create_path] holds and the directory
    has a name and does not exist yet; the table is written once to the
    path unless that making failed, in which case nothing is written; the
    call returns, its last record being the one of the success, unless the
    making or the write failed, and then it raises with the ERROR record as
    its last event. *)
Theorem save_to_csv_effects (fs : filesystem) (df : Sheet.dataframe) (filepath : string)
    (create_path : bool) :
  let directory := dirname filepath in
  let make := create_path && PyStr.truthy directory && negb (path_exists fs directory) in
  let stuck := make && negb (makedirs_ok fs directory) in
  let run := save_to_csv fs df filepath create_path in
  made_directories (Run.trace run) = (if make then [directory] else []) /\
  writes (Run.trace run) = (if stuck then [] else [ToCsv filepath df]) /\
  Run.outcome run = (if stuck || negb (write_ok fs filepath) then inl OSError else inr tt) /\
  last (Run.trace run) (Log ERROR MsgFailedSave) =
    (if stuck || negb (write_ok fs filepath) then Log ERROR MsgFailedSave
     else Log INFO (MsgSaved filepath)).
Proof. exact (save_to_csv_cases fs df filepath create_path). Qed.

Import IngestScript.

Lemma call_returns {E X A} (fe : E -> event) (fx : X -> IngestScript.exn)
    (m : Run.t E X A) (a : A) :
  Run.outcome m = inr a -> call fe fx m = (map fe (Run.trace m), inr a).
Proof. unfold call, Run.outcome, Run.trace. now intros ->. Qed.

Lemma call_raises {E X A} (fe : E -> event) (fx : X -> IngestScript.exn)
    (m : Run.t E X A) (x : X) :
  Run.outcome m = inl x -> call fe fx m = (map fe (Run.trace m), inl (fx x)).
Proof. unfold call, Run.outcome, Run.trace. now intros ->. Qed.


Lemma sheet_events_sheet (tr : list Sheet.event) :
  sheet_events (map SheetEvent tr) = tr.
Proof. induction tr as [|ev tr IH]; cbn; [reflexivity | f_equal; exact IH]. Qed.

Lemma sheet_events_file (tr : list CsvFile.event) :
  sheet_events (map FileEvent tr) = [].
Proof. induction tr as [|ev tr IH]; cbn; [reflexivity | exact IH]. Qed.

Lemma sheet_events_loader (tr : list Loader.event) :
  sheet_events (map LoaderEvent tr) = [].
Proof. induction tr as [|ev tr IH]; cbn; [reflexivity | exact IH]. Qed.

Lemma file_events_sheet (tr : list Sheet.event) :
  file_events (map SheetEvent tr) = [].
Proof. induction tr as [|ev tr IH]; cbn; [reflexivity | exact IH]. Qed.

Lemma file_events_file (tr : list CsvFile.event) :
  file_events (map FileEvent tr) = tr.
Proof. induction tr as [|ev tr IH]; cbn; [reflexivity | f_equal; exact IH]. Qed.

Lemma file_events_loader (tr : list Loader.event) :
  file_events (map LoaderEvent tr) = [].
Proof. induction tr as [|ev tr IH]; cbn; [reflexivity | exact IH]. Qed.

Lemma loader_events_sheet (tr : list Sheet.event) :
  loader_events (map SheetEvent tr) = [].
Proof. induction tr as [|ev tr IH]; cbn; [reflexivity | exact IH]. Qed.

Lemma loader_events_file (tr : list CsvFile.event) :
  loader_events (map FileEvent tr) = [].
Proof. induction tr as [|ev tr IH]; cbn; [reflexivity | exact IH]. Qed.

Lemma loader_events_loader (tr : list Loader.event) :
  loader_events (map LoaderEvent tr) = tr.
Proof. induction tr as [|ev tr IH]; cbn; [reflexivity | f_equal; exact IH]. Qed.

Ltac project_events :=
  unfold Run.trace; cbn [fst];
  unfold sheet_events, file_events, loader_events;
  rewrite ?flat_map_app;
  fold sheet_events; fold file_events; fold loader_events;
  rewrite ?sheet_events_sheet, ?sheet_events_file, ?sheet_events_loader,
          ?file_events_sheet, ?file_events_file, ?file_events_loader,
          ?loader_events_sheet, ?loader_events_file, ?loader_events_loader,
          ?app_nil_r; cbn [app].



Section WithLibraries.
Context {element : Type}.
Variable find_all_table : string -> list element.
Variable read_html : element -> option Sheet.dataframe.
Variable pd : Loader.pandas.
Variable read_back : Sheet.dataframe -> Loader.csv_file.

(** Every extraction asks for the sheet once. *)
Lemma extract_to_df_requests (reply : Sheet.fetch_reply) (sheet_url : string) :
  requests (Run.trace (Sheet.extract_to_df find_all_table read_html reply sheet_url))
  = [Sheet.HttpGet sheet_url 30].
Proof.
  unfold Sheet.extract_to_df.
  destruct reply as [|status_code text]; cbn; [reflexivity|].
  unfold Sheet.raise_for_status.
  destruct ((400 <=? status_code) && (status_code <? 600))%Z; cbn; [reflexivity|].
  destruct (find_all_table text) as [|first rest]; cbn; [reflexivity|].
  destruct (read_html first); reflexivity.
Qed.

Lemma clean_dataframe_requests (df : Sheet.dataframe) :
  requests (Run.trace (Sheet.clean_dataframe df)) = [].
Proof.
  unfold Sheet.clean_dataframe.
  generalize (Sheet.dropna_columns (Sheet.dropna_rows df)). intros [cols rws].
  cbn [Sheet.rows Sheet.columns].
  destruct rws as [|r0 rs]; [reflexivity|].
  destruct cols as [|c0 cs]; [reflexivity|].
  destruct (forallb Sheet.starts_with_digit
              (map Sheet.astype_str (Sheet.column 0 (r0 :: rs))));
    cbn [Run.bind Run.ret Run.emit Run.catch Sheet.log app fst snd Sheet.rows
         Sheet.columns Sheet.drop_first_column map Run.trace];
    match goal with
    | |- context [(?a <? ?b)%nat] => destruct (a <? b)%nat
    end;
    try match goal with
    | |- context [negb ?b] => destruct (negb b)
    end; reflexivity.
Qed.

(** X25. When the page fetched the second time holds no table, the
    script ends in the first cleaning with [IndexError]: both fetches have
    been made, no file is written and the warehouse is not approached. *)
Theorem script_fails_on_page_without_table (env : environment) (w : world)
    (first : Sheet.dataframe) (status_code : Z) (text : string) :
  Run.outcome (Sheet.extract_to_df find_all_table read_html (first_fetch w)
                 (google_sheet env)) = inr first ->
  second_fetch w = Sheet.Response status_code text ->
  ((400 <=? status_code) && (status_code <? 600))%Z = false ->
  find_all_table text = [] ->
  let run := script find_all_table read_html pd read_back env w in
  Run.outcome run = inl (FromSheet Sheet.IndexError) /\
  requests (sheet_events (Run.trace run)) =
    [Sheet.HttpGet (google_sheet env) 30; Sheet.HttpGet (google_sheet env) 30] /\
  file_events (Run.trace run) = [] /\
  loader_events (Run.trace run) = [].
Proof.
  intros H1 H2 Hst Hnone run.
  assert (E2 : Run.outcome (Sheet.extract_to_df find_all_table read_html (second_fetch w)
                              (google_sheet env)) = inr Sheet.empty_frame).
  { rewrite H2. unfold Sheet.extract_to_df. cbn. unfold Sheet.raise_for_status.
    rewrite Hst. cbn. now rewrite Hnone. }
  pose proof (extract_to_df_requests (first_fetch w) (google_sheet env)) as R1.
  pose proof (extract_to_df_requests (second_fetch w) (google_sheet env)) as R2.
  unfold run, script.
  rewrite (call_returns _ _ _ _ H1), (call_returns _ _ _ _ E2).
  rewrite (RunFacts.bind_ok _ _ _ _ eq_refl); cbn beta.
  rewrite (RunFacts.bind_ok _ _ _ _ eq_refl); cbn beta.
  rewrite (call_raises SheetEvent FromSheet (Sheet.clean_dataframe Sheet.empty_frame)
             Sheet.IndexError eq_refl).
  rewrite (RunFacts.bind_raised _ _ _ _ eq_refl).
  unfold Run.outcome; cbn [fst snd].
  split; [reflexivity|].
  project_events.
  unfold requests, Run.trace in *. rewrite !filter_app, R1, R2.
  repeat split.
Qed.

(** X26. When both fetches give a table, the cleaning of the second one
    returns a table with columns, the directory of the CSV can be made,
    the write goes through, [pd.read_csv] reads the file just written
    back as the table [file], and every insert goes through, the script
    runs to its end: it has asked for the sheet twice, written the cleaned
    table once, and loaded all of [file] in batches of 1000 without asking
    the warehouse what it already holds, so that every row read back is
    inserted again on every run. *)
Theorem script_reloads_the_whole_sheet (env : environment) (w : world)
    (first df df_clean : Sheet.dataframe) (file : Loader.csv) :
  Run.outcome (Sheet.extract_to_df find_all_table read_html (first_fetch w)
                 (google_sheet env)) = inr first ->
  Run.outcome (Sheet.extract_to_df find_all_table read_html (second_fetch w)
                 (google_sheet env)) = inr df ->
  Run.outcome (Sheet.clean_dataframe df) = inr df_clean ->
  Sheet.columns df_clean <> [] ->
  makedirs_ok (fs w) (dirname (CSV_FILE_PATH env)) = true ->
  write_ok (fs w) (CSV_FILE_PATH env) = true ->
  read_back df_clean = Loader.Parsed file ->
  (forall n, Loader.insert_ok (wh w) n = true) ->
  let run := script find_all_table read_html pd read_back env w in
  Run.outcome run = inr tt /\
  requests (sheet_events (Run.trace run)) =
    [Sheet.HttpGet (google_sheet env) 30; Sheet.HttpGet (google_sheet env) 30] /\
  writes (file_events (Run.trace run)) = [ToCsv (CSV_FILE_PATH env) df_clean] /\
  Loader.statements (loader_events (Run.trace run)) =
    map (Loader.InsertInto (sub_table env) (Loader.columns file))
        (LoaderTrace.batches file 1000) /\
  Loader.inserted_rows (loader_events (Run.trace run)) = Loader.rows file /\
  Loader.complaints (loader_events (Run.trace run)) = [].
Proof.
  intros H1 H2 Hc Hcols Hmk Hwr Hback Hins run.
  pose proof (extract_to_df_requests (first_fetch w) (google_sheet env)) as R1.
  pose proof (extract_to_df_requests (second_fetch w) (google_sheet env)) as R2.
  pose proof (clean_dataframe_requests df) as R3.
  destruct (save_to_csv_succeeds (fs w) df_clean (CSV_FILE_PATH env) true Hmk Hwr)
    as [Hsave Hwrites].
  assert (Hfile : written_file read_back df_clean = Loader.Parsed file).
  { unfold written_file. destruct (Sheet.columns df_clean); [congruence | exact Hback]. }
  assert (Hn : 1 <= 1000) by lia.
  destruct (LoaderMore.run_unfiltered pd (wh w) file
              (click_host env) (click_database env) (sub_table env) (click_user env)
              (click_password env) 1000 false None Hn Hins [] Loader.DbNull eq_refl)
    as (trl & Hrun & Hs & Hi & _ & Hcm); [reflexivity|].
  assert (Hload : Run.outcome (Loader.load_csv_to_clickhouse pd (wh w)
                    (Loader.Parsed file) (click_host env) (click_database env)
                    (sub_table env) (click_user env) (click_password env)
                    1000 false None) = inr tt) by now rewrite Hrun.
  unfold run, script.
  rewrite (call_returns _ _ _ _ H1).
  rewrite (RunFacts.bind_ok _ _ _ _ eq_refl); cbn beta.
  rewrite (call_returns _ _ _ _ H2).
  rewrite (RunFacts.bind_ok _ _ _ _ eq_refl); cbn beta.
  rewrite (call_returns _ _ _ _ Hc).
  rewrite (RunFacts.bind_ok _ _ _ _ eq_refl); cbn beta.
  rewrite (RunFacts.bind_ok _ _ _ _ eq_refl); cbn beta.
  rewrite (call_returns _ _ _ _ Hsave).
  rewrite (RunFacts.bind_ok _ _ _ _ eq_refl); cbn beta.
  rewrite Hfile, (call_returns _ _ _ _ Hload).
  rewrite Hrun.
  unfold Run.outcome; cbn [fst snd].
  split; [reflexivity|].
  project_events.
  unfold requests, Run.trace in *. rewrite !filter_app, R1, R2, R3.
  cbn in Hs, Hi.
  repeat split; assumption.
Qed.

End WithLibraries.

Lemma script_fails_on_page_without_table_witness :
  let run := script Sheet.no_tables Sheet.unreadable Loader.pandas_on_integers
               read_back_text deployment page_empty in
  Run.outcome run = inl (FromSheet Sheet.IndexError) /\
  requests (sheet_events (Run.trace run)) =
    [Sheet.HttpGet (google_sheet deployment) 30;
     Sheet.HttpGet (google_sheet deployment) 30] /\
  file_events (Run.trace run) = [] /\
  loader_events (Run.trace run) = [].
Proof.
  apply (script_fails_on_page_without_table Sheet.no_tables Sheet.unreadable
           Loader.pandas_on_integers read_back_text deployment page_empty
           Sheet.empty_frame 200%Z "<html></html>"); reflexivity.
Defined.

Lemma script_reloads_the_whole_sheet_witness :
  let run := script one_table read_signup_sheet Loader.pandas_on_integers
               read_back_text deployment page_served in
  Run.outcome run = inr tt /\
  requests (sheet_events (Run.trace run)) =
    [Sheet.HttpGet (google_sheet deployment) 30;
     Sheet.HttpGet (google_sheet deployment) 30] /\
  writes (file_events (Run.trace run)) =
    [ToCsv (CSV_FILE_PATH deployment) Sheet.cleaned_once] /\
  Loader.statements (loader_events (Run.trace run)) =
    [Loader.InsertInto "quote_suscribers" ["First Name"; "Last Name"]
       [[Loader.CStr "Ada"; Loader.CStr "Lovelace"];
        [Loader.CStr "Bob"; Loader.CStr "Smith"]]] /\
  Loader.inserted_rows (loader_events (Run.trace run)) =
    [[Loader.CStr "Ada"; Loader.CStr "Lovelace"];
     [Loader.CStr "Bob"; Loader.CStr "Smith"]] /\
  Loader.complaints (loader_events (Run.trace run)) = [].
Proof.
  apply (script_reloads_the_whole_sheet one_table read_signup_sheet
           Loader.pandas_on_integers read_back_text deployment page_served
           Sheet.signup_sheet Sheet.signup_sheet Sheet.cleaned_once
           {| Loader.first_column := "First Name";
              Loader.more_columns := ["Last Name"];
              Loader.rows := [[Loader.CStr "Ada"; Loader.CStr "Lovelace"];
                              [Loader.CStr "Bob"; Loader.CStr "Smith"]] |});
    try reflexivity. discriminate.
Defined.

End ScriptMore.

